(** * ovh-dns.py: a shallow embedding of the OVH DNS management script

    The script [scripts/ovh-dns.py] loads a [.env] file into the process
    environment, signs requests for the OVH REST API, and offers the
    record operations [list], [add], [delete], [check] and [ip] on the
    command line.

    Conventions of the embedding.
    - A Python [str] is a Rocq [string] whose characters are the code
      points 0..255; [str.encode()] is UTF-8 on those code points.
    - [os.environ] is a [gmap string string].
    - Code that talks to the outside (HTTP through [requests], DNS
      resolution, [print], [sys.exit], exceptions) runs in the monad [M]
      below: the outside world is a state that is threaded through, every
      observable action is appended to a chronological event log. *)

From Stdlib Require Import ZArith List String Ascii Bool Lia.
From Stdlib Require Import DecimalString DecimalZ Sorted.
From stdpp Require Import base gmap strings.
Import ListNotations.
Open Scope string_scope.
Open Scope Z_scope.
Open Scope list_scope.

Arguments String.append !s1 s2 : simpl nomatch.

(** ** Python strings *)

Module PyStr.

Definition chr (n : nat) : ascii := ascii_of_nat n.
Definition ord (c : ascii) : Z := Z.of_nat (nat_of_ascii c).

(** [str.isspace] on the code points below 256. *)
Definition isspace (c : ascii) : bool :=
  let n := ord c in
  ((9 <=? n) && (n <=? 13)) || ((28 <=? n) && (n <=? 32))
  || (n =? 133) || (n =? 160).

Fixpoint lstrip (s : string) : string :=
  match s with
  | String c s' => if isspace c then lstrip s' else s
  | EmptyString => EmptyString
  end.

Fixpoint rstrip (s : string) : string :=
  match s with
  | String c s' =>
      match rstrip s' with
      | EmptyString => if isspace c then EmptyString else String c EmptyString
      | r => String c r
      end
  | EmptyString => EmptyString
  end.

(** [s.strip()] *)
Definition strip (s : string) : string := rstrip (lstrip s).

(** [s.startswith(p)] *)
Fixpoint startswith (p s : string) : bool :=
  match p, s with
  | EmptyString, _ => true
  | String a p', String b s' => Ascii.eqb a b && startswith p' s'
  | String _ _, EmptyString => false
  end.

(** [c in s] for a one-character [c]. *)
Fixpoint contains (c : ascii) (s : string) : bool :=
  match s with
  | String a s' => Ascii.eqb a c || contains c s'
  | EmptyString => false
  end.

(** [s.split(c, 1)] when [c] occurs in [s]: the text before the first
    [c] and the text after it. *)
Fixpoint split1 (c : ascii) (s : string) : string * string :=
  match s with
  | String a s' =>
      if Ascii.eqb a c then (EmptyString, s')
      else let '(k, v) := split1 c s' in (String a k, v)
  | EmptyString => (EmptyString, EmptyString)
  end.

(** Truth value of a string: non-empty. *)
Definition truthy (s : string) : bool :=
  match s with EmptyString => false | _ => true end.

(** [sep.join(l)] *)
Fixpoint join (sep : string) (l : list string) : string :=
  match l with
  | [] => ""
  | [x] => x
  | x :: rest => x +:+ sep +:+ join sep rest
  end.

(** [s.ljust(n)], what [format(s, "n")] does to a string. *)
Definition ljust (n : nat) (s : string) : string :=
  s +:+ string_of_list_ascii (repeat " "%char (n - String.length s)).

(** [str(n)] for an integer. *)
Definition of_Z (n : Z) : string := NilZero.string_of_int (Z.to_int n).

(** Python's [<] on strings: lexicographic on code points. *)
Fixpoint ltb (a b : string) : bool :=
  match a, b with
  | _, EmptyString => false
  | EmptyString, String _ _ => true
  | String x a', String y b' =>
      (ord x <? ord y) || ((ord x =? ord y) && ltb a' b')
  end.

End PyStr.

(** ** Outcomes of a computation

    A Python call returns a value, leaves through [sys.exit(code)]
    (argparse's [parser.error] is [sys.exit(2)]), or raises.  [Unmodelled]
    marks the few places where the script would go on with values whose
    Python rendering the embedding does not cover (see [Json.str]). *)

Inductive result (A : Type) : Type :=
| Ret (a : A)
| Exit (code : Z)
| Raise (exn : string)
| Unmodelled.
Arguments Ret {A} a.
Arguments Exit {A} code.
Arguments Raise {A} exn.
Arguments Unmodelled {A}.

(** ** Loading the [.env] file (module level, lines 25-33) *)

Module Env.

Abbreviation environ := (gmap string string).

Definition NUL : ascii := PyStr.chr 0.

(** [os.environ.setdefault(key, value)]: a key that is present is left
    alone; otherwise the variable is set through [putenv], which
    refuses an embedded NUL (ValueError) and an empty name (OSError). *)
Definition setdefault (key value : string) (env : environ) : result environ :=
  match env !! key with
  | Some _ => Ret env
  | None =>
      if PyStr.contains NUL key || PyStr.contains NUL value
      then Raise "ValueError"
      else if PyStr.truthy key then Ret (<[key := value]> env)
      else Raise "OSError"
  end.

(** The test of line 31 on the stripped line, and the split of line 32
    with both halves stripped. *)
Definition parse_line (raw : string) : option (string * string) :=
  let line := PyStr.strip raw in
  if PyStr.truthy line && negb (PyStr.startswith "#" line)
     && PyStr.contains "="%char line
  then let '(key, value) := PyStr.split1 "="%char line in
       Some (PyStr.strip key, PyStr.strip value)
  else None.

(** The loop of lines 29-33 over the lines of the file. *)
Fixpoint load_env (lines : list string) (env : environ) : result environ :=
  match lines with
  | [] => Ret env
  | raw :: rest =>
      match parse_line raw with
      | Some (key, value) =>
          match setdefault key value env with
          | Ret env' => load_env rest env'
          | other => other
          end
      | None => load_env rest env
      end
  end.

(** The value the file gives to [k]: that of the first line that
    assigns [k]. *)
Fixpoint first_assignment (k : string) (lines : list string) : option string :=
  match lines with
  | [] => None
  | raw :: rest =>
      match parse_line raw with
      | Some (key, value) =>
          if String.eqb key k then Some value else first_assignment k rest
      | None => first_assignment k rest
      end
  end.

End Env.

(** ** Decoded JSON values, as [response.json()] returns them *)

Set Warnings "-register-all".

Inductive json : Type :=
| JNull
| JBool (b : bool)
| JInt (n : Z)
| JStr (s : string)
| JList (l : list json)
| JObj (kvs : list (string * json)).

Module Json.

Fixpoint lookup (key : string) (kvs : list (string * json)) : option json :=
  match kvs with
  | [] => None
  | (k, v) :: rest => if String.eqb k key then Some v else lookup key rest
  end.

(** [rec.get(key, default)]; only a dict has [get]. *)
Definition get_default (rec : json) (key : string) (default : json) : result json :=
  match rec with
  | JObj kvs => Ret (match lookup key kvs with Some v => v | None => default end)
  | _ => Raise "AttributeError"
  end.

(** [rec.get(key)] *)
Definition get (rec : json) (key : string) : result json :=
  get_default rec key JNull.

(** [v == s] for a string [s]. *)
Definition eq_str (v : json) (s : string) : bool :=
  match v with JStr s' => String.eqb s' s | _ => false end.

(** Truth value. *)
Definition truthy (v : json) : bool :=
  match v with
  | JNull => false
  | JBool b => b
  | JInt n => negb (n =? 0)
  | JStr s => PyStr.truthy s
  | JList l => match l with [] => false | _ => true end
  | JObj kvs => match kvs with [] => false | _ => true end
  end.

(** [f"{v}"], that is [str(v)].  The [repr] of lists and dicts is not
    covered: [None] there. *)
Definition str (v : json) : option string :=
  match v with
  | JNull => Some "None"
  | JBool true => Some "True"
  | JBool false => Some "False"
  | JInt n => Some (PyStr.of_Z n)
  | JStr s => Some s
  | JList _ | JObj _ => None
  end.

(** [for x in v]: a list gives its items, a dict its keys, a string
    its characters; nothing else is iterable. *)
Definition iter (v : json) : result (list json) :=
  match v with
  | JList l => Ret l
  | JObj kvs => Ret (map (fun kv => JStr (fst kv)) kvs)
  | JStr s => Ret (map (fun c => JStr (String c "")) (list_ascii_of_string s))
  | _ => Raise "TypeError"
  end.

Definition hexdigit (n : Z) : ascii :=
  match String.get (Z.to_nat n) "0123456789abcdef" with
  | Some c => c
  | None => "0"%char
  end.

Definition dquote : ascii := PyStr.chr 34.
Definition backslash : ascii := PyStr.chr 92.

(** One character of a string under [json.dumps] (ensure_ascii). *)
Definition escape_char (c : ascii) : string :=
  let n := PyStr.ord c in
  if n =? 34 then String backslash (String dquote "")
  else if n =? 92 then String backslash (String backslash "")
  else if n =? 10 then String backslash "n"
  else if n =? 13 then String backslash "r"
  else if n =? 9 then String backslash "t"
  else if n =? 8 then String backslash "b"
  else if n =? 12 then String backslash "f"
  else if (32 <=? n) && (n <=? 126) then String c ""
  else String backslash
         ("u00" +:+ String (hexdigit (n / 16)) (String (hexdigit (n mod 16)) "")).

Fixpoint escape (s : string) : string :=
  match s with
  | String c s' => escape_char c +:+ escape s'
  | EmptyString => EmptyString
  end.

(** [json.dumps(s)] for a string. *)
Definition dumps_str (s : string) : string :=
  String dquote (escape s +:+ String dquote "").

(** [json.dumps({"fieldType": t, "subDomain": s, "target": g, "ttl": n})]
    (lines 139-144). *)
Definition dumps_record (record_type subdomain target : string) (ttl : Z) : string :=
  "{" +:+ dumps_str "fieldType" +:+ ": " +:+ dumps_str record_type
      +:+ ", " +:+ dumps_str "subDomain" +:+ ": " +:+ dumps_str subdomain
      +:+ ", " +:+ dumps_str "target" +:+ ": " +:+ dumps_str target
      +:+ ", " +:+ dumps_str "ttl" +:+ ": " +:+ PyStr.of_Z ttl +:+ "}".

End Json.

(** ** SHA-1 ([hashlib.sha1], FIPS 180-4) on byte strings *)

Module Sha1.

Definition word := 4294967296.   (* 2^32 *)

Definition add32 (x y : Z) : Z := (x + y) mod word.
Definition rotl (n x : Z) : Z :=
  Z.lor (Z.shiftl x n mod word) (Z.shiftr x (32 - n)).
Definition not32 (x : Z) : Z := Z.lxor x (word - 1).

(** [s.encode()]: UTF-8 of the code points below 256. *)
Definition encode (s : string) : list Z :=
  flat_map (fun c => let n := PyStr.ord c in
                     if n <? 128 then [n] else [192 + n / 64; 128 + n mod 64])
           (list_ascii_of_string s).

Definition be_bytes (count : nat) (x : Z) : list Z :=
  map (fun i => Z.shiftr x (8 * Z.of_nat i) mod 256) (rev (seq 0 count)).

(** Padding: a 1 bit, zeros up to 56 mod 64, the bit length on 8 bytes. *)
Definition pad (msg : list Z) : list Z :=
  let len := Z.of_nat (length msg) in
  msg ++ [128] ++ repeat 0 (Z.to_nat ((55 - len) mod 64)) ++ be_bytes 8 (8 * len).

Fixpoint be_words (bytes : list Z) : list Z :=
  match bytes with
  | a :: b :: c :: d :: rest =>
      (((a * 256 + b) * 256 + c) * 256 + d) :: be_words rest
  | _ => []
  end.

(** The message schedule beyond the first 16 words; [win] holds the 16
    most recent words, oldest first. *)
Fixpoint expand (n : nat) (win : list Z) : list Z :=
  match n with
  | O => []
  | S n' =>
      let wt := rotl 1 (Z.lxor (Z.lxor (Z.lxor (nth 13 win 0) (nth 8 win 0))
                                       (nth 2 win 0)) (nth 0 win 0)) in
      wt :: expand n' (tl win ++ [wt])
  end.

Definition schedule (ws : list Z) : list Z := ws ++ expand 64 ws.

Definition state : Type := Z * Z * Z * Z * Z.

Definition f_k (t : nat) (b c d : Z) : Z * Z :=
  if (t <? 20)%nat then (Z.lor (Z.land b c) (Z.land (not32 b) d), 1518500249)
  else if (t <? 40)%nat then (Z.lxor (Z.lxor b c) d, 1859775393)
  else if (t <? 60)%nat
       then (Z.lor (Z.lor (Z.land b c) (Z.land b d)) (Z.land c d), 2400959708)
  else (Z.lxor (Z.lxor b c) d, 3395469782).

Fixpoint rounds (t : nat) (ws : list Z) (s : state) : state :=
  match ws with
  | [] => s
  | wt :: rest =>
      let '(a, b, c, d, e) := s in
      let '(f, k) := f_k t b c d in
      let temp := add32 (add32 (add32 (add32 (rotl 5 a) f) e) k) wt in
      rounds (S t) rest (temp, a, rotl 30 b, c, d)
  end.

Definition compress (h : state) (block : list Z) : state :=
  let '(h0, h1, h2, h3, h4) := h in
  let '(a, b, c, d, e) := rounds 0 (schedule (be_words block)) h in
  (add32 h0 a, add32 h1 b, add32 h2 c, add32 h3 d, add32 h4 e).

(** Cuts the padded message in 64-byte blocks; [n] bounds their number. *)
Fixpoint blocks (n : nat) (bytes : list Z) : list (list Z) :=
  match n, bytes with
  | S n', _ :: _ => firstn 64 bytes :: blocks n' (skipn 64 bytes)
  | _, _ => []
  end.

Definition init : state :=
  (1732584193, 4023233417, 2562383102, 271733878, 3285377520).

Definition digest (msg : list Z) : state :=
  let p := pad msg in
  fold_left compress (blocks (length p) p) init.

Definition hex32 (x : Z) : string :=
  string_of_list_ascii
    (map (fun i => Json.hexdigit (Z.shiftr x (4 * Z.of_nat i) mod 16))
         (rev (seq 0 8))).

Definition hex (s : state) : string :=
  let '(h0, h1, h2, h3, h4) := s in
  hex32 h0 +:+ hex32 h1 +:+ hex32 h2 +:+ hex32 h3 +:+ hex32 h4.

(** [hashlib.sha1(s.encode()).hexdigest()] *)
Definition hexdigest (s : string) : string := hex (digest (encode s)).

End Sha1.

(** ** The outside world

    What the script cannot decide itself: the answers of the HTTP servers
    ([requests] raises instead of answering: [None]) and of the resolver
    ([socket.gaierror]: [None]).  [json_body] is the decoded body, [None]
    when [response.json()] raises. *)

Record request : Type := Request {
  meth : string;
  url : string;
  headers : list (string * string);
  data : option string;
  timeout : option Z
}.

Record response : Type := Response {
  status_code : Z;
  text : string;
  json_body : option json
}.

Inductive event : Type :=
| Http (rq : request) (rs : option response)
| Print (line : string)
| Lookup (host : string) (answer : option string).

Class Outside (W : Type) : Type := {
  net : W -> request -> option response * W;
  gethostbyname : W -> string -> option string * W
}.

(** ** The monad of the script *)

Definition M (W A : Type) : Type := W -> result A * W * list event.

Definition ret {W A} (a : A) : M W A := fun w => (Ret a, w, []).

Definition bind {W A B} (m : M W A) (k : A -> M W B) : M W B :=
  fun w =>
    match m w with
    | (Ret a, w1, l1) => let '(r, w2, l2) := k a w1 in (r, w2, l1 ++ l2)
    | (Exit c, w1, l1) => (Exit c, w1, l1)
    | (Raise e, w1, l1) => (Raise e, w1, l1)
    | (Unmodelled, w1, l1) => (Unmodelled, w1, l1)
    end.

Notation "x <- m ;; k" := (bind m (fun x => k))
  (at level 100, m at next level, right associativity).
Notation "m ;; k" := (bind m (fun _ => k))
  (at level 100, right associativity).

(** [print(line)] *)
Definition print {W} (line : string) : M W unit :=
  fun w => (Ret tt, w, [Print line]).

(** [sys.exit(code)] *)
Definition exit {W A} (code : Z) : M W A := fun w => (Exit code, w, []).

(** A pure step that may raise. *)
Definition lift {W A} (r : result A) : M W A := fun w => (r, w, []).

(** [try: m  except: handler] with a bare [except], which also catches
    [SystemExit]. *)
Definition try_except {W A} (m handler : M W A) : M W A :=
  fun w =>
    match m w with
    | (Exit _, w1, l1) | (Raise _, w1, l1) =>
        let '(r, w2, l2) := handler w1 in (r, w2, l1 ++ l2)
    | other => other
    end.

(** One call of [requests]: the exchange is logged, no answer raises. *)
Definition send {W} `{Outside W} (rq : request) : M W response :=
  fun w =>
    let '(rs, w') := net w rq in
    (match rs with Some r => Ret r | None => Raise "RequestException" end,
     w', [Http rq rs]).

(** [response.json()] *)
Definition json_of {W} (r : response) : M W json :=
  lift (match json_body r with Some j => Ret j | None => Raise "JSONDecodeError" end).

(** [f"{v}"] for a decoded value. *)
Definition fmt {W} (v : json) : M W string :=
  lift (match Json.str v with Some s => Ret s | None => Unmodelled end).

Definition OVH_ENDPOINT : string := "https://eu.api.ovh.com/1.0".

(** The two requests of [get_server_ip]:
    [requests.get(url, timeout=5)]. *)
Definition ipify : request := Request "GET" "https://api.ipify.org" [] None (Some 5).
Definition ifconfig : request := Request "GET" "https://ifconfig.me" [] None (Some 5).

(** The request for the server time (line 64). *)
Definition time_request : request :=
  Request "GET" (OVH_ENDPOINT +:+ "/auth/time") [] None None.

(** Lines 66-68: the string that is signed and the signature. *)
Definition to_sign (app_secret consumer_key method path body server_time : string)
  : string :=
  app_secret +:+ "+" +:+ consumer_key +:+ "+" +:+ method +:+ "+"
    +:+ OVH_ENDPOINT +:+ path +:+ "+" +:+ body +:+ "+" +:+ server_time.

Definition signature (app_secret consumer_key method path body server_time : string)
  : string :=
  "$1$" +:+ Sha1.hexdigest
              (to_sign app_secret consumer_key method path body server_time).

(** [status in codes] *)
Definition status_in (codes : list Z) (r : response) : bool :=
  existsb (Z.eqb (status_code r)) codes.

Section Script.

Context {W : Type} `{Outside W}.

(** [os.environ] once the [.env] file is loaded. *)
Variable environ : gmap string string.

Definition getenv (name : string) : option string := environ !! name.

(** Truth value of [os.environ.get(name)]. *)
Definition is_set (v : option string) : bool :=
  match v with Some s => PyStr.truthy s | None => false end.

(** [get_server_ip] (lines 39-49) *)
Definition get_server_ip : M W (option string) :=
  try_except
    (response <- send ipify ;;
     ret (Some (PyStr.strip (text response))))
    (try_except
       (response <- send ifconfig ;;
        ret (Some (PyStr.strip (text response))))
       (ret None)).

(** [ovh_call] (lines 52-91) *)
Definition ovh_call (method path body : string) : M W response :=
  let app_key := getenv "OVH_APPLICATION_KEY" in
  let app_secret := getenv "OVH_APPLICATION_SECRET" in
  let consumer_key := getenv "OVH_CONSUMER_KEY" in
  if negb (forallb is_set [app_key; app_secret; consumer_key]) then
    print "Error: OVH API credentials not found in .env" ;;
    print "Required: OVH_APPLICATION_KEY, OVH_APPLICATION_SECRET, OVH_CONSUMER_KEY" ;;
    exit 1
  else
    let app_key := default "None" app_key in
    let app_secret := default "None" app_secret in
    let consumer_key := default "None" consumer_key in
    time <- send time_request ;;
    let server_time := text time in
    let signature := signature app_secret consumer_key method path body server_time in
    let headers := [("X-Ovh-Application", app_key);
                    ("X-Ovh-Consumer", consumer_key);
                    ("X-Ovh-Timestamp", server_time);
                    ("X-Ovh-Signature", signature);
                    ("Content-Type", "application/json")] in
    let url := OVH_ENDPOINT +:+ path in
    if String.eqb method "GET" then send (Request "GET" url headers None None)
    else if String.eqb method "POST" then send (Request "POST" url headers (Some body) None)
    else if String.eqb method "PUT" then send (Request "PUT" url headers (Some body) None)
    else if String.eqb method "DELETE" then send (Request "DELETE" url headers None None)
    else lift (Raise "ValueError").

(** The query of lines 96-103. *)
Definition list_path (domain : string) (record_type subdomain : option string)
  : string :=
  let path := "/domain/zone/" +:+ domain +:+ "/record" in
  let params :=
    (if is_set record_type then ["fieldType=" +:+ default "" record_type] else [])
    ++ (if is_set subdomain then ["subDomain=" +:+ default "" subdomain] else []) in
  match params with
  | [] => path
  | _ => path +:+ "?" +:+ PyStr.join "&" params
  end.

(** The loop of lines 113-116. *)
Fixpoint fetch_records (domain : string) (record_ids records : list json)
  : M W (list json) :=
  match record_ids with
  | [] => ret records
  | record_id :: rest =>
      id <- fmt record_id ;;
      r <- ovh_call "GET" ("/domain/zone/" +:+ domain +:+ "/record/" +:+ id) "" ;;
      if status_code r =? 200 then
        rec <- json_of r ;;
        fetch_records domain rest (records ++ [rec])
      else fetch_records domain rest records
  end.

(** [list_records] (lines 94-118) *)
Definition list_records (domain : string) (record_type subdomain : option string)
  : M W (list json) :=
  response <- ovh_call "GET" (list_path domain record_type subdomain) "" ;;
  if negb (status_code response =? 200) then
    print ("Error listing records: " +:+ text response) ;;
    ret []
  else
    record_ids <- json_of response ;;
    ids <- lift (Json.iter record_ids) ;;
    fetch_records domain ids [].

(** [refresh_zone] (lines 181-189) *)
Definition refresh_zone (domain : string) : M W bool :=
  response <- ovh_call "POST" ("/domain/zone/" +:+ domain +:+ "/refresh") "" ;;
  if status_in [200; 204] response then
    print ("Zone " +:+ domain +:+ " refreshed") ;;
    ret true
  else
    print ("Warning: Could not refresh zone: " +:+ text response) ;;
    ret false.

(** The loop of lines 163-171; [deleted] is the flag so far. *)
Fixpoint delete_loop (domain subdomain : string) (records : list json)
    (deleted : bool) : M W bool :=
  match records with
  | [] => ret deleted
  | rec :: rest =>
      sub <- lift (Json.get rec "subDomain") ;;
      if Json.eq_str sub subdomain then
        record_id <- lift (Json.get rec "id") ;;
        id <- fmt record_id ;;
        response <- ovh_call "DELETE"
                      ("/domain/zone/" +:+ domain +:+ "/record/" +:+ id) "" ;;
        if status_in [200; 204] response then
          print ("Deleted record: " +:+ subdomain +:+ "." +:+ domain
                   +:+ " (ID: " +:+ id +:+ ")") ;;
          delete_loop domain subdomain rest true
        else
          print ("Error deleting record " +:+ id +:+ ": " +:+ text response) ;;
          delete_loop domain subdomain rest deleted
      else delete_loop domain subdomain rest deleted
  end.

Definition not_found_message (domain subdomain record_type : string) : string :=
  "No " +:+ record_type +:+ " record found for " +:+ subdomain +:+ "." +:+ domain.

(** [delete_record] (lines 158-178) *)
Definition delete_record (domain subdomain record_type : string) : M W bool :=
  records <- list_records domain (Some record_type) (Some subdomain) ;;
  deleted <- delete_loop domain subdomain records false ;;
  (if deleted then refresh_zone domain ;; ret tt
   else match records with
        | [] => print (not_found_message domain subdomain record_type)
        | _ => ret tt
        end) ;;
  ret deleted.

Definition already_exists_message (domain subdomain target : string) : string :=
  "Record already exists: " +:+ subdomain +:+ "." +:+ domain +:+ " -> " +:+ target.

(** The loop of lines 127-136: [Some b] when the loop returns [b] from
    the function, [None] when it runs to its end. *)
Fixpoint add_loop (domain subdomain target record_type : string)
    (existing : list json) : M W (option bool) :=
  match existing with
  | [] => ret None
  | rec :: rest =>
      sub <- lift (Json.get rec "subDomain") ;;
      type <- lift (Json.get rec "fieldType") ;;
      if Json.eq_str sub subdomain && Json.eq_str type record_type then
        old <- lift (Json.get rec "target") ;;
        if Json.eq_str old target then
          print (already_exists_message domain subdomain target) ;;
          ret (Some true)
        else
          shown <- fmt old ;;
          print ("Record exists with different target: " +:+ shown) ;;
          print ("Updating to: " +:+ target) ;;
          delete_record domain subdomain record_type ;;
          add_loop domain subdomain target record_type rest
      else add_loop domain subdomain target record_type rest
  end.

(** [add_record] (lines 121-155) *)
Definition add_record (domain subdomain target record_type : string) (ttl : Z)
  : M W bool :=
  existing <- list_records domain (Some record_type) (Some subdomain) ;;
  returned <- add_loop domain subdomain target record_type existing ;;
  match returned with
  | Some b => ret b
  | None =>
      let body := Json.dumps_record record_type subdomain target ttl in
      response <- ovh_call "POST" ("/domain/zone/" +:+ domain +:+ "/record") body ;;
      if status_in [200; 201] response then
        print ("Added " +:+ record_type +:+ " record: " +:+ subdomain +:+ "."
                 +:+ domain +:+ " -> " +:+ target) ;;
        refresh_zone domain ;;
        ret true
      else
        print ("Error adding record: " +:+ text response) ;;
        ret false
  end.

(** The detail fetches of a listing, one after the other: [Fetches
    domain w ids rs w' log] when fetching the records [ids] from the
    world [w] is answered by [rs], leaves the world [w'] and logs [log]. *)
Inductive Fetches (domain : string)
  : W -> list json -> list response -> W -> list event -> Prop :=
| Fetches_nil w : Fetches domain w [] [] w []
| Fetches_cons w record_id id r w1 l1 rest rs w2 l2 :
    Json.str record_id = Some id ->
    ovh_call "GET" ("/domain/zone/" +:+ domain +:+ "/record/" +:+ id) "" w
      = (Ret r, w1, l1) ->
    Fetches domain w1 rest rs w2 l2 ->
    Fetches domain w (record_id :: rest) (r :: rs) w2 (l1 ++ l2).

(** The decoded bodies of the answers with status 200. *)
Definition kept (rs : list response) : list json :=
  flat_map (fun r => if status_code r =? 200
                     then match json_body r with Some j => [j] | None => [] end
                     else []) rs.

(** [check_record] (lines 192-203) *)
Definition check_record (domain subdomain : string) : M W (option string) :=
  let fqdn := subdomain +:+ "." +:+ domain in
  fun w =>
    let '(answer, w') := gethostbyname w fqdn in
    match answer with
    | Some ip =>
        (Ret (Some ip), w',
         [Lookup fqdn answer; Print ("DNS resolution: " +:+ fqdn +:+ " -> " +:+ ip)])
    | None =>
        (Ret None, w',
         [Lookup fqdn answer; Print ("DNS resolution failed for " +:+ fqdn)])
    end.

(** *** The command line (lines 206-263) *)

(** What [parser.parse_args()] returns. *)
Record args : Type := Args {
  action : string;
  subdomain : option string;
  domain : option string;
  ip : option string;
  type : string;
  ttl : Z
}.

(** The flags as given; [parse_args] fills in the defaults of lines
    212-215 ([DEFAULT_DOMAIN] is [os.environ.get('DOMAIN')], line 36). *)
Record command_line : Type := CommandLine {
  cl_action : string;
  cl_subdomain : option string;
  cl_domain : option string;
  cl_ip : option string;
  cl_type : option string;
  cl_ttl : option Z
}.


Definition DEFAULT_DOMAIN : option string := getenv "DOMAIN".

Definition parse_args (c : command_line) : args :=
  {| action := cl_action c;
     subdomain := cl_subdomain c;
     domain := match cl_domain c with Some d => Some d | None => DEFAULT_DOMAIN end;
     ip := cl_ip c;
     type := default "CNAME" (cl_type c);
     ttl := default 3600 (cl_ttl c) |}.

(** The sort key of line 239. *)
Definition sort_key (rec : json) : result (json * json) :=
  match Json.get_default rec "subDomain" (JStr ""),
        Json.get_default rec "fieldType" (JStr "") with
  | Ret a, Ret b => Ret (a, b)
  | _, _ => Raise "AttributeError"
  end.

Definition key_ltb (a b : string * string) : bool :=
  PyStr.ltb (fst a) (fst b) || (String.eqb (fst a) (fst b) && PyStr.ltb (snd a) (snd b)).

(** Stable insertion: after every element that is not greater. *)
Fixpoint insert_sorted (x : (string * string) * json)
    (l : list ((string * string) * json)) : list ((string * string) * json) :=
  match l with
  | [] => [x]
  | y :: rest =>
      if key_ltb (fst x) (fst y) then x :: l else y :: insert_sorted x rest
  end.

Definition string_key (k : json * json) : option (string * string) :=
  match k with
  | (JStr a, JStr b) => Some (a, b)
  | _ => None
  end.

Fixpoint collect {A B} (f : A -> option B) (l : list A) : option (list B) :=
  match l with
  | [] => Some []
  | x :: rest =>
      match f x, collect f rest with
      | Some y, Some ys => Some (y :: ys)
      | _, _ => None
      end
  end.

Fixpoint sort_keys (records : list json) : result (list (json * json)) :=
  match records with
  | [] => Ret []
  | rec :: rest =>
      match sort_key rec, sort_keys rest with
      | Ret k, Ret ks => Ret (k :: ks)
      | Ret _, other => other
      | _, _ => Raise "AttributeError"
      end
  end.

(** [sorted(records, key=...)]: the keys are computed first; keys that
    are pairs of strings are compared as Python compares tuples, other
    keys are not covered when a comparison is needed. *)
Definition sorted_records (records : list json) : result (list json) :=
  match sort_keys records with
  | Ret keys =>
      match records with
      | [] | [_] => Ret records
      | _ =>
          match collect string_key keys with
          | Some ks =>
              Ret (map snd (fold_left (fun acc x => insert_sorted x acc)
                                      (combine ks records) []))
          | None => Unmodelled
          end
      end
  | Exit c => Exit c
  | Raise e => Raise e
  | Unmodelled => Unmodelled
  end.

(** [f"{v:n}"]: a string is padded on the right; [None], lists and
    dicts have no such format; numbers are not covered. *)
Definition format_width (n : nat) (v : json) : result string :=
  match v with
  | JStr s => Ret (PyStr.ljust n s)
  | JInt _ | JBool _ => Unmodelled
  | _ => Raise "TypeError"
  end.

(** Lines 240-241. *)
Definition print_row (rec : json) : M W unit :=
  sub <- lift (Json.get rec "subDomain") ;;
  let sub := if Json.truthy sub then sub else JStr "@" in
  sub <- lift (format_width 20 sub) ;;
  ftype <- lift (Json.get rec "fieldType") ;;
  ftype <- lift (format_width 6 ftype) ;;
  target <- lift (Json.get rec "target") ;;
  target <- fmt target ;;
  print ("  " +:+ sub +:+ " " +:+ ftype +:+ " " +:+ target).

Fixpoint print_rows (records : list json) : M W unit :=
  match records with
  | [] => ret tt
  | rec :: rest => print_row rec ;; print_rows rest
  end.

Definition newline : string := String (PyStr.chr 10) "".

(** Lines 233-242: what the list action does with the records. *)
Definition show_records (domain : string) (records : list json) : M W unit :=
  match records with
  | [] => print ("No records found for " +:+ domain)
  | _ =>
      print (newline +:+ "DNS Records for " +:+ domain +:+ ":") ;;
      print (string_of_list_ascii (repeat "-"%char 60)) ;;
      ordered <- lift (sorted_records records) ;;
      print_rows ordered
  end.

(** [parser.error(message)]: usage on stderr, exit status 2. *)
Definition parser_error {A} : M W A := exit 2.

(** [main] after [parse_args] (lines 219-263) *)
Definition main (a : args) : M W unit :=
  if String.eqb (action a) "ip" then
    found <- get_server_ip ;;
    if is_set found then print ("Server public IP: " +:+ default "" found)
    else print "Could not determine server IP"
  else if negb (is_set (domain a)) then parser_error
  else
    let domain := default "" (domain a) in
    if String.eqb (action a) "list" then
      records <- list_records domain None (subdomain a) ;;
      show_records domain records
    else if negb (is_set (subdomain a)) then parser_error
    else
      let subdomain := default "" (subdomain a) in
      if String.eqb (action a) "add" then
        target <-
          (if String.eqb (type a) "CNAME" then
             ret (if is_set (ip a) then default "" (ip a) else domain +:+ ".")
           else
             target <- (if is_set (ip a) then ret (ip a) else get_server_ip) ;;
             if negb (is_set target) then
               print "Error: Could not determine IP address. Use --ip/--target to specify." ;;
               exit 1
             else ret (default "" target)) ;;
        add_record domain subdomain target (type a) (ttl a) ;;
        ret tt
      else if String.eqb (action a) "delete" then
        delete_record domain subdomain (type a) ;; ret tt
      else if String.eqb (action a) "check" then
        check_record domain subdomain ;; ret tt
      else ret tt.

End Script.

(** The exit status of the process for an outcome of [main]: 0 on a
    normal return, the code of [sys.exit], 1 after an uncaught exception. *)
Definition exit_status {A} (r : result A) : option Z :=
  match r with
  | Ret _ => Some 0
  | Exit c => Some c
  | Raise _ => Some 1
  | Unmodelled => None
  end.

(** ** Reading the event log *)

(** The HTTP calls of a log, as (method, url), in order. *)
Definition calls (log : list event) : list (string * string) :=
  flat_map (fun e => match e with
                     | Http rq _ => [(meth rq, url rq)]
                     | _ => []
                     end) log.

(** The calls that are not GETs. *)
Definition mutating_calls (log : list event) : list (string * string) :=
  List.filter (fun c => negb (String.eqb (fst c) "GET")) (calls log).

(** The value of a header of a request. *)
Definition header_of (name : string) (rq : request) : option string :=
  match find (fun h => String.eqb (fst h) name) (headers rq) with
  | Some h => Some (snd h)
  | None => None
  end.

(** The calls that carry the header [X-Ovh-Signature]: the authenticated
    calls to the provider's API. *)
Definition signed_calls (log : list event) : list request :=
  flat_map (fun e => match e with
                     | Http rq _ =>
                         if existsb (fun h => String.eqb (fst h) "X-Ovh-Signature")
                                    (headers rq)
                         then [rq] else []
                     | _ => []
                     end) log.

(** The calls to the provider's endpoint, signed or not. *)
Definition provider_calls (log : list event) : list (string * string) :=
  List.filter (fun c => PyStr.startswith OVH_ENDPOINT (snd c)) (calls log).

Definition printed (log : list event) : list string :=
  flat_map (fun e => match e with Print s => [s] | _ => [] end) log.

Definition count_calls (method url : string) (log : list event) : nat :=
  length (List.filter (fun c => String.eqb (fst c) method && String.eqb (snd c) url)
                 (calls log)).

Definition count_method (method : string) (log : list event) : nat :=
  length (List.filter (fun c => String.eqb (fst c) method) (calls log)).

Definition record_url (domain id : string) : string :=
  OVH_ENDPOINT +:+ "/domain/zone/" +:+ domain +:+ "/record/" +:+ id.
Definition create_url (domain : string) : string :=
  OVH_ENDPOINT +:+ "/domain/zone/" +:+ domain +:+ "/record".
Definition refresh_url (domain : string) : string :=
  OVH_ENDPOINT +:+ "/domain/zone/" +:+ domain +:+ "/refresh".

(** ** The signature as section 4.1 of the specification words it

    [$1$] followed by the hexadecimal SHA-1 of
    secret + "+" + consumer_key + "+" + method + "+" + full_url + "+" +
    body + "+" + server_time. *)
Definition spec_signature
    (secret consumer_key method full_url body server_time : string) : string :=
  "$1$" +:+ Sha1.hexdigest
              (PyStr.join "+" [secret; consumer_key; method; full_url; body; server_time]).

(** ** A reference provider

    An instance of the outside world to run the script against: one DNS
    zone behind the REST interface the script uses (the paths of the
    specification's section 6), two IP echo services and a resolver.  It
    is not part of the repository; it stands for the provider in the
    statements that speak of the records that exist. *)

Module Provider.

Record record : Type := Record {
  rid : Z;
  rsub : string;
  rtype : string;
  rtarget : string;
  rttl : Z
}.

Record state : Type := State {
  zone : string;
  records : list record;
  next_id : Z;
  clock : Z;
  app_key : string;
  app_secret : string;
  consumer_key : string;
  echo_primary : option response;
  echo_secondary : option response;
  hosts : list (string * string)
}.

(** The same provider with other records and another next id. *)
Definition with_records (st : state) (rs : list record) (next : Z) : state :=
  {| zone := zone st; records := rs; next_id := next; clock := clock st;
     app_key := app_key st; app_secret := app_secret st;
     consumer_key := consumer_key st;
     echo_primary := echo_primary st; echo_secondary := echo_secondary st;
     hosts := hosts st |}.

(** What follows the prefix [p] in [s], if [s] starts with [p]. *)
Fixpoint strip_prefix (p s : string) : option string :=
  match p, s with
  | EmptyString, _ => Some s
  | String a p', String b s' => if Ascii.eqb a b then strip_prefix p' s' else None
  | String _ _, EmptyString => None
  end.

(** The detail of a record, as the provider sends it. *)
Definition to_json (zone : string) (r : record) : json :=
  JObj [("id", JInt (rid r)); ("zone", JStr zone); ("subDomain", JStr (rsub r));
        ("fieldType", JStr (rtype r)); ("target", JStr (rtarget r));
        ("ttl", JInt (rttl r))].

(** A query selects the records whose own fields spell it: both
    filters, the type alone, or the subdomain alone. *)
Definition selects (query : string) (r : record) : bool :=
  String.eqb query ("fieldType=" +:+ rtype r +:+ "&subDomain=" +:+ rsub r)
  || String.eqb query ("fieldType=" +:+ rtype r)
  || String.eqb query ("subDomain=" +:+ rsub r).

(** The record whose id is written [id]. *)
Definition find_record (id : string) (rs : list record) : option record :=
  find (fun r => String.eqb (PyStr.of_Z (rid r)) id) rs.

Definition remove_record (id : string) (rs : list record) : list record :=
  List.filter (fun r => negb (String.eqb (PyStr.of_Z (rid r)) id)) rs.

(** *** Reading the body of a create request *)

Definition hexval (c : ascii) : option Z :=
  let n := PyStr.ord c in
  if (48 <=? n) && (n <=? 57) then Some (n - 48)
  else if (97 <=? n) && (n <=? 102) then Some (n - 87)
  else None.

Definition cons_char (c : ascii) (r : option (string * string))
  : option (string * string) :=
  match r with Some (s, rest) => Some (String c s, rest) | None => None end.

(** The characters of a JSON string up to its closing quote, and the
    text after the quote. *)
Fixpoint unescape (s : string) : option (string * string) :=
  match s with
  | EmptyString => None
  | String c s' =>
      if Ascii.eqb c Json.dquote then Some (EmptyString, s')
      else if Ascii.eqb c Json.backslash then
        match s' with
        | String e s'' =>
            if Ascii.eqb e "n" then cons_char (PyStr.chr 10) (unescape s'')
            else if Ascii.eqb e "r" then cons_char (PyStr.chr 13) (unescape s'')
            else if Ascii.eqb e "t" then cons_char (PyStr.chr 9) (unescape s'')
            else if Ascii.eqb e "b" then cons_char (PyStr.chr 8) (unescape s'')
            else if Ascii.eqb e "f" then cons_char (PyStr.chr 12) (unescape s'')
            else if Ascii.eqb e "u" then
              match s'' with
              | String "0" (String "0" (String h (String l s3))) =>
                  match hexval h, hexval l with
                  | Some x, Some y =>
                      cons_char (PyStr.chr (Z.to_nat (16 * x + y))) (unescape s3)
                  | _, _ => None
                  end
              | _ => None
              end
            else if Ascii.eqb e Json.dquote || Ascii.eqb e Json.backslash
            then cons_char e (unescape s'')
            else None
        | EmptyString => None
        end
      else cons_char c (unescape s')
  end.

(** A quoted string at the head of [s]. *)
Definition read_string (s : string) : option (string * string) :=
  match s with
  | String c s' => if Ascii.eqb c Json.dquote then unescape s' else None
  | EmptyString => None
  end.

(** A field [<sep>"name": ] followed by a quoted string. *)
Definition read_field (sep name s : string) : option (string * string) :=
  match strip_prefix (sep +:+ Json.dumps_str name +:+ ": ") s with
  | Some rest => read_string rest
  | None => None
  end.

(** The text before a final [}]. *)
Fixpoint before_brace (s : string) : option string :=
  match s with
  | EmptyString => None
  | String c EmptyString => if Ascii.eqb c "}" then Some EmptyString else None
  | String c s' =>
      match before_brace s' with
      | Some r => Some (String c r)
      | None => None
      end
  end.

Definition read_record (body : string) : option (string * string * string * Z) :=
  match read_field "{" "fieldType" body with
  | Some (t, rest) =>
      match read_field ", " "subDomain" rest with
      | Some (s, rest) =>
          match read_field ", " "target" rest with
          | Some (g, rest) =>
              match strip_prefix (", " +:+ Json.dumps_str "ttl" +:+ ": ") rest with
              | Some rest =>
                  match before_brace rest with
                  | Some digits =>
                      match NilZero.int_of_string digits with
                      | Some n => Some (t, s, g, Z.of_int n)
                      | None => None
                      end
                  | None => None
                  end
              | None => None
              end
          | None => None
          end
      | None => None
      end
  | None => None
  end.

(** *** Answering requests *)

Definition header (name : string) (rq : request) : string :=
  default "" (header_of name rq).

(** The provider recomputes the signature of section 4.1 from its own
    copy of the keys and from what it received. *)
Definition authentic (st : state) (rq : request) : bool :=
  String.eqb (header "X-Ovh-Application" rq) (app_key st)
  && String.eqb (header "X-Ovh-Consumer" rq) (consumer_key st)
  && String.eqb (header "X-Ovh-Signature" rq)
       (spec_signature (app_secret st) (consumer_key st) (meth rq) (url rq)
          (default "" (data rq)) (header "X-Ovh-Timestamp" rq)).

Definition ok (j : json) : response := Response 200 "" (Some j).
Definition not_found : response := Response 404 "Not Found" None.
Definition bad_request : response := Response 400 "Bad Request" None.
Definition forbidden : response := Response 403 "Invalid signature" None.

Definition ids_of (rs : list record) : json := JList (map (fun r => JInt (rid r)) rs).

(** The routes below [/domain/zone/<zone>]. *)
Definition route (st : state) (rq : request) (rest : string) : response * state :=
  if String.eqb rest "/refresh" then
    if String.eqb (meth rq) "POST" then (ok JNull, st) else (not_found, st)
  else
    match strip_prefix "/record" rest with
    | Some EmptyString =>
        if String.eqb (meth rq) "GET" then (ok (ids_of (records st)), st)
        else if String.eqb (meth rq) "POST" then
          match read_record (default "" (data rq)) with
          | Some (t, s, g, n) =>
              let r := Record (next_id st) s t g n in
              (ok (to_json (zone st) r),
               with_records st (records st ++ [r]) (next_id st + 1))
          | None => (bad_request, st)
          end
        else (not_found, st)
    | Some (String c more) =>
        if Ascii.eqb c "?" then
          if String.eqb (meth rq) "GET"
          then (ok (ids_of (List.filter (selects more) (records st))), st)
          else (not_found, st)
        else if Ascii.eqb c "/" then
          match find_record more (records st) with
          | Some r =>
              if String.eqb (meth rq) "GET" then (ok (to_json (zone st) r), st)
              else if String.eqb (meth rq) "DELETE"
              then (ok JNull, with_records st (remove_record more (records st)) (next_id st))
              else (not_found, st)
          | None => (not_found, st)
          end
        else (not_found, st)
    | None => (not_found, st)
    end.

(** The echo services, the time of the provider (not signed), and the
    signed routes of the zone; another host is unreachable. *)
Definition serve (st : state) (rq : request) : option response * state :=
  if String.eqb (url rq) (url ipify) then (echo_primary st, st)
  else if String.eqb (url rq) (url ifconfig) then (echo_secondary st, st)
  else
    match strip_prefix OVH_ENDPOINT (url rq) with
    | None => (None, st)
    | Some path =>
        if String.eqb path "/auth/time"
        then (Some (Response 200 (PyStr.of_Z (clock st)) (Some (JInt (clock st)))), st)
        else if negb (authentic st rq) then (Some forbidden, st)
        else
          match strip_prefix ("/domain/zone/" +:+ zone st) path with
          | Some rest => let '(r, st') := route st rq rest in (Some r, st')
          | None => (Some not_found, st)
          end
    end.

Definition resolve (st : state) (host : string) : option string * state :=
  (match find (fun h => String.eqb (fst h) host) (hosts st) with
   | Some h => Some (snd h)
   | None => None
   end, st).

#[global] Instance outside : Outside state :=
  {| net := serve; gethostbyname := resolve |}.

(** The three keys are not empty. *)
Definition keys_set (st : state) : Prop :=
  PyStr.truthy (app_key st) = true /\ PyStr.truthy (app_secret st) = true
  /\ PyStr.truthy (consumer_key st) = true.

(** The environment of a script that holds the provider's keys. *)
Definition environ_of (st : state) : gmap string string :=
  <["OVH_APPLICATION_KEY" := app_key st]>
    (<["OVH_APPLICATION_SECRET" := app_secret st]>
       (<["OVH_CONSUMER_KEY" := consumer_key st]> ∅)).

(** Does the record belong to (subdomain, type)? *)
Definition matches (subdomain record_type : string) (r : record) : bool :=
  String.eqb (rsub r) subdomain && String.eqb (rtype r) record_type.

(** The record types of the zone are not empty and have no [&]. *)
Definition typed (st : state) : Prop :=
  Forall (fun r => rtype r <> "" /\ PyStr.contains "&" (rtype r) = false) (records st).

(** The ids in use are below the next id to give out. *)
Definition fresh (st : state) : Prop :=
  Forall (fun r => rid r < next_id st) (records st).

(** A zone the provider can hold: distinct ids and proper record
    types. *)
Definition well_formed (st : state) : Prop :=
  NoDup (map rid (records st)) /\ typed st.

End Provider.

(** ** A scripted world

    The answers are fixed in advance and handed out in order, whatever is
    asked; when the script is used up, requests raise. *)

Module Scripted.

Definition world : Type := list (option response).

Definition answer (w : world) (rq : request) : option response * world :=
  match w with
  | [] => (None, [])
  | r :: rest => (r, rest)
  end.

#[global] Instance outside : Outside world :=
  {| net := answer; gethostbyname := fun w _ => (None, w) |}.

End Scripted.

(** ** Worlds to run the script in *)

Module Demo.
Import Provider.

Definition www1 : record := Record 1 "www" "A" "192.0.2.1" 3600.
Definition www2 : record := Record 2 "www" "A" "192.0.2.2" 3600.
Definition mail : record := Record 3 "mail" "CNAME" "example.com." 3600.

(** The provider of the zone example.com with the records [rs]; the echo
    services answer with [echo]. *)
Definition provider_with (echo : option response) (rs : list record) : state :=
  {| zone := "example.com"; records := rs; next_id := 10; clock := 1700000000;
     app_key := "ak"; app_secret := "secret"; consumer_key := "ck";
     echo_primary := echo; echo_secondary := echo;
     hosts := [] |}.

Definition provider : list record -> state :=
  provider_with (Some (Response 200 "203.0.113.5" None)).

(** Both echo services are unreachable. *)
Definition offline : list record -> state := provider_with None.

Definition environ : gmap string string := environ_of (provider []).

(** The first echo service answers with an error page. *)
Definition error_page : Scripted.world :=
  [Some (Response 500 "Internal Server Error" None);
   Some (Response 200 "203.0.113.5" None)].

(** The first echo service is down, the second one answers. *)
Definition second_answers : Scripted.world :=
  [None; Some (Response 200 (String (PyStr.chr 10) "203.0.113.5") None)].

Definition time_answer : option response := Some (Response 200 "1700000000" None).

Definition detail (id : Z) (target : string) : json :=
  JObj [("id", JInt id); ("subDomain", JStr "www"); ("fieldType", JStr "A");
        ("target", JStr target)].

(** A listing of three ids; the detail of the second one is refused. *)
Definition flaky : Scripted.world :=
  [time_answer; Some (Response 200 "" (Some (JList [JInt 1; JInt 2; JInt 3])));
   time_answer; Some (Response 200 "" (Some (detail 1 "192.0.2.1")));
   time_answer; Some (Response 500 "Internal Server Error" None);
   time_answer; Some (Response 200 "" (Some (detail 3 "192.0.2.3")))].

(** Both echo services answer with an error page. *)
Definition unavailable : list record -> state :=
  provider_with (Some (Response 503 "Service Unavailable" None)).

(** A listing of one record, whose deletion the provider refuses. *)
Definition refused : Scripted.world :=
  [time_answer; Some (Response 200 "" (Some (JList [JInt 7])));
   time_answer; Some (Response 200 "" (Some (detail 7 "192.0.2.7")));
   time_answer; Some (Response 403 "Forbidden" None)].

Definition refused_listing : result (list json) * Scripted.world * list event :=
  Eval vm_compute in
    list_records environ "example.com" (Some "A") (Some "www") refused.

Definition refused_deletion : result bool * Scripted.world * list event :=
  Eval vm_compute in delete_record environ "example.com" "www" "A" refused.

(** [list_records] in the zone without a www record. *)
Definition empty_listing : result (list json) * state * list event :=
  Eval vm_compute in
    list_records environ "example.com" (Some "A") (Some "www") (provider [mail]).

Definition env_lines : list string :=
  ["# OVH credentials" +:+ newline;
   newline;
   "DOMAIN=example.com" +:+ newline;
   "  OVH_CONSUMER_KEY = from-file  " +:+ newline;
   "DOMAIN=example.org" +:+ newline].

Definition env_before : gmap string string := {["OVH_CONSUMER_KEY" := "preset"]}.

Definition env_after : gmap string string :=
  <["DOMAIN" := "example.com"]> env_before.

(** The zone after www is moved to 192.0.2.9. *)
Definition provider_after : state :=
  with_records (provider [mail; Record 10 "www" "A" "192.0.2.9" 3600])
    [mail; Record 10 "www" "A" "192.0.2.9" 3600] 11.

Definition add_www : args := Args "add" (Some "www") (Some "example.com") None "A" 3600.
Definition list_www : command_line :=
  CommandLine "list" (Some "www") (Some "example.com") None (Some "MX") None.

End Demo.


(** ** Reading a digest as a number *)

Module Sha1Number.




(** A request body of [n] characters. *)
Definition body_of_length (n : nat) : string :=
  string_of_list_ascii (repeat "a"%char n).

End Sha1Number.

(** ** Describing runs *)

(** The request of lines 70-87 for a method the client knows: the five
    headers, and the body as data for POST and PUT. *)
Definition api_request
    (key secret consumer method path body server_time : string) : request :=
  Request method (OVH_ENDPOINT +:+ path)
    [("X-Ovh-Application", key);
     ("X-Ovh-Consumer", consumer);
     ("X-Ovh-Timestamp", server_time);
     ("X-Ovh-Signature", signature secret consumer method path body server_time);
     ("Content-Type", "application/json")]
    (if String.eqb method "POST" || String.eqb method "PUT" then Some body else None)
    None.

(** [runs m w a w' calls out]: from the world [w] the computation [m]
    returns [a] and leaves the world [w'], having made the non-GET calls
    [calls] and printed the lines [out]. *)
Definition runs {W A} (m : M W A) (w : W) (a : A) (w' : W)
    (mutations : list (string * string)) (out : list string) : Prop :=
  exists log,
    m w = (Ret a, w', log) /\ mutating_calls log = mutations /\ printed log = out.

Module ProviderView.
Import Provider.

(** The records a listing for (type, subdomain) selects: a filter that
    is empty does not apply. *)
Definition listed (record_type subdomain : string) (rs : list record) : list record :=
  List.filter (fun r => (negb (PyStr.truthy record_type) || String.eqb (rtype r) record_type)
                        && (negb (PyStr.truthy subdomain) || String.eqb (rsub r) subdomain))
              rs.

(** The provider once the record [r] is deleted. *)
Definition without (st : state) (r : record) : state :=
  with_records st (remove_record (PyStr.of_Z (rid r)) (records st)) (next_id st).

(** The provider once a record is created. *)
Definition with_new (st : state) (subdomain record_type target : string) (ttl : Z)
  : state :=
  with_records st
    (records st ++ [Record (next_id st) subdomain record_type target ttl])
    (next_id st + 1).

Definition deleted_line (st : state) (subdomain : string) (r : record) : string :=
  "Deleted record: " +:+ subdomain +:+ "." +:+ zone st
    +:+ " (ID: " +:+ PyStr.of_Z (rid r) +:+ ")".

Definition refreshed_line (st : state) : string :=
  "Zone " +:+ zone st +:+ " refreshed".

Definition added_line (st : state) (subdomain record_type target : string) : string :=
  "Added " +:+ record_type +:+ " record: " +:+ subdomain +:+ "." +:+ zone st
    +:+ " -> " +:+ target.

(** The query string of [list_path] for two filters. *)
Definition query (record_type subdomain : string) : string :=
  PyStr.join "&"
    ((if PyStr.truthy record_type then ["fieldType=" +:+ record_type] else [])
     ++ (if PyStr.truthy subdomain then ["subDomain=" +:+ subdomain] else [])).

End ProviderView.

(** [reads_only m]: whatever the world and the outcome, [m] sends no
    request but GETs. *)
Definition reads_only {W A} (m : M W A) : Prop :=
  forall w, mutating_calls (snd (m w)) = [].

(** The two lines of lines 59-60. *)
Definition credentials_error : list event :=
  [Print "Error: OVH API credentials not found in .env";
   Print "Required: OVH_APPLICATION_KEY, OVH_APPLICATION_SECRET, OVH_CONSUMER_KEY"].

(** Line 58: are the three keys set and not empty? *)
Definition has_keys (environ : gmap string string) : bool :=
  forallb (fun name => is_set (getenv environ name))
    ["OVH_APPLICATION_KEY"; "OVH_APPLICATION_SECRET"; "OVH_CONSUMER_KEY"].

(** ** The zone after a deletion *)

Module ZoneView.
Import Provider ProviderView.

(** Does a listing for (type, subdomain) select the record?  [listed]
    keeps the records for which it holds. *)
Definition selected (record_type subdomain : string) (r : record) : bool :=
  (negb (PyStr.truthy record_type) || String.eqb (rtype r) record_type)
  && (negb (PyStr.truthy subdomain) || String.eqb (rsub r) subdomain).

(** The records such a listing leaves out. *)
Definition remaining (record_type subdomain : string) (rs : list record)
  : list record :=
  List.filter (fun r => negb (selected record_type subdomain r)) rs.

(** The provider once the records [rs] are deleted, one after the other. *)
Definition without_all (st : state) (rs : list record) : state :=
  fold_left without rs st.

Definition delete_call (st : state) (r : record) : string * string :=
  ("DELETE", record_url (zone st) (PyStr.of_Z (rid r))).

Definition some {A} (l : list A) : bool :=
  match l with [] => false | _ => true end.

End ZoneView.

(** [in_order a b]: by the key of line 239, the record [b] does not
    come before the record [a]. *)
Definition in_order (a b : json) : Prop :=
  forall ka kb : string * string,
    sort_key a = Ret (JStr (fst ka), JStr (snd ka)) ->
    sort_key b = Ret (JStr (fst kb), JStr (snd kb)) ->
    key_ltb kb ka = false.

(** The same on keyed records, as [sorted] compares them. *)
Definition key_le (x y : (string * string) * json) : Prop :=
  key_ltb (fst y) (fst x) = false.

(** Is the event a DELETE that was answered with status 200 or 204? *)
Definition accepted_delete (e : event) : bool :=
  match e with
  | Http rq (Some r) => String.eqb (meth rq) "DELETE" && status_in [200; 204] r
  | _ => false
  end.

(** [rec.get(key)] of a record that is a dict. *)
Definition field (rec : json) (key : string) : json :=
  match Json.get rec key with Ret v => v | _ => JNull end.

(** The test of line 128: is the record one of (subdomain, type)? *)
Definition belongs (subdomain record_type : string) (rec : json) : bool :=
  Json.eq_str (field rec "subDomain") subdomain
  && Json.eq_str (field rec "fieldType") record_type.

Definition is_dict (rec : json) : Prop := exists kvs, rec = JObj kvs.

(** * Properties *)

(** ** Strings *)

Module PyStrFacts.
Import PyStr.

Lemma lstrip_length s : (String.length (lstrip s) <= String.length s)%nat.
Proof.
  induction s as [|c s IH]; simpl; [lia|].
  destruct (isspace c); simpl; lia.
Qed.

Lemma rstrip_length s : (String.length (rstrip s) <= String.length s)%nat.
Proof.
  induction s as [|c s IH]; simpl; [lia|].
  destruct (rstrip s) eqn:E; simpl in *; [destruct (isspace c); simpl; lia | lia].
Qed.

Lemma lstrip_fix s :
  String.length (lstrip s) = String.length s -> lstrip s = s.
Proof.
  destruct s as [|c s]; simpl; [reflexivity|].
  destruct (isspace c); [|reflexivity].
  pose proof (lstrip_length s). lia.
Qed.

Lemma strip_fix s : strip s = s -> lstrip s = s /\ rstrip s = s.
Proof.
  unfold strip. intros E.
  assert (L : lstrip s = s).
  { apply lstrip_fix. pose proof (lstrip_length s).
    pose proof (rstrip_length (lstrip s)). rewrite E in *. lia. }
  rewrite L in E. auto.
Qed.

(** Stripping on the right looks at the end of the text only. *)
Lemma rstrip_app a b :
  rstrip (a +:+ b) = match rstrip b with "" => rstrip a | r => a +:+ r end.
Proof.
  induction a as [|c a IH]; simpl.
  - destruct (rstrip b); reflexivity.
  - rewrite IH. destruct (rstrip b); [reflexivity|].
    destruct a; reflexivity.
Qed.

Lemma split1_app c k v :
  contains c k = false -> split1 c (k +:+ String c v) = (k, v).
Proof.
  induction k as [|a k IH]; simpl.
  - now rewrite Ascii.eqb_refl.
  - intros E. apply orb_false_iff in E as [E1 E2]. rewrite E1, (IH E2). reflexivity.
Qed.

Lemma contains_app c k v : contains c (k +:+ String c v) = true.
Proof.
  induction k as [|a k IH]; simpl.
  - now rewrite Ascii.eqb_refl.
  - rewrite IH. apply orb_true_r.
Qed.

Lemma append_assoc (a b c : string) : (a +:+ b) +:+ c = a +:+ (b +:+ c).
Proof. induction a; simpl; congruence. Qed.

Lemma append_length (a b : string) :
  String.length (a +:+ b) = (String.length a + String.length b)%nat.
Proof. induction a; simpl; congruence. Qed.



End PyStrFacts.

(** ** Loading the configuration file *)

Module EnvFacts.
Import PyStr PyStrFacts Env.

(** A line [KEY=VALUE] whose two sides carry no outer blanks is read as
    the pair (KEY, VALUE). *)
Lemma parse_line_key_value key value :
  strip key = key -> strip value = value ->
  contains "=" key = false -> startswith "#" key = false ->
  parse_line (key +:+ "=" +:+ value +:+ newline) = Some (key, value).
Proof.
  intros Hk Hv Heq Hhash.
  destruct (strip_fix _ Hk) as [Lk Rk], (strip_fix _ Hv) as [Lv Rv].
  assert (S : strip (key +:+ "=" +:+ value +:+ newline) = key +:+ "=" +:+ value).
  { unfold strip.
    assert (L : lstrip (key +:+ "=" +:+ value +:+ newline)
                = key +:+ "=" +:+ value +:+ newline).
    { destruct key as [|c k]; [reflexivity|].
      simpl in *. destruct (isspace c) eqn:E; [|reflexivity].
      exfalso. pose proof (lstrip_length k).
      apply (f_equal String.length) in Lk. simpl in Lk. lia. }
    rewrite L, rstrip_app.
    assert (R : rstrip ("=" +:+ value +:+ newline) = "=" +:+ value).
    { change ("=" +:+ value +:+ newline) with (String "=" (value +:+ newline)).
      assert (R' : rstrip (value +:+ newline) = value).
      { rewrite rstrip_app. simpl. exact Rv. }
      simpl. rewrite R'. destruct value; reflexivity. }
    rewrite R. reflexivity. }
  unfold parse_line. rewrite S.
  change (key +:+ "=" +:+ value) with (key +:+ String "=" value).
  rewrite contains_app, split1_app, Hk, Hv by assumption.
  assert (T : truthy (key +:+ String "=" value) = true) by (destruct key; reflexivity).
  assert (H : startswith "#" (key +:+ String "=" value) = false).
  { destruct key as [|c k]; [reflexivity|]. exact Hhash. }
  rewrite T, H. reflexivity.
Qed.

Lemma setdefault_keeps key value (env env' : gmap string string) k v :
  setdefault key value env = Ret env' -> env !! k = Some v -> env' !! k = Some v.
Proof.
  unfold setdefault. intros E Hk.
  destruct (env !! key) eqn:Hkey; [congruence|].
  destruct (_ || _); [discriminate|].
  destruct (truthy key); [|discriminate].
  injection E as <-. rewrite lookup_insert_ne; [assumption | congruence].
Qed.

Lemma load_env_keeps lines : forall (env env' : gmap string string) k v,
  load_env lines env = Ret env' -> env !! k = Some v -> env' !! k = Some v.
Proof.
  induction lines as [|raw rest IH]; simpl; intros env env' k v E Hk.
  - congruence.
  - destruct (parse_line raw) as [[key value]|]; [|eauto].
    destruct (setdefault key value env) eqn:S; try discriminate.
    eauto using setdefault_keeps.
Qed.

Lemma load_env_first lines : forall (env env' : gmap string string) k,
  load_env lines env = Ret env' -> env !! k = None ->
  env' !! k = first_assignment k lines.
Proof.
  induction lines as [|raw rest IH]; simpl; intros env env' k E Hk.
  - congruence.
  - destruct (parse_line raw) as [[key value]|]; [|eauto].
    destruct (setdefault key value env) as [env1| | |] eqn:S; try discriminate.
    destruct (String.eqb_spec key k) as [->|Hne].
    + unfold setdefault in S. rewrite Hk in S.
      destruct (_ || _); [discriminate|].
      destruct (truthy k); [|discriminate].
      injection S as <-.
      eapply load_env_keeps; [eassumption|]. apply lookup_insert_eq.
    + apply (IH env1); [assumption|].
      unfold setdefault in S. destruct (env !! key); [congruence|].
      destruct (_ || _); [discriminate|].
      destruct (truthy key); [|discriminate].
      injection S as <-. rewrite lookup_insert_ne; assumption.
Qed.

Lemma parse_line_ignored raw :
  strip raw = "" \/ startswith "#" (strip raw) = true -> parse_line raw = None.
Proof.
  unfold parse_line. intros [->| ->]; [reflexivity|].
  simpl. now rewrite andb_false_r.
Qed.

Lemma load_env_skip pre : forall raw post (env : gmap string string),
  parse_line raw = None ->
  load_env (pre ++ raw :: post) env = load_env (pre ++ post) env.
Proof.
  induction pre as [|x pre IH]; simpl; intros raw post env E.
  - now rewrite E.
  - destruct (parse_line x) as [[key value]|]; [|auto].
    destruct (setdefault key value env); auto.
Qed.

(** C8. Loading the configuration file reads KEY=VALUE lines, skips
    blank lines and lines that start with [#], gives every key the value
    of its first occurrence in the file, and leaves alone every variable
    that was set in the environment before. *)
Theorem load_env_first_wins (lines : list string) (env env' : gmap string string) :
  load_env lines env = Ret env' ->
  (forall k v, env !! k = Some v -> env' !! k = Some v)
  /\ (forall k, env !! k = None -> env' !! k = first_assignment k lines)
  /\ (forall key value,
        strip key = key -> strip value = value ->
        contains "=" key = false -> startswith "#" key = false ->
        parse_line (key +:+ "=" +:+ value +:+ newline) = Some (key, value))
  /\ (forall pre raw post e,
        strip raw = "" \/ startswith "#" (strip raw) = true ->
        load_env (pre ++ raw :: post) e = load_env (pre ++ post) e).
Proof.
  intros E. repeat split.
  - intros k v. eapply load_env_keeps; eassumption.
  - intros k. eapply load_env_first; eassumption.
  - apply parse_line_key_value.
  - intros pre raw post e Hi. apply load_env_skip, parse_line_ignored, Hi.
Qed.

End EnvFacts.

(** ** The monad *)

Section MonadFacts.

Context {W : Type}.

Lemma bind_Ret {A B} (m : M W A) (k : A -> M W B) w a w1 l1 :
  m w = (Ret a, w1, l1) ->
  bind m k w = (let '(r, w2, l2) := k a w1 in (r, w2, l1 ++ l2)).
Proof. unfold bind. now intros ->. Qed.

Lemma bind_inv {A B} (m : M W A) (k : A -> M W B) w b w2 l :
  bind m k w = (Ret b, w2, l) ->
  exists a w1 l1 l2,
    m w = (Ret a, w1, l1) /\ k a w1 = (Ret b, w2, l2) /\ l = l1 ++ l2.
Proof.
  unfold bind. destruct (m w) as [[[a| | |] w1] l1]; try discriminate.
  destruct (k a w1) as [[r w2'] l2] eqn:E. intros [= -> -> <-].
  now exists a, w1, l1, l2.
Qed.

Lemma lift_inv {A} (r : result A) (w : W) a w' l :
  lift r w = (Ret a, w', l) -> r = Ret a /\ w' = w /\ l = [].
Proof. unfold lift. now intros [= -> -> <-]. Qed.

Lemma ret_inv {A} (x : A) (w : W) a w' l :
  ret x w = (Ret a, w', l) -> a = x /\ w' = w /\ l = [].
Proof. unfold ret. now intros [= -> -> <-]. Qed.

Lemma print_inv s (w : W) a w' l :
  print s w = (Ret a, w', l) -> w' = w /\ l = [Print s].
Proof. unfold print. now intros [= _ -> <-]. Qed.

End MonadFacts.

Lemma printed_app l1 l2 : printed (l1 ++ l2) = printed l1 ++ printed l2.
Proof. apply flat_map_app. Qed.

Lemma calls_app l1 l2 : calls (l1 ++ l2) = calls l1 ++ calls l2.
Proof. apply flat_map_app. Qed.

Lemma mutating_calls_app l1 l2 :
  mutating_calls (l1 ++ l2) = mutating_calls l1 ++ mutating_calls l2.
Proof. unfold mutating_calls. now rewrite calls_app, List.filter_app. Qed.

Lemma filter_filter_imp {A} (f g : A -> bool) l :
  (forall x, f x = true -> g x = true) ->
  List.filter f (List.filter g l) = List.filter f l.
Proof.
  intros Himp. induction l as [|x l IH]; simpl; [reflexivity|].
  destruct (g x) eqn:Hg; simpl; rewrite IH; [reflexivity|].
  destruct (f x) eqn:Hf; [|reflexivity]. rewrite (Himp x Hf) in Hg. discriminate.
Qed.

(** Counting calls that are not GETs can be done on the mutating calls. *)
Lemma filter_calls (f : string * string -> bool) log :
  (forall c, f c = true -> String.eqb (fst c) "GET" = false) ->
  List.filter f (calls log) = List.filter f (mutating_calls log).
Proof.
  intros Hf. unfold mutating_calls. symmetry. apply filter_filter_imp.
  intros c Hc. now rewrite (Hf c Hc).
Qed.

Lemma count_method_mutating m log :
  String.eqb m "GET" = false ->
  count_method m log
  = length (List.filter (fun c => String.eqb (fst c) m) (mutating_calls log)).
Proof.
  intros Hm. unfold count_method. rewrite filter_calls; [reflexivity|].
  intros c Hc. apply String.eqb_eq in Hc. now rewrite Hc.
Qed.

Lemma count_calls_mutating m u log :
  String.eqb m "GET" = false ->
  count_calls m u log
  = length (List.filter (fun c => String.eqb (fst c) m && String.eqb (snd c) u)
              (mutating_calls log)).
Proof.
  intros Hm. unfold count_calls. rewrite filter_calls; [reflexivity|].
  intros c Hc. apply andb_true_iff in Hc as [Hc _]. apply String.eqb_eq in Hc.
  now rewrite Hc.
Qed.

(** Inversion of a run that returned: splits binds, lifts, rets and
    prints found in the hypotheses. *)
Ltac invert_run :=
  repeat match goal with
  | H : bind _ _ _ = (Ret _, _, _) |- _ =>
      let a := fresh "a" in let w := fresh "w" in
      let l := fresh "l" in let l' := fresh "l" in
      let H1 := fresh "Hrun" in let H2 := fresh "Hrun" in
      apply bind_inv in H as (a & w & l & l' & H1 & H2 & ->)
  | H : lift _ _ = (Ret _, _, _) |- _ =>
      let E := fresh "Hval" in
      apply lift_inv in H as (E & -> & ->)
  | H : fmt _ _ = (Ret _, _, _) |- _ => unfold fmt in H
  | H : json_of _ _ = (Ret _, _, _) |- _ => unfold json_of in H
  | H : ret _ _ = (Ret _, _, _) |- _ =>
      let E := fresh "Hret" in
      apply ret_inv in H as (E & -> & ->);
      try match type of E with
          | ?a = _ => is_var a; subst a
          | _ = ?x => is_var x; subst x
          end
  | H : print _ _ = (Ret _, _, _) |- _ => apply print_inv in H as (-> & ->)
  end.

(** Splits the conditional a run hypothesis is stuck on. *)
Ltac split_run :=
  match goal with
  | H : (if ?c then _ else _) _ = (Ret _, _, _) |- _ => destruct c eqn:?
  end.

(** Rewrites what is known of the logs. *)
Ltac log_facts :=
  rewrite ?mutating_calls_app, ?printed_app;
  repeat match goal with
  | H : mutating_calls _ = [] |- _ => rewrite H; clear H
  | H : printed _ = [] |- _ => rewrite H; clear H
  end; simpl.

(** ** The operations against any outside world *)

Section ScriptFacts.

Context {W : Type} `{Outside W}.
Variable environ : gmap string string.

Lemma send_inv rq (w : W) r w' l :
  send rq w = (Ret r, w', l) -> net w rq = (Some r, w') /\ l = [Http rq (Some r)].
Proof.
  unfold send. destruct (net w rq) as [[r'|] w1]; [|discriminate].
  now intros [= -> -> <-].
Qed.

(** A call that returns has asked for the time and sent one request,
    with the method, the address and the signature of lines 66-87. *)
Lemma ovh_call_inv method path body (w : W) r w' l :
  ovh_call environ method path body w = (Ret r, w', l) ->
  exists t w1 rq,
    net w time_request = (Some t, w1) /\ net w1 rq = (Some r, w')
    /\ l = [Http time_request (Some t); Http rq (Some r)]
    /\ meth rq = method /\ url rq = OVH_ENDPOINT +:+ path.
Proof.
  unfold ovh_call. destruct (negb _).
  - intros E. invert_run. discriminate.
  - intros E. invert_run.
    match goal with
    | Ht : send time_request _ = _ |- _ => apply send_inv in Ht as [Ht ->]
    end.
    do 2 eexists.
    destruct (String.eqb_spec method "GET") as [->|];
      [|destruct (String.eqb_spec method "POST") as [->|];
        [|destruct (String.eqb_spec method "PUT") as [->|];
          [|destruct (String.eqb_spec method "DELETE") as [->|]]]];
      try (match goal with
           | Hr : send _ _ = _ |- _ => apply send_inv in Hr as [Hr ->]
           end;
           eexists; repeat split; [eassumption | eassumption | reflexivity..]).
    invert_run. discriminate.
Qed.

Lemma ovh_call_silent method path body (w : W) r w' l :
  ovh_call environ method path body w = (Ret r, w', l) -> printed l = [].
Proof. intros E. apply ovh_call_inv in E as (t & w1 & rq & _ & _ & -> & _). reflexivity. Qed.

Lemma ovh_call_get_reads path body (w : W) r w' l :
  ovh_call environ "GET" path body w = (Ret r, w', l) -> mutating_calls l = [].
Proof.
  intros E. apply ovh_call_inv in E as (t & w1 & rq & _ & _ & -> & Hm & _).
  unfold mutating_calls. simpl. now rewrite Hm.
Qed.

End ScriptFacts.
Section ListingFacts.

Context {W : Type} `{Outside W}.
Variable environ : gmap string string.

Lemma fetch_records_reads domain ids : forall records (w : W) out w' l,
  fetch_records environ domain ids records w = (Ret out, w', l) ->
  mutating_calls l = [] /\ printed l = [].
Proof.
  induction ids as [|record_id rest IH]; simpl; intros records w out w' l E;
    invert_run; [auto|].
  match goal with
  | Hc : ovh_call _ _ _ _ _ = _ |- _ =>
      pose proof (ovh_call_get_reads _ _ _ _ _ _ _ Hc);
      pose proof (ovh_call_silent _ _ _ _ _ _ _ _ Hc)
  end.
  split_run; invert_run;
    match goal with
    | Hf : fetch_records _ _ _ _ _ = _ |- _ => apply IH in Hf as [? ?]
    end; log_facts; auto.
Qed.

(** [list_records] sends GETs only, and prints only when it returns no
    record. *)
Lemma list_records_reads domain record_type subdomain (w : W) records w' l :
  list_records environ domain record_type subdomain w = (Ret records, w', l) ->
  mutating_calls l = [] /\ (records <> [] -> printed l = []).
Proof.
  unfold list_records. intros E. invert_run.
  match goal with
  | Hc : ovh_call _ _ _ _ _ = _ |- _ =>
      pose proof (ovh_call_get_reads _ _ _ _ _ _ _ Hc);
      pose proof (ovh_call_silent _ _ _ _ _ _ _ _ Hc)
  end.
  split_run; invert_run.
  - log_facts. split; [reflexivity | congruence].
  - match goal with
    | Hf : fetch_records _ _ _ _ _ = _ |- _ =>
        apply fetch_records_reads in Hf as [? ?]
    end. log_facts. auto.
Qed.

Lemma fetch_records_kept domain (w : W) ids rs w' l :
  Fetches environ domain w ids rs w' l ->
  Forall (fun r => status_code r = 200 -> json_body r <> None) rs ->
  forall records,
    fetch_records environ domain ids records w = (Ret (records ++ kept rs), w', l).
Proof.
  induction 1 as [w|w record_id id r w1 l1 rest rs w2 l2 Hid Hcall _ IH];
    intros Hdec records; simpl.
  - unfold ret. now rewrite app_nil_r.
  - apply Forall_cons_iff in Hdec as [Hr Hrs].
    unfold fmt. rewrite Hid.
    erewrite bind_Ret by reflexivity.
    erewrite bind_Ret by exact Hcall.
    destruct (Z.eqb_spec (status_code r) 200) as [E|E].
    + destruct (json_body r) as [j|] eqn:Hj; [|now destruct (Hr E)].
      unfold json_of. rewrite Hj. erewrite bind_Ret by reflexivity.
      rewrite (IH Hrs), <- app_assoc. reflexivity.
    + rewrite (IH Hrs). reflexivity.
Qed.

Lemma Fetches_silent domain (w : W) ids rs w' l :
  Fetches environ domain w ids rs w' l -> printed l = [].
Proof.
  induction 1 as [|w record_id id r w1 l1 rest rs w2 l2 _ Hcall _ IH]; [reflexivity|].
  rewrite printed_app, IH, (ovh_call_silent _ _ _ _ _ _ _ _ Hcall). reflexivity.
Qed.

(** C10. When the listing is answered with status 200 and a list of
    ids, and every detail fetch is answered, the records that
    [list_records] returns are exactly the bodies of the detail answers
    with status 200, in the order of the listing; an answer with another
    status is left out, and nothing is printed. *)
Theorem list_records_keeps_status_200
    domain record_type subdomain (w : W) listing ids w1 l1 rs w2 l2 :
  ovh_call environ "GET" (list_path domain record_type subdomain) "" w
    = (Ret listing, w1, l1) ->
  status_code listing = 200 ->
  json_body listing = Some (JList ids) ->
  Fetches environ domain w1 ids rs w2 l2 ->
  Forall (fun r => status_code r = 200 -> json_body r <> None) rs ->
  list_records environ domain record_type subdomain w = (Ret (kept rs), w2, l1 ++ l2)
  /\ printed (l1 ++ l2) = [].
Proof.
  intros Hcall Hst Hids Hf Hdec. split.
  - unfold list_records. erewrite bind_Ret by exact Hcall.
    rewrite Hst. change (negb (200 =? 200)) with false. cbv iota.
    unfold json_of. rewrite Hids.
    erewrite bind_Ret by reflexivity. erewrite bind_Ret by reflexivity.
    rewrite (fetch_records_kept _ _ _ _ _ _ Hf Hdec []). reflexivity.
  - rewrite printed_app, (ovh_call_silent _ _ _ _ _ _ _ _ Hcall),
      (Fetches_silent _ _ _ _ _ _ Hf). reflexivity.
Qed.

End ListingFacts.

(** ** Deleting *)

Section DeleteFacts.

Context {W : Type} `{Outside W}.
Variable environ : gmap string string.

(** A loop that ends with the flag down has deleted nothing: every
    DELETE it sent was refused, and it printed the refusals only. *)
Lemma delete_loop_false domain subdomain records : forall deleted (w : W) w' l,
  delete_loop environ domain subdomain records deleted w = (Ret false, w', l) ->
  deleted = false
  /\ Forall (fun c => fst c = "DELETE") (mutating_calls l)
  /\ Forall (fun s => PyStr.startswith "Error deleting record " s = true) (printed l).
Proof.
  induction records as [|rec rest IH]; simpl; intros deleted w w' l E;
    invert_run; [auto|].
  split_run; invert_run.
  - match goal with
    | Hc : ovh_call _ _ _ _ _ = _ |- _ =>
        pose proof (ovh_call_silent _ _ _ _ _ _ _ _ Hc) as Hp;
        apply ovh_call_inv in Hc as (t & w3 & rq & _ & _ & -> & Hm & _)
    end.
    split_run; invert_run;
      match goal with
      | Hd : delete_loop _ _ _ _ _ _ = _ |- _ => apply IH in Hd as (Hf & Hm' & Hp')
      end; [discriminate|].
    subst. split; [reflexivity|]. split.
    + rewrite !mutating_calls_app.
      repeat (apply Forall_app; split); try exact Hm';
        unfold mutating_calls; simpl; rewrite ?Hm; simpl; repeat constructor; auto.
    + rewrite !printed_app. simpl. constructor; [reflexivity | exact Hp'].
  - match goal with
    | Hd : delete_loop _ _ _ _ _ _ = _ |- _ => apply IH in Hd as (Hf & Hm' & Hp')
    end. auto.
Qed.

Lemma no_post_among_deletes (cs : list (string * string)) (u : string) :
  Forall (fun c => fst c = "DELETE")
         (List.filter (fun c => negb (String.eqb (fst c) "GET")) cs) ->
  List.filter (fun c => String.eqb (fst c) "POST" && String.eqb (snd c) u) cs = [].
Proof.
  induction cs as [|[m x] cs IH]; intros Hall; [reflexivity|].
  cbn [List.filter fst snd] in *.
  destruct (String.eqb_spec m "GET") as [->|Hg]; cbn [negb] in Hall.
  - change (String.eqb "GET" "POST") with false. cbn [andb]. auto.
  - apply Forall_cons_iff in Hall as [Hd Hall]. cbn [fst] in Hd. subst m.
    change (String.eqb "DELETE" "POST") with false. cbn [andb]. auto.
Qed.

(** C6. When the listing for (subdomain, type) returns no record,
    [delete_record] sends no DELETE and no refresh (no call but the GETs
    of the listing), prints the not-found message and returns False.
    When the listing returns records and none is deleted, the result is
    False as well, but the not-found message is not printed. *)
Theorem delete_record_not_found
    domain subdomain record_type (w : W) records w1 l1 :
  list_records environ domain (Some record_type) (Some subdomain) w
    = (Ret records, w1, l1) ->
  (records = [] ->
     let log := l1 ++ [Print (not_found_message domain subdomain record_type)] in
     delete_record environ domain subdomain record_type w = (Ret false, w1, log)
     /\ mutating_calls log = []
     /\ count_method "DELETE" log = 0%nat
     /\ count_calls "POST" (refresh_url domain) log = 0%nat)
  /\ (records <> [] ->
      forall w2 log,
        delete_record environ domain subdomain record_type w = (Ret false, w2, log) ->
        ~ In (not_found_message domain subdomain record_type) (printed log)
        /\ count_calls "POST" (refresh_url domain) log = 0%nat).
Proof.
  intros Hlist. split.
  - intros -> log.
    assert (Hm : mutating_calls log = []).
    { apply list_records_reads in Hlist as [Hm _].
      unfold log. rewrite mutating_calls_app, Hm. reflexivity. }
    split; [|split; [exact Hm|]].
    + unfold delete_record. erewrite bind_Ret by exact Hlist. reflexivity.
    + rewrite count_method_mutating, count_calls_mutating, Hm by reflexivity.
      split; reflexivity.
  - intros Hne w2 log E. unfold delete_record in E.
    rewrite (bind_Ret _ _ _ _ _ _ Hlist) in E.
    destruct (bind _ _ w1) as [[r w3] l3] eqn:E'. injection E as -> -> <-.
    invert_run.
    match goal with
    | Hd : delete_loop _ _ _ _ _ _ = _ |- _ =>
        apply delete_loop_false in Hd as (_ & Hm & Hp)
    end.
    apply list_records_reads in Hlist as [Hm1 Hp1]. specialize (Hp1 Hne).
    destruct records as [|rec rest]; [congruence|]. invert_run.
    split.
    + rewrite !printed_app, Hp1, !app_nil_r. simpl.
      intros Hin. rewrite List.Forall_forall in Hp. apply Hp in Hin. discriminate.
    + unfold count_calls. rewrite !calls_app, !List.filter_app.
      rewrite (no_post_among_deletes (calls l1)), (no_post_among_deletes (calls l));
        [reflexivity | exact Hm |].
      fold (mutating_calls l1). rewrite Hm1. constructor.
Qed.

End DeleteFacts.

(** ** The public address, the signature and the command line *)

Section CommandFacts.

Context {W : Type} `{Outside W}.
Variable environ : gmap string string.

(** What [get_server_ip] does in the three cases of the two requests. *)
Lemma get_server_ip_answered (w : W) r w1 :
  net w ipify = (Some r, w1) ->
  get_server_ip w = (Ret (Some (PyStr.strip (text r))), w1, [Http ipify (Some r)]).
Proof. unfold get_server_ip, try_except, bind, send, ret. now intros ->. Qed.

Lemma get_server_ip_second (w : W) w1 r w2 :
  net w ipify = (None, w1) -> net w1 ifconfig = (Some r, w2) ->
  get_server_ip w
  = (Ret (Some (PyStr.strip (text r))), w2, [Http ipify None; Http ifconfig (Some r)]).
Proof. unfold get_server_ip, try_except, bind, send, ret. now intros -> ->. Qed.

Lemma get_server_ip_unreachable (w : W) w1 w2 :
  net w ipify = (None, w1) -> net w1 ifconfig = (None, w2) ->
  get_server_ip w = (Ret None, w2, [Http ipify None; Http ifconfig None]).
Proof. unfold get_server_ip, try_except, bind, send, ret. now intros -> ->. Qed.

(** C3 (as the code has it). The resolver asks the second echo service
    when the request to the first one raises.  An answer of the first
    service with a 2xx status is taken: its stripped text is returned and
    the second service is not called.  When both requests raise, the
    result is None. *)
Theorem get_server_ip_fallback (w : W) :
  (forall r w1,
      net w ipify = (Some r, w1) -> 200 <= status_code r < 300 ->
      get_server_ip w
      = (Ret (Some (PyStr.strip (text r))), w1, [Http ipify (Some r)]))
  /\ (forall w1 r w2,
      net w ipify = (None, w1) -> net w1 ifconfig = (Some r, w2) ->
      200 <= status_code r < 300 ->
      get_server_ip w
      = (Ret (Some (PyStr.strip (text r))), w2,
         [Http ipify None; Http ifconfig (Some r)]))
  /\ (forall w1 w2,
      net w ipify = (None, w1) -> net w1 ifconfig = (None, w2) ->
      get_server_ip w = (Ret None, w2, [Http ipify None; Http ifconfig None])).
Proof.
  repeat split.
  - intros r w1 Hr _. now apply get_server_ip_answered.
  - intros w1 r w2 H1 H2 _. now apply (get_server_ip_second w w1).
  - apply get_server_ip_unreachable.
Qed.

(** X21. When the requests to both echo services raise, an [add] of
    type A without [--ip] (for a domain and a subdomain) prints the error
    and leaves with exit status 1; the only calls made are the two to
    the echo services: none goes to the provider's API. *)
Lemma add_without_address_exits (a : args) (w w1 w2 : W) :
  action a = "add" -> type a = "A" -> ip a = None ->
  is_set (domain a) = true -> is_set (subdomain a) = true ->
  net w ipify = (None, w1) -> net w1 ifconfig = (None, w2) ->
  let log := [Http ipify None; Http ifconfig None;
              Print "Error: Could not determine IP address. Use --ip/--target to specify."] in
  main environ a w = (Exit 1, w2, log)
  /\ exit_status (fst (fst (main environ a w))) = Some 1
  /\ provider_calls log = [] /\ signed_calls log = [].
Proof.
  intros Ha Ht Hi Hd Hs H1 H2 log.
  assert (E : main environ a w = (Exit 1, w2, log)).
  { unfold main. rewrite Ha, Ht, Hi, Hd, Hs. cbn [String.eqb Ascii.eqb Bool.eqb negb is_set].
    unfold bind at 1. unfold bind at 1.
    rewrite (get_server_ip_unreachable _ _ _ H1 H2). reflexivity. }
  rewrite E. repeat split; reflexivity.
Qed.


Lemma signature_spec secret consumer method path body server_time :
  signature secret consumer method path body server_time
  = spec_signature secret consumer method (OVH_ENDPOINT +:+ path) body server_time.
Proof.
  unfold signature, spec_signature, to_sign. cbn [PyStr.join].
  rewrite !PyStrFacts.append_assoc. reflexivity.
Qed.

(** C4. With the three keys in the environment, a call of the API client
    for one of its four methods asks for the server time and sends one
    request to the endpoint base followed by the path; the signature
    header of that request is [$1$] followed by the hexadecimal SHA-1 of
    secret+consumer_key+method+full_url+body+server_time joined by [+],
    as the specification words it. *)
Theorem ovh_call_signature
    key secret consumer method path body (w : W) t w1 :
  environ !! "OVH_APPLICATION_KEY" = Some key ->
  environ !! "OVH_APPLICATION_SECRET" = Some secret ->
  environ !! "OVH_CONSUMER_KEY" = Some consumer ->
  PyStr.truthy key = true -> PyStr.truthy secret = true ->
  PyStr.truthy consumer = true ->
  In method ["GET"; "POST"; "PUT"; "DELETE"] ->
  net w time_request = (Some t, w1) ->
  exists rq,
    signed_calls (snd (ovh_call environ method path body w)) = [rq]
    /\ meth rq = method
    /\ url rq = OVH_ENDPOINT +:+ path
    /\ header_of "X-Ovh-Timestamp" rq = Some (text t)
    /\ header_of "X-Ovh-Signature" rq
       = Some (spec_signature secret consumer method (OVH_ENDPOINT +:+ path)
                 body (text t)).
Proof.
  intros Hk Hs Hc Tk Ts Tc Hm Ht.
  unfold ovh_call, getenv. rewrite Hk, Hs, Hc. cbn [forallb is_set].
  rewrite Tk, Ts, Tc. cbn [andb negb default from_option id].
  unfold bind at 1. unfold send at 1. rewrite Ht.
  rewrite signature_spec.
  destruct Hm as [<-|[<-|[<-|[<-|[]]]]];
    cbn [String.eqb Ascii.eqb Bool.eqb]; unfold send;
    match goal with
    | |- context [net w1 ?rq] => destruct (net w1 rq) as [rs w2]; exists rq
    end; repeat split; reflexivity.
Qed.

End CommandFacts.

(** ** The signature *)

Module SignatureFacts.
Import Sha1Number PyStrFacts.












End SignatureFacts.

(** ** The reference provider *)

Module ProviderFacts.
Import Provider PyStrFacts.

Lemma strip_prefix_app p x : strip_prefix p (p +:+ x) = Some x.
Proof. induction p as [|c p IH]; simpl; [reflexivity|]. now rewrite Ascii.eqb_refl. Qed.

Lemma read_of_Z n : NilZero.int_of_string (PyStr.of_Z n) = Some (Z.to_int n).
Proof.
  unfold PyStr.of_Z. apply NilZero.isi; destruct n; simpl; try discriminate.
  all: intros E; injection E; apply DecimalPos.Unsigned.to_uint_nonnil.
Qed.

Lemma of_Z_inj a b : PyStr.of_Z a = PyStr.of_Z b -> a = b.
Proof.
  intros E. apply (f_equal NilZero.int_of_string) in E. rewrite !read_of_Z in E.
  injection E. apply DecimalZ.to_int_inj.
Qed.

(** *** Reading back what [json.dumps] wrote *)

Lemma unescape_char c rest :
  unescape (Json.escape_char c +:+ rest) = cons_char c (unescape rest).
Proof.
  destruct c as [b0 b1 b2 b3 b4 b5 b6 b7].
  destruct b0, b1, b2, b3, b4, b5, b6, b7; reflexivity.
Qed.

Lemma unescape_escape s rest :
  unescape (Json.escape s +:+ String Json.dquote rest) = Some (s, rest).
Proof.
  induction s as [|c s IH]; [reflexivity|].
  cbn [Json.escape]. rewrite append_assoc, unescape_char, IH. reflexivity.
Qed.

Lemma read_string_dumps s rest :
  read_string (Json.dumps_str s +:+ rest) = Some (s, rest).
Proof.
  unfold Json.dumps_str. cbn [String.append read_string].
  rewrite Ascii.eqb_refl, append_assoc. apply unescape_escape.
Qed.

Lemma read_field_dumps sep name v rest :
  read_field sep name (sep +:+ Json.dumps_str name +:+ ": " +:+ Json.dumps_str v +:+ rest)
  = Some (v, rest).
Proof.
  unfold read_field.
  replace (sep +:+ Json.dumps_str name +:+ ": " +:+ Json.dumps_str v +:+ rest)
    with ((sep +:+ Json.dumps_str name +:+ ": ") +:+ Json.dumps_str v +:+ rest)
    by (rewrite !append_assoc; reflexivity).
  rewrite strip_prefix_app. apply read_string_dumps.
Qed.

Lemma before_brace_app d : before_brace (d +:+ "}") = Some d.
Proof.
  induction d as [|c d IH]; [reflexivity|].
  cbn [String.append before_brace]. rewrite IH. destruct d; reflexivity.
Qed.

Lemma read_record_dumps t s g n :
  read_record (Json.dumps_record t s g n) = Some (t, s, g, n).
Proof.
  unfold read_record, Json.dumps_record.
  rewrite read_field_dumps, read_field_dumps, read_field_dumps.
  replace (", " +:+ Json.dumps_str "ttl" +:+ ": " +:+ PyStr.of_Z n +:+ "}")
    with ((", " +:+ Json.dumps_str "ttl" +:+ ": ") +:+ PyStr.of_Z n +:+ "}")
    by (rewrite !append_assoc; reflexivity).
  rewrite strip_prefix_app, before_brace_app, read_of_Z, DecimalZ.of_to. reflexivity.
Qed.

End ProviderFacts.

(** ** Composing runs *)

Section RunFacts.

Context {W : Type} `{Outside W}.

Lemma runs_bind {A B} (m : M W A) (k : A -> M W B) w a w1 mu1 o1 b w2 mu2 o2 :
  runs m w a w1 mu1 o1 -> runs (k a) w1 b w2 mu2 o2 ->
  runs (bind m k) w b w2 (mu1 ++ mu2) (o1 ++ o2).
Proof.
  intros (l1 & E1 & <- & <-) (l2 & E2 & <- & <-). exists (l1 ++ l2).
  rewrite (bind_Ret _ _ _ _ _ _ E1), E2, mutating_calls_app, printed_app. auto.
Qed.

Lemma runs_ret {A} (a : A) (w : W) : runs (ret a) w a w [] [].
Proof. now exists []. Qed.

Lemma runs_lift {A} (a : A) (w : W) : runs (lift (Ret a)) w a w [] [].
Proof. now exists []. Qed.

Lemma runs_print s (w : W) : runs (print s) w tt w [] [s].
Proof. now exists [Print s]. Qed.

Lemma runs_eq {A} (m : M W A) w a w' mu o mu' o' :
  runs m w a w' mu o -> mu = mu' -> o = o' -> runs m w a w' mu' o'.
Proof. now intros ? <- <-. Qed.

Variable environ : gmap string string.

(** With the keys in the environment, a call for a known method asks
    for the time, then sends [api_request]. *)
Lemma ovh_call_run key secret consumer method path body (w : W) :
  environ !! "OVH_APPLICATION_KEY" = Some key ->
  environ !! "OVH_APPLICATION_SECRET" = Some secret ->
  environ !! "OVH_CONSUMER_KEY" = Some consumer ->
  PyStr.truthy key = true -> PyStr.truthy secret = true ->
  PyStr.truthy consumer = true ->
  In method ["GET"; "POST"; "PUT"; "DELETE"] ->
  forall t w1 r w2,
    net w time_request = (Some t, w1) ->
    net w1 (api_request key secret consumer method path body (text t)) = (Some r, w2) ->
    ovh_call environ method path body w
    = (Ret r, w2,
       [Http time_request (Some t);
        Http (api_request key secret consumer method path body (text t)) (Some r)]).
Proof.
  intros Hk Hs Hc Tk Ts Tc Hm t w1 r w2 Ht Hr.
  unfold ovh_call, getenv. rewrite Hk, Hs, Hc. cbn [forallb is_set].
  rewrite Tk, Ts, Tc. cbn [andb negb default from_option id].
  unfold bind at 1. unfold send at 1. rewrite Ht.
  unfold api_request in Hr.
  destruct Hm as [<-|[<-|[<-|[<-|[]]]]];
    cbn [String.eqb Ascii.eqb Bool.eqb orb] in *; unfold send; rewrite Hr; reflexivity.
Qed.

End RunFacts.

Module ProviderRuns.
Import Provider PyStrFacts ProviderFacts.

Arguments Sha1.hexdigest : simpl never.

Lemma environ_keys st :
  environ_of st !! "OVH_APPLICATION_KEY" = Some (app_key st)
  /\ environ_of st !! "OVH_APPLICATION_SECRET" = Some (app_secret st)
  /\ environ_of st !! "OVH_CONSUMER_KEY" = Some (consumer_key st).
Proof. unfold environ_of. repeat split; now simplify_map_eq. Qed.

Lemma serve_time st :
  serve st time_request
  = (Some (Response 200 (PyStr.of_Z (clock st)) (Some (JInt (clock st)))), st).
Proof. reflexivity. Qed.

Lemma authentic_api_request st method path body t :
  (String.eqb method "POST" || String.eqb method "PUT" = false -> body = "") ->
  authentic st (api_request (app_key st) (app_secret st) (consumer_key st)
                  method path body t) = true.
Proof.
  intros Hb. unfold authentic.
  change (header "X-Ovh-Application" (api_request _ _ _ _ _ _ _)) with (app_key st).
  change (header "X-Ovh-Consumer" (api_request _ _ _ _ _ _ _)) with (consumer_key st).
  change (header "X-Ovh-Timestamp" (api_request _ _ _ _ _ _ _)) with t.
  change (header "X-Ovh-Signature" (api_request _ _ _ _ _ _ _))
    with (signature (app_secret st) (consumer_key st) method path body t).
  rewrite !String.eqb_refl, signature_spec. cbn [andb meth url data api_request].
  destruct (_ || _).
  - apply String.eqb_refl.
  - rewrite (Hb eq_refl). apply String.eqb_refl.
Qed.

Lemma strip_zone st rest :
  strip_prefix ("/domain/zone/" +:+ zone st) ("/domain/zone/" +:+ zone st +:+ rest)
  = Some rest.
Proof. rewrite <- append_assoc. apply strip_prefix_app. Qed.

(** What the provider answers to an authenticated request below its
    zone. *)
Lemma serve_api_request st method rest body t :
  (String.eqb method "POST" || String.eqb method "PUT" = false -> body = "") ->
  serve st (api_request (app_key st) (app_secret st) (consumer_key st) method
              ("/domain/zone/" +:+ zone st +:+ rest) body t)
  = (let '(r, st') :=
       route st (api_request (app_key st) (app_secret st) (consumer_key st) method
                   ("/domain/zone/" +:+ zone st +:+ rest) body t) rest in
     (Some r, st')).
Proof.
  intros Hb. unfold serve.
  rewrite (authentic_api_request st method _ body t Hb).
  change (url (api_request _ _ _ method ?p body t)) with (OVH_ENDPOINT +:+ p).
  change (String.eqb (OVH_ENDPOINT +:+ _) (url ipify)) with false.
  change (String.eqb (OVH_ENDPOINT +:+ _) (url ifconfig)) with false.
  cbv iota. rewrite strip_prefix_app.
  change (String.eqb ("/domain/zone/" +:+ _) "/auth/time") with false.
  cbv iota. cbn [negb]. rewrite strip_zone. reflexivity.
Qed.

(** A call of the client against the provider, for a path below the
    zone. *)
Lemma provider_call st method rest body :
  keys_set st ->
  In method ["GET"; "POST"; "PUT"; "DELETE"] ->
  (String.eqb method "POST" || String.eqb method "PUT" = false -> body = "") ->
  forall r st',
    route st (api_request (app_key st) (app_secret st) (consumer_key st) method
                ("/domain/zone/" +:+ zone st +:+ rest) body (PyStr.of_Z (clock st)))
          rest = (r, st') ->
    runs (ovh_call (environ_of st) method ("/domain/zone/" +:+ zone st +:+ rest) body)
         st r st'
         (if String.eqb method "GET" then []
          else [(method, OVH_ENDPOINT +:+ "/domain/zone/" +:+ zone st +:+ rest)])
         [].
Proof.
  intros (Tk & Ts & Tc) Hm Hb r st' Hr.
  destruct (environ_keys st) as (Hk & Hs & Hc).
  eexists. split; [|split].
  - eapply (ovh_call_run _ _ _ _ _ _ _ _ Hk Hs Hc Tk Ts Tc Hm).
    + apply serve_time.
    + cbn [text]. change (@net state outside) with serve.
      rewrite (serve_api_request st method rest body _ Hb), Hr. reflexivity.
  - unfold mutating_calls. cbn [calls flat_map app meth url api_request time_request
                                List.filter fst snd].
    change (String.eqb "GET" "GET") with true. cbn [negb].
    destruct (String.eqb method "GET"); reflexivity.
  - reflexivity.
Qed.

End ProviderRuns.

Module ProviderListing.
Import Provider PyStrFacts ProviderFacts ProviderRuns ProviderView.

Arguments Sha1.hexdigest : simpl never.

Lemma eqb_prefix p a b : String.eqb (p +:+ a) (p +:+ b) = String.eqb a b.
Proof. induction p as [|c p IH]; simpl; [reflexivity|]. now rewrite Ascii.eqb_refl. Qed.

Lemma eqb_with_amp x y z :
  PyStr.contains "&" x = false -> String.eqb x (y +:+ String "&" z) = false.
Proof.
  intros Hx. apply String.eqb_neq. intros ->. now rewrite contains_app in Hx.
Qed.

Lemma eqb_amp_split a b a' b' :
  PyStr.contains "&" a = false -> PyStr.contains "&" a' = false ->
  String.eqb (a +:+ String "&" b) (a' +:+ String "&" b')
  = String.eqb a' a && String.eqb b' b.
Proof.
  intros Ha Ha'.
  destruct (String.eqb_spec (a +:+ String "&" b) (a' +:+ String "&" b')) as [E|E].
  - apply (f_equal (PyStr.split1 "&")) in E. rewrite !split1_app in E by assumption.
    injection E as -> ->. now rewrite !String.eqb_refl.
  - destruct (String.eqb_spec a' a) as [->|]; [|reflexivity].
    destruct (String.eqb_spec b' b) as [->|]; [|reflexivity].
    now destruct E.
Qed.

(** On a well-formed zone the provider selects by equality of the
    fields that the query names. *)
Lemma selects_query t s r :
  PyStr.contains "&" (rtype r) = false ->
  PyStr.contains "&" t = false ->
  PyStr.truthy t || PyStr.truthy s = true ->
  selects (query t s) r
  = (negb (PyStr.truthy t) || String.eqb (rtype r) t)
    && (negb (PyStr.truthy s) || String.eqb (rsub r) s).
Proof.
  intros Hr Ht Hts. unfold selects, query.
  destruct t as [|c t], s as [|d s]; [discriminate| | |];
    cbn [PyStr.truthy PyStr.join app negb orb andb].
  - change (String.eqb ("subDomain=" +:+ String d s) ("fieldType=" +:+ _)) with false.
    cbn [orb]. rewrite eqb_prefix, String.eqb_sym. reflexivity.
  - change (String.eqb ("fieldType=" +:+ String c t) ("subDomain=" +:+ _)) with false.
    rewrite !eqb_prefix, orb_false_r.
    change (rtype r +:+ "&subDomain=" +:+ rsub r)
      with (rtype r +:+ String "&" ("subDomain=" +:+ rsub r)).
    rewrite (eqb_with_amp _ _ _ Ht). cbn [orb].
    rewrite String.eqb_sym, andb_true_r. reflexivity.
  - change (("fieldType=" +:+ String c t) +:+ "&" +:+ "subDomain=" +:+ String d s)
      with ("fieldType=" +:+ (String c t +:+ String "&" ("subDomain=" +:+ String d s))).
    change (String.eqb ("fieldType=" +:+ _) ("subDomain=" +:+ _)) with false.
    rewrite !eqb_prefix, orb_false_r.
    change (rtype r +:+ "&subDomain=" +:+ rsub r)
      with (rtype r +:+ String "&" ("subDomain=" +:+ rsub r)).
    rewrite (eqb_amp_split _ _ _ _ Ht Hr), eqb_prefix.
    rewrite (String.eqb_sym (String c t +:+ _) (rtype r)), (eqb_with_amp _ _ _ Hr).
    rewrite orb_false_r. reflexivity.
Qed.

Lemma filter_ext_in {A} (f g : A -> bool) l :
  (forall x, In x l -> f x = g x) -> List.filter f l = List.filter g l.
Proof.
  induction l as [|x l IH]; intros E; simpl; [reflexivity|].
  rewrite (E x (or_introl eq_refl)), IH; [reflexivity|]. intros y Hy. apply E. now right.
Qed.

Lemma find_record_id rs r :
  NoDup (map rid rs) -> In r rs -> find_record (PyStr.of_Z (rid r)) rs = Some r.
Proof.
  unfold find_record. induction rs as [|x rs IH]; intros Hnd Hin; [destruct Hin|].
  simpl in Hnd. apply NoDup_cons in Hnd as [Hx Hrs].
  simpl. destruct (String.eqb_spec (PyStr.of_Z (rid x)) (PyStr.of_Z (rid r))) as [E|E].
  - apply of_Z_inj in E. destruct Hin as [->|Hin]; [reflexivity|].
    exfalso. apply Hx. rewrite E. apply list_elem_of_In, in_map, Hin.
  - destruct Hin as [->|Hin]; [now destruct E|]. now apply IH.
Qed.

Lemma list_path_query d t s :
  list_path d (Some t) (Some s)
  = "/domain/zone/" +:+ d
      +:+ (if PyStr.truthy t || PyStr.truthy s then "/record?" +:+ query t s
           else "/record").
Proof.
  unfold list_path, query. cbn [is_set default from_option id].
  destruct (PyStr.truthy t), (PyStr.truthy s);
    cbn [app orb]; rewrite ?append_assoc; reflexivity.
Qed.

Lemma listed_all rs : listed "" "" rs = rs.
Proof.
  unfold listed. rewrite (filter_ext_in _ (fun _ => true)) by reflexivity.
  induction rs as [|r rs IH]; simpl; congruence.
Qed.

Lemma route_listing st rq t s :
  typed st -> PyStr.contains "&" t = false -> meth rq = "GET" ->
  route st rq (if PyStr.truthy t || PyStr.truthy s then "/record?" +:+ query t s
               else "/record")
  = (ok (ids_of (listed t s (records st))), st).
Proof.
  intros Hty Ht Hm. unfold route. rewrite Hm.
  destruct (PyStr.truthy t || PyStr.truthy s) eqn:Hts.
  - change (String.eqb ("/record?" +:+ _) "/refresh") with false. cbv iota.
    change (strip_prefix "/record" ("/record?" +:+ query t s))
      with (Some (String "?" (query t s))).
    cbv iota. change (Ascii.eqb "?" "?") with true. cbv iota.
    change (String.eqb "GET" "GET") with true. cbv iota.
    do 3 f_equal. unfold listed. apply filter_ext_in. intros r Hr.
    apply selects_query; [|assumption..].
    unfold typed in Hty. rewrite List.Forall_forall in Hty. now apply Hty.
  - apply orb_false_iff in Hts as [Et Es].
    destruct t; [|discriminate]. destruct s; [|discriminate].
    rewrite listed_all. reflexivity.
Qed.

Lemma route_detail st rq r :
  NoDup (map rid (records st)) -> In r (records st) -> meth rq = "GET" ->
  route st rq ("/record/" +:+ PyStr.of_Z (rid r)) = (ok (to_json (zone st) r), st).
Proof.
  intros Hnd Hin Hm. unfold route. rewrite Hm.
  change (String.eqb ("/record/" +:+ _) "/refresh") with false. cbv iota.
  change (strip_prefix "/record" ("/record/" +:+ ?i)) with (Some (String "/" i)).
  cbv iota. change (Ascii.eqb "/" "?") with false. change (Ascii.eqb "/" "/") with true.
  cbv iota. rewrite (find_record_id _ _ Hnd Hin). reflexivity.
Qed.

Lemma in_get : In "GET" ["GET"; "POST"; "PUT"; "DELETE"].
Proof. now left. Qed.

Lemma fetch_provider st sel : forall acc,
  keys_set st -> NoDup (map rid (records st)) ->
  (forall r, In r sel -> In r (records st)) ->
  runs (fetch_records (environ_of st) (zone st) (map (fun r => JInt (rid r)) sel) acc)
       st (acc ++ map (to_json (zone st)) sel) st [] [].
Proof.
  induction sel as [|r sel IH]; intros acc Hk Hnd Hin; cbn [map fetch_records].
  - rewrite app_nil_r. apply runs_ret.
  - replace (acc ++ to_json (zone st) r :: map (to_json (zone st)) sel)
      with ((acc ++ [to_json (zone st) r]) ++ map (to_json (zone st)) sel)
      by (rewrite <- app_assoc; reflexivity).
    eapply runs_eq.
    + eapply runs_bind; [apply (runs_lift (PyStr.of_Z (rid r)))|].
      eapply runs_bind.
      * eapply (provider_call st "GET" ("/record/" +:+ PyStr.of_Z (rid r)) "" Hk in_get);
          [reflexivity|].
        apply route_detail; [assumption | apply Hin; now left | reflexivity].
      * cbn [status_code ok]. change (200 =? 200) with true. cbv iota.
        eapply runs_bind; [apply (runs_lift (to_json (zone st) r))|].
        apply IH; [assumption..|]. intros x Hx. apply Hin. now right.
    + reflexivity.
    + reflexivity.
Qed.

(** Listing against the provider returns the selected records and
    changes nothing. *)
Lemma list_records_provider st t s :
  keys_set st -> NoDup (map rid (records st)) -> typed st ->
  PyStr.contains "&" t = false ->
  runs (list_records (environ_of st) (zone st) (Some t) (Some s))
       st (map (to_json (zone st)) (listed t s (records st))) st [] [].
Proof.
  intros Hk Hnd Hty Ht. unfold list_records. rewrite list_path_query.
  eapply runs_eq.
  - eapply runs_bind.
    + eapply (provider_call st "GET" _ "" Hk in_get); [reflexivity|].
      apply route_listing; [assumption | assumption | reflexivity].
    + cbn [status_code ok]. change (negb (200 =? 200)) with false. cbv iota.
      eapply runs_bind; [apply (runs_lift (ids_of (listed t s (records st))))|].
      eapply runs_bind; [apply (runs_lift (map (fun r => JInt (rid r))
                                              (listed t s (records st))))|].
      apply (fetch_provider st _ []); [assumption..|].
      intros r Hr. unfold listed in Hr. apply List.filter_In in Hr. tauto.
  - reflexivity.
  - reflexivity.
Qed.

End ProviderListing.

(** ** Adding and deleting against the provider *)

Module ProviderUpdates.
Import Provider PyStrFacts ProviderFacts ProviderRuns ProviderView ProviderListing.

Arguments Sha1.hexdigest : simpl never.

Section Zone.

Variable st : state.
Variables subdomain record_type target : string.
Variable ttl : Z.

Hypothesis Hkeys : keys_set st.
Hypothesis Hids : NoDup (map rid (records st)).

Let env := environ_of st.
Let z := zone st.

Lemma get_subDomain r : Json.get (to_json z r) "subDomain" = Ret (JStr (rsub r)).
Proof. reflexivity. Qed.
Lemma get_fieldType r : Json.get (to_json z r) "fieldType" = Ret (JStr (rtype r)).
Proof. reflexivity. Qed.
Lemma get_target r : Json.get (to_json z r) "target" = Ret (JStr (rtarget r)).
Proof. reflexivity. Qed.
Lemma get_id r : Json.get (to_json z r) "id" = Ret (JInt (rid r)).
Proof. reflexivity. Qed.

(** Records of another (subdomain, type) pass through the loop of
    [add_record] untouched, in any state of the provider. *)
Lemma add_loop_skip (w : state) rs :
  Forall (fun r => matches subdomain record_type r = false) rs ->
  runs (add_loop env z subdomain target record_type (map (to_json z) rs))
       w None w [] [].
Proof.
  induction rs as [|r rs IH]; intros Hrs; cbn [map add_loop]; [apply runs_ret|].
  apply Forall_cons_iff in Hrs as [Hr Hrs].
  rewrite get_subDomain, get_fieldType.
  eapply runs_eq; [|shelve..].
  { eapply runs_bind; [apply runs_lift|]. eapply runs_bind; [apply runs_lift|].
    cbn [Json.eq_str]. unfold matches in Hr. rewrite Hr. apply (IH Hrs). }
  Unshelve. all: reflexivity.
Qed.

Lemma delete_loop_skip (w : state) rs deleted :
  Forall (fun r => String.eqb (rsub r) subdomain = false) rs ->
  runs (delete_loop env z subdomain (map (to_json z) rs) deleted)
       w deleted w [] [].
Proof.
  induction rs as [|r rs IH]; intros Hrs; cbn [map delete_loop]; [apply runs_ret|].
  apply Forall_cons_iff in Hrs as [Hr Hrs].
  rewrite get_subDomain.
  eapply runs_eq; [|shelve..].
  { eapply runs_bind; [apply runs_lift|].
    cbn [Json.eq_str]. rewrite Hr. apply (IH Hrs). }
  Unshelve. all: reflexivity.
Qed.

Lemma route_delete rq r :
  In r (records st) -> meth rq = "DELETE" ->
  route st rq ("/record/" +:+ PyStr.of_Z (rid r))
  = (ok JNull,
     with_records st (remove_record (PyStr.of_Z (rid r)) (records st)) (next_id st)).
Proof.
  intros Hin Hm. unfold route. rewrite Hm.
  change (String.eqb ("/record/" +:+ _) "/refresh") with false. cbv iota.
  change (strip_prefix "/record" ("/record/" +:+ ?i)) with (Some (String "/" i)).
  cbv iota. change (Ascii.eqb "/" "?") with false. change (Ascii.eqb "/" "/") with true.
  cbv iota. rewrite (find_record_id _ _ Hids Hin). reflexivity.
Qed.

Lemma in_post : In "POST" ["GET"; "POST"; "PUT"; "DELETE"].
Proof. right. now left. Qed.

Lemma in_delete : In "DELETE" ["GET"; "POST"; "PUT"; "DELETE"].
Proof. do 3 right. now left. Qed.

(** Refreshing the zone, in any state that holds the same keys. *)
Lemma refresh_provider (w : state) :
  keys_set w ->
  runs (refresh_zone (environ_of w) (zone w)) w true w
       [("POST", refresh_url (zone w))]
       [refreshed_line w].
Proof.
  intros Hk. unfold refresh_zone.
  eapply runs_eq; [|shelve..].
  { eapply runs_bind.
    - eapply (provider_call w "POST" "/refresh" "" Hk in_post); [discriminate|].
      reflexivity.
    - change (status_in [200; 204] (ok JNull)) with true. cbv iota.
      eapply runs_bind; [apply runs_print | apply runs_ret]. }
  Unshelve. all: reflexivity.
Qed.

(** The loop of [delete_record] over a listing in which [r] is the one
    record of the subdomain. *)
Lemma delete_loop_one pre r post :
  In r (records st) -> rsub r = subdomain ->
  Forall (fun x => String.eqb (rsub x) subdomain = false) pre ->
  Forall (fun x => String.eqb (rsub x) subdomain = false) post ->
  runs (delete_loop env z subdomain (map (to_json z) (pre ++ r :: post)) false)
       st true (without st r)
       [("DELETE", record_url z (PyStr.of_Z (rid r)))]
       [deleted_line st subdomain r].
Proof.
  intros Hin Hsub Hpre Hpost.
  induction pre as [|x pre IH]; cbn [app map delete_loop]; rewrite get_subDomain.
  - eapply runs_eq; [|shelve..].
    { eapply runs_bind; [apply runs_lift|].
      cbn [Json.eq_str]. rewrite Hsub, String.eqb_refl. rewrite get_id.
      eapply runs_bind; [apply runs_lift|].
      eapply runs_bind; [apply (runs_lift (PyStr.of_Z (rid r)))|].
      eapply runs_bind.
      + eapply (provider_call st "DELETE" ("/record/" +:+ PyStr.of_Z (rid r)) ""
                  Hkeys in_delete); [reflexivity|].
        apply route_delete; [assumption | reflexivity].
      + change (status_in [200; 204] (ok JNull)) with true. cbv iota.
        eapply runs_bind; [apply runs_print|].
        apply (delete_loop_skip (without st r) post true Hpost). }
    Unshelve. all: reflexivity.
  - apply Forall_cons_iff in Hpre as [Hx Hpre].
    eapply runs_eq; [|shelve..].
    { eapply runs_bind; [apply runs_lift|].
      cbn [Json.eq_str]. rewrite Hx. apply (IH Hpre). }
    Unshelve. all: reflexivity.
Qed.

Hypothesis Htyped : typed st.
Hypothesis Hamp : PyStr.contains "&" record_type = false.

(** [delete_record] when [r] is the one listed record of the
    subdomain: one DELETE, then one refresh. *)
Lemma delete_record_one pre r post :
  listed record_type subdomain (records st) = pre ++ r :: post ->
  In r (records st) -> rsub r = subdomain ->
  Forall (fun x => String.eqb (rsub x) subdomain = false) pre ->
  Forall (fun x => String.eqb (rsub x) subdomain = false) post ->
  runs (delete_record env z subdomain record_type) st true (without st r)
       [("DELETE", record_url z (PyStr.of_Z (rid r))); ("POST", refresh_url z)]
       [deleted_line st subdomain r; refreshed_line st].
Proof.
  intros Hl Hin Hsub Hpre Hpost. unfold delete_record.
  eapply runs_eq; [|shelve..].
  { eapply runs_bind;
      [apply (list_records_provider st record_type subdomain Hkeys Hids Htyped Hamp)|].
    rewrite Hl.
    eapply runs_bind; [apply (delete_loop_one pre r post Hin Hsub Hpre Hpost)|].
    cbv iota. eapply runs_bind; [|apply runs_ret].
    eapply runs_bind; [|apply runs_ret].
    apply (refresh_provider (without st r) Hkeys). }
  Unshelve. all: reflexivity.
Qed.

Lemma route_create rq (w : state) :
  meth rq = "POST" ->
  data rq = Some (Json.dumps_record record_type subdomain target ttl) ->
  route w rq "/record"
  = (ok (to_json (zone w)
           (Record (next_id w) subdomain record_type target ttl)),
     with_new w subdomain record_type target ttl).
Proof.
  intros Hm Hd. unfold route. rewrite Hm, Hd.
  cbn [default from_option id]. rewrite read_record_dumps. reflexivity.
Qed.

(** Creating the record and refreshing, in any state that holds the
    keys. *)
Lemma create_provider (w : state) :
  keys_set w ->
  runs (response <- ovh_call (environ_of w) "POST"
                      ("/domain/zone/" +:+ zone w +:+ "/record")
                      (Json.dumps_record record_type subdomain target ttl) ;;
        if status_in [200; 201] response then
          print ("Added " +:+ record_type +:+ " record: " +:+ subdomain +:+ "."
                   +:+ zone w +:+ " -> " +:+ target) ;;
          refresh_zone (environ_of w) (zone w) ;;
          ret true
        else
          print ("Error adding record: " +:+ text response) ;;
          ret false)
       w true (with_new w subdomain record_type target ttl)
       [("POST", create_url (zone w)); ("POST", refresh_url (zone w))]
       [added_line w subdomain record_type target; refreshed_line w].
Proof.
  intros Hk.
  eapply runs_eq; [|shelve..].
  { eapply runs_bind.
    - eapply (provider_call w "POST" "/record" _ Hk in_post); [discriminate|].
      apply route_create; reflexivity.
    - change (status_in [200; 201] (ok ?j)) with true. cbv iota.
      eapply runs_bind; [apply runs_print|].
      eapply runs_bind; [|apply runs_ret].
      apply (refresh_provider (with_new w subdomain record_type target ttl) Hk). }
  Unshelve. all: reflexivity.
Qed.

(** The loop of [add_record] over a listing in which [r] is the one
    record of (subdomain, type), with another target. *)
Lemma add_loop_one pre r post :
  listed record_type subdomain (records st) = pre ++ r :: post ->
  In r (records st) -> matches subdomain record_type r = true ->
  String.eqb (rtarget r) target = false ->
  Forall (fun x => matches subdomain record_type x = false) pre ->
  Forall (fun x => matches subdomain record_type x = false) post ->
  Forall (fun x => String.eqb (rsub x) subdomain = false) pre ->
  Forall (fun x => String.eqb (rsub x) subdomain = false) post ->
  forall some,
    (exists front, pre = front ++ some) ->
    runs (add_loop env z subdomain target record_type
            (map (to_json z) (some ++ r :: post)))
         st None (without st r)
         [("DELETE", record_url z (PyStr.of_Z (rid r))); ("POST", refresh_url z)]
         ["Record exists with different target: " +:+ rtarget r;
          "Updating to: " +:+ target;
          deleted_line st subdomain r; refreshed_line st].
Proof.
  intros Hl Hin Hm Ht Hpre Hpost Hspre Hspost some.
  induction some as [|x some IH]; intros [front Hfront];
    cbn [app map add_loop]; rewrite get_subDomain, get_fieldType.
  - eapply runs_eq; [|shelve..].
    { eapply runs_bind; [apply runs_lift|]. eapply runs_bind; [apply runs_lift|].
      cbn [Json.eq_str]. unfold matches in Hm. rewrite Hm. rewrite get_target.
      eapply runs_bind; [apply runs_lift|].
      cbn [Json.eq_str]. rewrite Ht.
      eapply runs_bind; [apply (runs_lift (rtarget r))|].
      eapply runs_bind; [apply runs_print|].
      eapply runs_bind; [apply runs_print|].
      apply andb_true_iff in Hm as [Hs _]. apply String.eqb_eq in Hs.
      eapply runs_bind;
        [apply (delete_record_one pre r post Hl Hin Hs Hspre Hspost)|].
      apply (add_loop_skip (without st r) post Hpost). }
    Unshelve. all: reflexivity.
  - assert (Hx : matches subdomain record_type x = false).
    { rewrite List.Forall_forall in Hpre. apply Hpre. subst pre.
      apply in_or_app. right. now left. }
    eapply runs_eq; [|shelve..].
    { eapply runs_bind; [apply runs_lift|]. eapply runs_bind; [apply runs_lift|].
      cbn [Json.eq_str]. unfold matches in Hx. rewrite Hx.
      apply IH. exists (front ++ [x]). rewrite <- app_assoc. exact Hfront. }
    Unshelve. all: reflexivity.
Qed.

End Zone.

Lemma filter_split {A} (f : A -> bool) l x :
  List.filter f l = [x] ->
  exists pre post,
    l = pre ++ x :: post
    /\ Forall (fun y => f y = false) pre /\ Forall (fun y => f y = false) post.
Proof.
  induction l as [|y l IH]; simpl; [discriminate|].
  destruct (f y) eqn:Hy.
  - intros [= -> Hl]. exists [], l. repeat split; [constructor|].
    apply List.Forall_forall. intros u Hu.
    destruct (f u) eqn:Hfu; [|reflexivity].
    assert (Hin : In u (List.filter f l)) by (apply List.filter_In; auto).
    rewrite Hl in Hin. destruct Hin.
  - intros Hl. destruct (IH Hl) as (pre & post & -> & Hpre & Hpost).
    exists (y :: pre), post. repeat split; [constructor; assumption | assumption].
Qed.

Lemma create_is_not_refresh d : String.eqb (create_url d) (refresh_url d) = false.
Proof. unfold create_url, refresh_url. rewrite !eqb_prefix. reflexivity. Qed.

Lemma refresh_is_not_create d : String.eqb (refresh_url d) (create_url d) = false.
Proof. unfold create_url, refresh_url. rewrite !eqb_prefix. reflexivity. Qed.

(** [add_record] over a zone in which [r] is the one record of
    (subdomain, type), with another target. *)
Lemma add_record_moves st subdomain record_type target ttl r :
  keys_set st -> well_formed st ->
  List.filter (matches subdomain record_type) (records st) = [r] ->
  rtarget r <> target ->
  runs (add_record (environ_of st) (zone st) subdomain target record_type ttl)
       st true (with_new (without st r) subdomain record_type target ttl)
       [("DELETE", record_url (zone st) (PyStr.of_Z (rid r)));
        ("POST", refresh_url (zone st));
        ("POST", create_url (zone st));
        ("POST", refresh_url (zone st))]
       ["Record exists with different target: " +:+ rtarget r;
        "Updating to: " +:+ target;
        deleted_line st subdomain r; refreshed_line st;
        added_line st subdomain record_type target; refreshed_line st].
Proof.
  intros Hk [Hnd Hty] Hone Hne.
  assert (Hr : In r (records st) /\ matches subdomain record_type r = true).
  { apply List.filter_In. rewrite Hone. now left. }
  destruct Hr as [Hin Hm].
  assert (Ht : rtype r = record_type).
  { unfold matches in Hm. apply andb_true_iff in Hm as [_ Hm]. now apply String.eqb_eq. }
  assert (Hrt : record_type <> "" /\ PyStr.contains "&" record_type = false).
  { unfold typed in Hty. rewrite List.Forall_forall in Hty. rewrite <- Ht. now apply Hty. }
  destruct Hrt as [Hnonempty Hamp].
  assert (Htruthy : PyStr.truthy record_type = true)
    by (destruct record_type; [congruence | reflexivity]).
  assert (Hl : List.filter (matches subdomain record_type)
                 (listed record_type subdomain (records st)) = [r]).
  { unfold listed. rewrite filter_filter_imp; [exact Hone|].
    intros x Hx. unfold matches in Hx. apply andb_true_iff in Hx as [-> ->].
    now rewrite !orb_true_r. }
  destruct (filter_split _ _ _ Hl) as (pre & post & HL & Hpre & Hpost).
  assert (Hsub : forall x, In x (listed record_type subdomain (records st)) ->
                   matches subdomain record_type x = false ->
                   String.eqb (rsub x) subdomain = false).
  { intros x Hx Hmx. unfold listed in Hx. apply List.filter_In in Hx as [_ Hx].
    rewrite Htruthy in Hx. cbn [negb orb] in Hx. apply andb_true_iff in Hx as [Hx _].
    unfold matches in Hmx. rewrite Hx, andb_true_r in Hmx. exact Hmx. }
  assert (Hspre : Forall (fun x => String.eqb (rsub x) subdomain = false) pre).
  { apply List.Forall_forall. intros x Hx. apply Hsub.
    - rewrite HL. apply in_or_app. now left.
    - rewrite List.Forall_forall in Hpre. now apply Hpre. }
  assert (Hspost : Forall (fun x => String.eqb (rsub x) subdomain = false) post).
  { apply List.Forall_forall. intros x Hx. apply Hsub.
    - rewrite HL. apply in_or_app. right. now right.
    - rewrite List.Forall_forall in Hpost. now apply Hpost. }
  assert (Htg : String.eqb (rtarget r) target = false) by now apply String.eqb_neq.
  unfold add_record. eapply runs_eq; [|shelve..].
  { eapply runs_bind;
      [apply (list_records_provider st record_type subdomain Hk Hnd Hty Hamp)|].
    rewrite HL.
    eapply runs_bind.
    - apply (add_loop_one st subdomain record_type target Hk Hnd Hty Hamp
               pre r post HL Hin Hm Htg Hpre Hpost Hspre Hspost pre).
      now exists [].
    - cbv iota.
      apply (create_provider subdomain record_type target ttl (without st r) Hk). }
  Unshelve. all: reflexivity.
Qed.

(** C1 (as the code has it). On a well-formed zone in which exactly one
    record [r] belongs to (subdomain, type) and has another target,
    [add_record] returns True after exactly one DELETE (of [r]) followed
    by exactly one POST that creates the record; each of the two is
    followed by a refresh of the zone, two refreshes in all.  The zone
    then holds the new record in place of [r]. *)
Theorem add_record_replaces st subdomain record_type target ttl r :
  keys_set st -> well_formed st ->
  List.filter (matches subdomain record_type) (records st) = [r] ->
  rtarget r <> target ->
  exists log,
    add_record (environ_of st) (zone st) subdomain target record_type ttl st
    = (Ret true, with_new (without st r) subdomain record_type target ttl, log)
    /\ mutating_calls log
       = [("DELETE", record_url (zone st) (PyStr.of_Z (rid r)));
          ("POST", refresh_url (zone st));
          ("POST", create_url (zone st));
          ("POST", refresh_url (zone st))]
    /\ count_method "DELETE" log = 1%nat
    /\ count_calls "POST" (create_url (zone st)) log = 1%nat
    /\ count_calls "POST" (refresh_url (zone st)) log = 2%nat
    /\ printed log
       = ["Record exists with different target: " +:+ rtarget r;
          "Updating to: " +:+ target;
          deleted_line st subdomain r; refreshed_line st;
          added_line st subdomain record_type target; refreshed_line st].
Proof.
  intros Hk Hwf Hone Hne.
  destruct (add_record_moves st subdomain record_type target ttl r Hk Hwf Hone Hne)
    as (log & Hrun & Hmut & Hout).
  exists log. split; [exact Hrun|]. split; [exact Hmut|].
  unfold count_method, count_calls.
  rewrite !filter_calls, Hmut.
  - cbn [List.filter fst snd].
    change (String.eqb "DELETE" "DELETE") with true.
    change (String.eqb "DELETE" "POST") with false.
    change (String.eqb "POST" "DELETE") with false.
    change (String.eqb "POST" "POST") with true.
    cbn [andb].
    rewrite !String.eqb_refl, create_is_not_refresh, refresh_is_not_create.
    repeat split; [reflexivity.. | exact Hout].
  - intros c Hc. apply andb_true_iff in Hc as [Hc _]. apply String.eqb_eq in Hc.
    now rewrite Hc.
  - intros c Hc. apply andb_true_iff in Hc as [Hc _]. apply String.eqb_eq in Hc.
    now rewrite Hc.
  - intros c Hc. apply String.eqb_eq in Hc. now rewrite Hc.
Qed.

End ProviderUpdates.

(** ** Adding twice *)

Module ProviderIdempotence.
Import Provider PyStrFacts ProviderFacts ProviderRuns ProviderView ProviderListing.
Import ProviderUpdates.

Arguments Sha1.hexdigest : simpl never.

(** The loop of [add_record] stops at the first record of (subdomain,
    type) when it has the wanted target. *)
Lemma add_loop_found st subdomain record_type target (w : state) pre r post :
  Forall (fun x => matches subdomain record_type x = false) pre ->
  matches subdomain record_type r = true -> rtarget r = target ->
  runs (add_loop (environ_of st) (zone st) subdomain target record_type
          (map (to_json (zone st)) (pre ++ r :: post)))
       w (Some true) w []
       [already_exists_message (zone st) subdomain target].
Proof.
  intros Hpre Hm Ht.
  induction pre as [|x pre IH]; cbn [app map add_loop];
    rewrite get_subDomain, get_fieldType.
  - eapply runs_eq; [|shelve..].
    { eapply runs_bind; [apply runs_lift|]. eapply runs_bind; [apply runs_lift|].
      cbn [Json.eq_str]. unfold matches in Hm. rewrite Hm. rewrite get_target.
      eapply runs_bind; [apply runs_lift|].
      cbn [Json.eq_str]. rewrite Ht, String.eqb_refl.
      eapply runs_bind; [apply runs_print | apply runs_ret]. }
    Unshelve. all: reflexivity.
  - apply Forall_cons_iff in Hpre as [Hx Hpre].
    eapply runs_eq; [|shelve..].
    { eapply runs_bind; [apply runs_lift|]. eapply runs_bind; [apply runs_lift|].
      cbn [Json.eq_str]. unfold matches in Hx. rewrite Hx. apply (IH Hpre). }
    Unshelve. all: reflexivity.
Qed.

Lemma filter_listed subdomain record_type rs :
  List.filter (matches subdomain record_type) (listed record_type subdomain rs)
  = List.filter (matches subdomain record_type) rs.
Proof.
  unfold listed. apply filter_filter_imp.
  intros x Hx. unfold matches in Hx. apply andb_true_iff in Hx as [-> ->].
  now rewrite !orb_true_r.
Qed.

Lemma filter_none {A} (f : A -> bool) l :
  List.filter f l = [] -> Forall (fun x => f x = false) l.
Proof.
  induction l as [|x l IH]; simpl; [constructor|].
  destruct (f x) eqn:Hx; [discriminate|]. constructor; auto.
Qed.

(** The record is there with the wanted target: nothing is changed. *)
Lemma add_record_present st subdomain record_type target ttl r :
  keys_set st -> well_formed st -> PyStr.contains "&" record_type = false ->
  List.filter (matches subdomain record_type) (records st) = [r] ->
  rtarget r = target ->
  runs (add_record (environ_of st) (zone st) subdomain target record_type ttl)
       st true st [] [already_exists_message (zone st) subdomain target].
Proof.
  intros Hk [Hnd Hty] Hamp Hone Ht.
  rewrite <- filter_listed in Hone.
  destruct (filter_split _ _ _ Hone) as (pre & post & HL & Hpre & _).
  assert (Hm : matches subdomain record_type r = true).
  { assert (Hin : In r (List.filter (matches subdomain record_type)
                          (listed record_type subdomain (records st))))
      by (rewrite Hone; now left).
    apply List.filter_In in Hin. tauto. }
  unfold add_record. eapply runs_eq; [|shelve..].
  { eapply runs_bind;
      [apply (list_records_provider st record_type subdomain Hk Hnd Hty Hamp)|].
    rewrite HL.
    eapply runs_bind; [apply (add_loop_found st _ _ _ st pre r post Hpre Hm Ht)|].
    cbv iota. apply runs_ret. }
  Unshelve. all: reflexivity.
Qed.

(** No record of (subdomain, type): the record is created. *)
Lemma add_record_absent st subdomain record_type target ttl :
  keys_set st -> well_formed st -> PyStr.contains "&" record_type = false ->
  List.filter (matches subdomain record_type) (records st) = [] ->
  runs (add_record (environ_of st) (zone st) subdomain target record_type ttl)
       st true (with_new st subdomain record_type target ttl)
       [("POST", create_url (zone st)); ("POST", refresh_url (zone st))]
       [added_line st subdomain record_type target; refreshed_line st].
Proof.
  intros Hk [Hnd Hty] Hamp Hnone.
  rewrite <- filter_listed in Hnone. apply filter_none in Hnone.
  unfold add_record. eapply runs_eq; [|shelve..].
  { eapply runs_bind;
      [apply (list_records_provider st record_type subdomain Hk Hnd Hty Hamp)|].
    eapply runs_bind; [apply (add_loop_skip st _ _ _ st _ Hnone)|].
    cbv iota. apply (create_provider subdomain record_type target ttl st Hk). }
  Unshelve. all: reflexivity.
Qed.

Lemma filter_comm {A} (f g : A -> bool) l :
  List.filter f (List.filter g l) = List.filter g (List.filter f l).
Proof.
  induction l as [|x l IH]; simpl; [reflexivity|].
  destruct (f x) eqn:Hf, (g x) eqn:Hg; simpl; rewrite ?Hf, ?Hg, IH; reflexivity.
Qed.

Lemma in_ids_filter (g : record -> bool) rs n :
  n ∈ map rid (List.filter g rs) -> n ∈ map rid rs.
Proof.
  rewrite !list_elem_of_In, !in_map_iff. intros (x & Hx & Hin).
  apply List.filter_In in Hin as [Hin _]. eauto.
Qed.

Lemma NoDup_ids_filter (g : record -> bool) rs :
  NoDup (map rid rs) -> NoDup (map rid (List.filter g rs)).
Proof.
  induction rs as [|x rs IH]; simpl; [auto|].
  intros Hnd. apply NoDup_cons in Hnd as [Hx Hnd].
  destruct (g x); simpl; [|auto].
  apply NoDup_cons. split; [|auto]. intros Hin. apply Hx. eapply in_ids_filter, Hin.
Qed.

(** The provider stays well formed when a record of a proper type is
    created, also after a record was deleted. *)
Lemma well_formed_with_new st (g : record -> bool) subdomain record_type target ttl :
  well_formed st -> fresh st ->
  record_type <> "" -> PyStr.contains "&" record_type = false ->
  well_formed (with_new (with_records st (List.filter g (records st)) (next_id st))
                 subdomain record_type target ttl).
Proof.
  intros [Hnd Hty] Hfresh Hne Hamp. split.
  - cbn [records with_new with_records next_id]. rewrite map_app. apply NoDup_app.
    split; [now apply NoDup_ids_filter|]. split; [|apply NoDup_singleton].
    intros n Hn Hnew. cbn [map rid] in Hnew. apply list_elem_of_singleton in Hnew. subst n.
    apply in_ids_filter in Hn. apply list_elem_of_In, in_map_iff in Hn as (x & Hx & Hin).
    unfold fresh in Hfresh. rewrite List.Forall_forall in Hfresh.
    specialize (Hfresh x Hin). lia.
  - unfold typed in *. cbn [records with_new with_records next_id].
    apply Forall_app. split.
    + rewrite List.Forall_forall in *. intros x Hx.
      apply List.filter_In in Hx as [Hx _]. auto.
    + constructor; [|constructor]. cbn [rtype]. auto.
Qed.

Lemma filter_all {A} (l : list A) : List.filter (fun _ => true) l = l.
Proof. induction l; simpl; congruence. Qed.

Lemma matches_new n subdomain record_type target ttl :
  matches subdomain record_type (Record n subdomain record_type target ttl) = true.
Proof. unfold matches. cbn [rsub rtype]. now rewrite !String.eqb_refl. Qed.

(** X20. After a first [add_record] on a well-formed zone that holds at
    most one record of (subdomain, type), a second [add_record] with the
    same arguments reports that the record exists, returns True and
    sends no call but GETs. *)
Lemma add_record_twice_on_unique st subdomain record_type target ttl :
  keys_set st -> well_formed st -> fresh st ->
  record_type <> "" -> PyStr.contains "&" record_type = false ->
  (length (List.filter (matches subdomain record_type) (records st)) <= 1)%nat ->
  exists st1 calls1 out1,
    runs (add_record (environ_of st) (zone st) subdomain target record_type ttl)
         st true st1 calls1 out1
    /\ runs (add_record (environ_of st) (zone st) subdomain target record_type ttl)
            st1 true st1 [] [already_exists_message (zone st) subdomain target].
Proof.
  intros Hk Hwf Hfresh Hne Hamp Hlen.
  destruct (List.filter (matches subdomain record_type) (records st))
    as [|r [|r' rest]] eqn:Hf; [| |simpl in Hlen; lia].
  - (* no record: created, then found *)
    do 3 eexists. split; [apply (add_record_absent st _ _ _ _ Hk Hwf Hamp Hf)|].
    assert (Hwf1 : well_formed (with_new st subdomain record_type target ttl)).
    { pose proof (well_formed_with_new st (fun _ => true) subdomain record_type target ttl
                    Hwf Hfresh Hne Hamp) as Hw.
      cbn [with_new with_records records next_id] in Hw. rewrite filter_all in Hw.
      exact Hw. }
    apply (add_record_present (with_new st subdomain record_type target ttl)
             subdomain record_type target ttl
             (Record (next_id st) subdomain record_type target ttl) Hk Hwf1 Hamp);
      [|reflexivity].
    cbn [with_new with_records records]. rewrite List.filter_app, Hf.
    cbn [List.filter app]. now rewrite matches_new.
  - destruct (String.eqb_spec (rtarget r) target) as [Ht|Ht].
    + (* the record is there: found twice *)
      do 3 eexists.
      split; apply (add_record_present st _ _ _ ttl r Hk Hwf Hamp Hf Ht).
    + (* another target: replaced, then found *)
      do 3 eexists.
      split; [apply (add_record_moves st subdomain record_type target ttl r Hk Hwf Hf Ht)|].
      assert (Hwf1 : well_formed
                       (with_new (without st r) subdomain record_type target ttl)).
      { apply (well_formed_with_new st _ subdomain record_type target ttl
                 Hwf Hfresh Hne Hamp). }
      apply (add_record_present
               (with_new (without st r) subdomain record_type target ttl)
               subdomain record_type target ttl
               (Record (next_id st) subdomain record_type target ttl) Hk Hwf1 Hamp);
        [|reflexivity].
      cbn [with_new without with_records records next_id]. rewrite List.filter_app.
      unfold remove_record. rewrite filter_comm, Hf.
      cbn [List.filter app]. rewrite String.eqb_refl, matches_new. reflexivity.
Qed.

End ProviderIdempotence.

(** * The properties at concrete inputs *)

Module Examples.
Import Provider ProviderView Demo.

(** ** Configuration file *)

Lemma load_env_first_wins_example :
  Env.load_env env_lines env_before = Ret env_after
  /\ env_after !! "OVH_CONSUMER_KEY" = Some "preset"
  /\ env_after !! "DOMAIN" = Some "example.com".
Proof.
  assert (E : Env.load_env env_lines env_before = Ret env_after)
    by (vm_compute; reflexivity).
  destruct (EnvFacts.load_env_first_wins env_lines env_before env_after E)
    as (Hkeep & Hfirst & _).
  split; [exact E|]. split.
  - apply Hkeep. vm_compute. reflexivity.
  - rewrite Hfirst; vm_compute; reflexivity.
Defined.

(** ** Public address *)

(** C3 (as stated) fails.  An error page of the first echo service is
    returned as the address and the second service is not asked; and
    when both services are unreachable the result is None, not the
    string "unknown". *)
Lemma get_server_ip_takes_error_page :
  get_server_ip error_page
  = (Ret (Some "Internal Server Error"),
     [Some (Response 200 "203.0.113.5" None)],
     [Http ipify (Some (Response 500 "Internal Server Error" None))])
  /\ fst (fst (get_server_ip (offline []))) = Ret None
  /\ fst (fst (get_server_ip (offline []))) <> Ret (Some "unknown").
Proof.
  split; [vm_compute; reflexivity|]. split; [vm_compute; reflexivity|].
  vm_compute. discriminate.
Qed.

Lemma get_server_ip_fallback_example :
  get_server_ip second_answers
  = (Ret (Some "203.0.113.5"), [],
     [Http ipify None;
      Http ifconfig (Some (Response 200 (String (PyStr.chr 10) "203.0.113.5") None))]).
Proof.
  destruct (get_server_ip_fallback second_answers) as (_ & Hsecond & _).
  apply (Hsecond [Some (Response 200 (String (PyStr.chr 10) "203.0.113.5") None)]
           (Response 200 (String (PyStr.chr 10) "203.0.113.5") None) []);
    [reflexivity | reflexivity | simpl; lia].
Defined.

(** ** Command line *)

Lemma add_without_address_exits_example :
  main environ add_www (offline [])
  = (Exit 1, offline [],
     [Http ipify None; Http ifconfig None;
      Print "Error: Could not determine IP address. Use --ip/--target to specify."]).
Proof.
  apply (add_without_address_exits environ add_www (offline []) (offline []) (offline []));
    vm_compute; reflexivity.
Defined.

(** C7. Both echo services answer with an error page (status 503).
    The [add] of type A without [--ip] takes the text of the first page
    for the address, without asking the second service: it goes on to the
    provider's API, creates the record www A "Service Unavailable",
    refreshes the zone and ends with exit status 0, where the claim has
    exit status 1 and no call to the API. *)
Theorem add_with_error_page_creates_record :
  let run := main environ add_www (unavailable [mail]) in
  fst (fst run) = Ret tt
  /\ exit_status (fst (fst run)) = Some 0
  /\ mutating_calls (snd run)
     = [("POST", create_url "example.com"); ("POST", refresh_url "example.com")]
  /\ length (signed_calls (snd run)) = 3%nat
  /\ records (snd (fst run))
     = [mail; Record 10 "www" "A" "Service Unavailable" 3600]
  /\ ~ In ("GET", url ifconfig) (calls (snd run)).
Proof.
  vm_compute. repeat split; try reflexivity.
  intros Hin. repeat (destruct Hin as [Hin|Hin]; [discriminate|]). exact Hin.
Qed.


(** ** Signature *)

(** The digests of [hashlib.sha1] on an empty message, on one block, at
    the padding boundary (55, 56 and 64 bytes) and on a two-byte
    character. *)
Example sha1_vectors :
  Sha1.hexdigest "" = "da39a3ee5e6b4b0d3255bfef95601890afd80709"
  /\ Sha1.hexdigest "abc" = "a9993e364706816aba3e25717850c26c9cd0d89d"
  /\ Sha1.hexdigest (Sha1Number.body_of_length 55)
     = "c1c8bbdc22796e28c0e15163d20899b65621d65a"
  /\ Sha1.hexdigest (Sha1Number.body_of_length 56)
     = "c2db330f6083854c99d4b5bfb6e8f29f201be699"
  /\ Sha1.hexdigest (Sha1Number.body_of_length 64)
     = "0098ba824b5c16427bd7a1122a5a442a25ec644d"
  /\ Sha1.hexdigest ("caf" +:+ String (PyStr.chr 233) "")
     = "f424452a9673918c6f09b0cdd35b20be8e6ae7d7".
Proof. vm_compute. repeat split. Qed.

Lemma ovh_call_signature_example :
  exists rq,
    signed_calls (snd (ovh_call environ "DELETE" "/domain/zone/example.com/record/1" ""
                         (provider [www1]))) = [rq]
    /\ meth rq = "DELETE"
    /\ url rq = "https://eu.api.ovh.com/1.0/domain/zone/example.com/record/1"
    /\ header_of "X-Ovh-Timestamp" rq = Some "1700000000"
    /\ header_of "X-Ovh-Signature" rq
       = Some "$1$7a912445934bb6b84b0c5f5ce6352bfb95c9900c".
Proof.
  assert (E : spec_signature "secret" "ck" "DELETE"
                (OVH_ENDPOINT +:+ "/domain/zone/example.com/record/1") "" "1700000000"
              = "$1$7a912445934bb6b84b0c5f5ce6352bfb95c9900c")
    by (vm_compute; reflexivity).
  rewrite <- E.
  apply (ovh_call_signature environ "ak" "secret" "ck" "DELETE"
           "/domain/zone/example.com/record/1" "" (provider [www1])
           (Response 200 "1700000000" (Some (JInt 1700000000))) (provider [www1])).
  - vm_compute. reflexivity.
  - vm_compute. reflexivity.
  - vm_compute. reflexivity.
  - reflexivity.
  - reflexivity.
  - reflexivity.
  - simpl. tauto.
  - reflexivity.
Defined.


(** ** Listing *)

Lemma list_records_keeps_status_200_example :
  exists log,
    list_records environ "example.com" (Some "A") (Some "www") flaky
    = (Ret [detail 1 "192.0.2.1"; detail 3 "192.0.2.3"], [], log)
    /\ printed log = [].
Proof.
  eexists.
  eapply (list_records_keeps_status_200 environ "example.com" (Some "A") (Some "www")
            flaky _ [JInt 1; JInt 2; JInt 3] _ _
            [Response 200 "" (Some (detail 1 "192.0.2.1"));
             Response 500 "Internal Server Error" None;
             Response 200 "" (Some (detail 3 "192.0.2.3"))]).
  - vm_compute. reflexivity.
  - reflexivity.
  - reflexivity.
  - eapply Fetches_cons; [reflexivity | vm_compute; reflexivity |].
    eapply Fetches_cons; [reflexivity | vm_compute; reflexivity |].
    eapply Fetches_cons; [reflexivity | vm_compute; reflexivity |].
    apply Fetches_nil.
  - repeat constructor; simpl; intros; discriminate.
Defined.

(** ** Deleting *)

Lemma delete_record_not_found_example :
  (let log := snd empty_listing ++ [Print "No A record found for www.example.com"] in
   delete_record environ "example.com" "www" "A" (provider [mail])
   = (Ret false, provider [mail], log)
   /\ count_method "DELETE" log = 0%nat
   /\ count_calls "POST" (refresh_url "example.com") log = 0%nat)
  /\ (~ In "No A record found for www.example.com"
          (printed (snd (delete_record environ "example.com" "www" "A" refused)))
      /\ printed (snd (delete_record environ "example.com" "www" "A" refused))
         = ["Error deleting record 7: Forbidden"]).
Proof.
  split.
  - destruct (delete_record_not_found environ "example.com" "www" "A" (provider [mail])
                [] (provider [mail]) (snd empty_listing)) as [Hnone _].
    + vm_compute. reflexivity.
    + destruct (Hnone eq_refl) as (Hrun & _ & Hdel & Hrefresh).
      repeat split; assumption.
  - destruct (delete_record_not_found environ "example.com" "www" "A" refused
                [detail 7 "192.0.2.7"] (snd (fst refused_listing)) (snd refused_listing))
      as [_ Hsome].
    + vm_compute. reflexivity.
    + split.
      * refine (proj1 (Hsome _ (snd (fst refused_deletion)) _ _)).
        -- discriminate.
        -- vm_compute. reflexivity.
      * vm_compute. reflexivity.
Defined.

(** ** Adding *)

(** C1 (as stated) fails.  With one www A record of another target in
    the zone, [add_record] sends one DELETE and one create, but two
    refreshes, not one. *)
Lemma add_record_refreshes_twice :
  let st := provider [www1; mail] in
  let log := snd (add_record environ "example.com" "www" "192.0.2.9" "A" 3600 st) in
  List.filter (matches "www" "A") (records st) = [www1]
  /\ rtarget www1 <> "192.0.2.9"
  /\ count_method "DELETE" log = 1%nat
  /\ count_calls "POST" (create_url "example.com") log = 1%nat
  /\ count_calls "POST" (refresh_url "example.com") log = 2%nat
  /\ count_calls "POST" (refresh_url "example.com") log <> 1%nat.
Proof. vm_compute. repeat split; discriminate. Qed.

Lemma add_record_replaces_example :
  exists log,
    add_record environ "example.com" "www" "192.0.2.9" "A" 3600 (provider [www1; mail])
    = (Ret true, provider_after, log)
    /\ mutating_calls log
       = [("DELETE", record_url "example.com" "1");
          ("POST", refresh_url "example.com");
          ("POST", create_url "example.com");
          ("POST", refresh_url "example.com")]
    /\ count_calls "POST" (refresh_url "example.com") log = 2%nat.
Proof.
  destruct (ProviderUpdates.add_record_replaces (provider [www1; mail])
              "www" "A" "192.0.2.9" 3600 www1) as (log & Hrun & Hmut & _ & _ & Hn & _).
  - repeat split; reflexivity.
  - split.
    + apply (bool_decide_unpack (NoDup (map rid (records (provider [www1; mail]))))).
      vm_compute. exact I.
    + repeat constructor; discriminate.
  - reflexivity.
  - discriminate.
  - exists log. repeat split; assumption.
Defined.

(** C2. With two www A records in the zone, the second one with the
    wanted target, the first [add_record] deletes both, reports that the
    record already exists and returns True, leaving no www record; the
    second call, with the same arguments, then creates the record: it
    is not free of mutating calls. *)
Theorem add_record_twice_over_duplicates :
  let st := provider [www1; www2] in
  let first := add_record environ "example.com" "www" "192.0.2.2" "A" 3600 st in
  let second :=
    add_record environ "example.com" "www" "192.0.2.2" "A" 3600 (snd (fst first)) in
  fst (fst first) = Ret true
  /\ mutating_calls (snd first)
     = [("DELETE", record_url "example.com" "1");
        ("DELETE", record_url "example.com" "2");
        ("POST", refresh_url "example.com")]
  /\ In (already_exists_message "example.com" "www" "192.0.2.2") (printed (snd first))
  /\ records (snd (fst first)) = []
  /\ fst (fst second) = Ret true
  /\ mutating_calls (snd second)
     = [("POST", create_url "example.com"); ("POST", refresh_url "example.com")]
  /\ ~ In (already_exists_message "example.com" "www" "192.0.2.2")
         (printed (snd second)).
Proof.
  vm_compute. repeat split; try reflexivity.
  - tauto.
  - intros [E|[E|[]]]; discriminate.
Qed.

End Examples.

(** * Further properties of the operations *)

(** ** Requests that are never sent *)

Section ReadFacts.

Context {W : Type} `{Outside W}.
Variable environ : gmap string string.

Lemma bind_log {A B} (m : M W A) (k : A -> M W B) w :
  snd (bind m k w)
  = snd (m w) ++ match fst (fst (m w)) with
                 | Ret a => snd (k a (snd (fst (m w))))
                 | _ => []
                 end.
Proof.
  unfold bind. destruct (m w) as [[[a| | |] w1] l1]; simpl; rewrite ?app_nil_r; auto.
  destruct (k a w1) as [[r w2] l2]. reflexivity.
Qed.

Lemma reads_only_bind {A B} (m : M W A) (k : A -> M W B) :
  reads_only m -> (forall a, reads_only (k a)) -> reads_only (bind m k).
Proof.
  intros Hm Hk w. rewrite bind_log, mutating_calls_app, Hm.
  destruct (fst (fst (m w))); [apply Hk | reflexivity..].
Qed.

Lemma reads_only_ret {A} (a : A) : reads_only (ret (W := W) a).
Proof. intros w. reflexivity. Qed.

Lemma reads_only_lift {A} (r : result A) : reads_only (lift (W := W) r).
Proof. intros w. reflexivity. Qed.

Lemma reads_only_print s : reads_only (print (W := W) s).
Proof. intros w. reflexivity. Qed.

Lemma reads_only_exit {A} c : reads_only (exit (W := W) (A := A) c).
Proof. intros w. reflexivity. Qed.

Lemma reads_only_send rq : meth rq = "GET" -> reads_only (send rq).
Proof.
  intros Hm w. unfold send. destruct (net w rq) as [rs w1].
  unfold mutating_calls. simpl. now rewrite Hm.
Qed.

Lemma reads_only_try {A} (m h : M W A) :
  reads_only m -> reads_only h -> reads_only (try_except m h).
Proof.
  intros Hm Hh w. unfold try_except. specialize (Hm w).
  destruct (m w) as [[[a| | |] w1] l1]; simpl in *; try assumption.
  - specialize (Hh w1). destruct (h w1) as [[r w2] l2]. simpl in *.
    now rewrite mutating_calls_app, Hm, Hh.
  - specialize (Hh w1). destruct (h w1) as [[r w2] l2]. simpl in *.
    now rewrite mutating_calls_app, Hm, Hh.
Qed.

Lemma reads_only_ovh_get path body : reads_only (ovh_call environ "GET" path body).
Proof.
  unfold ovh_call. destruct (negb _).
  - repeat (apply reads_only_bind; [|intros ?]);
      auto using reads_only_print, reads_only_exit.
  - apply reads_only_bind; [now apply reads_only_send|]. intros t.
    change (String.eqb "GET" "GET") with true. cbv iota. now apply reads_only_send.
Qed.

Lemma reads_only_fetch domain ids : forall records,
  reads_only (fetch_records environ domain ids records).
Proof.
  induction ids as [|record_id rest IH]; intros records; cbn [fetch_records].
  - apply reads_only_ret.
  - apply reads_only_bind; [apply reads_only_lift|]. intros id.
    apply reads_only_bind; [apply reads_only_ovh_get|]. intros r.
    destruct (status_code r =? 200); [|apply IH].
    apply reads_only_bind; [apply reads_only_lift|]. intros rec. apply IH.
Qed.

Lemma reads_only_list_records domain record_type subdomain :
  reads_only (list_records environ domain record_type subdomain).
Proof.
  unfold list_records.
  apply reads_only_bind; [apply reads_only_ovh_get|]. intros r.
  destruct (negb _).
  - apply reads_only_bind; [apply reads_only_print | intros ?; apply reads_only_ret].
  - apply reads_only_bind; [apply reads_only_lift|]. intros ids.
    apply reads_only_bind; [apply reads_only_lift|]. intros l. apply reads_only_fetch.
Qed.

Lemma reads_only_print_rows records : reads_only (print_rows (W := W) records).
Proof.
  induction records as [|rec rest IH]; cbn [print_rows]; [apply reads_only_ret|].
  apply reads_only_bind; [|intros ?; exact IH].
  unfold print_row.
  repeat (apply reads_only_bind; [apply reads_only_lift | intros ?]).
  apply reads_only_print.
Qed.

Lemma reads_only_show domain records : reads_only (show_records (W := W) domain records).
Proof.
  unfold show_records. destruct records; [apply reads_only_print|].
  apply reads_only_bind; [apply reads_only_print | intros ?].
  apply reads_only_bind; [apply reads_only_print | intros ?].
  apply reads_only_bind; [apply reads_only_lift | intros ?].
  apply reads_only_print_rows.
Qed.

Lemma reads_only_get_server_ip : reads_only (get_server_ip (W := W)).
Proof.
  unfold get_server_ip.
  apply reads_only_try;
    [apply reads_only_bind; [now apply reads_only_send | intros ?; apply reads_only_ret]|].
  apply reads_only_try;
    [apply reads_only_bind; [now apply reads_only_send | intros ?; apply reads_only_ret]|].
  apply reads_only_ret.
Qed.

Lemma reads_only_check domain subdomain :
  reads_only (check_record (W := W) domain subdomain).
Proof.
  intros w. unfold check_record.
  destruct (gethostbyname w _) as [[ip|] w1]; reflexivity.
Qed.

(** X1. The actions [list], [check] and [ip] never change the zone:
    whatever the answers of the outside world and however the run ends,
    every HTTP request they send is a GET. *)
Theorem reading_actions_send_only_gets (a : args) (w : W) :
  In (action a) ["list"; "check"; "ip"] ->
  mutating_calls (snd (main environ a w)) = [].
Proof.
  intros Ha. revert w. change (reads_only (main environ a)). unfold main.
  destruct (String.eqb_spec (action a) "ip") as [Hip|Hip].
  - apply reads_only_bind; [apply reads_only_get_server_ip|]. intros ip.
    destruct (is_set ip); apply reads_only_print.
  - destruct (negb (is_set (domain a))); [apply reads_only_exit|].
    destruct (String.eqb_spec (action a) "list") as [Hl|Hl].
    + apply reads_only_bind; [apply reads_only_list_records|]. intros rs.
      apply reads_only_show.
    + destruct (negb (is_set (subdomain a))); [apply reads_only_exit|].
      destruct Ha as [Ha|[Ha|[Ha|[]]]]; try congruence. rewrite <- Ha.
      change (String.eqb "check" "add") with false.
      change (String.eqb "check" "delete") with false.
      change (String.eqb "check" "check") with true. cbv iota.
      apply reads_only_bind; [apply reads_only_check | intros ?; apply reads_only_ret].
Qed.

End ReadFacts.

(** ** Calls that fail before they are sent *)

Section CallFacts.

Context {W : Type} `{Outside W}.
Variable environ : gmap string string.

Lemma ovh_call_without_keys method path body (w : W) :
  has_keys environ = false ->
  ovh_call environ method path body w = (Exit 1, w, credentials_error).
Proof.
  intros Hk. unfold ovh_call.
  change (forallb is_set _) with (has_keys environ). rewrite Hk. reflexivity.
Qed.

Lemma bind_Exit {A B} (m : M W A) (k : A -> M W B) (w : W) c w1 l1 :
  m w = (Exit c, w1, l1) -> bind m k w = (Exit c, w1, l1).
Proof. intros E. unfold bind. now rewrite E. Qed.

Lemma bind_Raise {A B} (m : M W A) (k : A -> M W B) (w : W) e w1 l1 :
  m w = (Raise e, w1, l1) -> bind m k w = (Raise e, w1, l1).
Proof. intros E. unfold bind. now rewrite E. Qed.

(** X2. When one of the three keys is missing or empty, every operation
    on the zone stops at its first call: it prints the two lines about
    the credentials and exits with status 1, and not a single request
    has been sent, not even the one for the server time. *)
Theorem no_request_without_keys
    domain subdomain target record_type ttl filter_type filter_sub (w : W) :
  has_keys environ = false ->
  let stopped {A} (m : M W A) := m w = (Exit 1, w, credentials_error) in
  stopped (list_records environ domain filter_type filter_sub)
  /\ stopped (add_record environ domain subdomain target record_type ttl)
  /\ stopped (delete_record environ domain subdomain record_type)
  /\ stopped (refresh_zone environ domain)
  /\ calls credentials_error = [].
Proof.
  intros Hk stopped. unfold stopped.
  assert (Hl : forall t s, list_records environ domain t s w
                           = (Exit 1, w, credentials_error)).
  { intros t s. unfold list_records. apply bind_Exit.
    now apply ovh_call_without_keys. }
  repeat split.
  - apply Hl.
  - unfold add_record. apply bind_Exit, Hl.
  - unfold delete_record. apply bind_Exit, Hl.
  - unfold refresh_zone. apply bind_Exit. now apply ovh_call_without_keys.
Qed.

(** X3. A method other than GET, POST, PUT and DELETE is refused with
    [ValueError], but only after the server time has been asked for:
    the time request is the one request of such a call. *)
Theorem ovh_call_unknown_method method path body (w : W) t w1 :
  has_keys environ = true ->
  ~ In method ["GET"; "POST"; "PUT"; "DELETE"] ->
  net w time_request = (Some t, w1) ->
  ovh_call environ method path body w
  = (Raise "ValueError", w1, [Http time_request (Some t)]).
Proof.
  intros Hk Hm Ht. unfold ovh_call.
  change (forallb is_set _) with (has_keys environ). rewrite Hk. cbn [negb].
  unfold bind at 1. unfold send at 1. rewrite Ht.
  destruct (String.eqb_spec method "GET"); [exfalso; apply Hm; simpl; auto|].
  destruct (String.eqb_spec method "POST"); [exfalso; apply Hm; simpl; auto|].
  destruct (String.eqb_spec method "PUT"); [exfalso; apply Hm; simpl; auto|].
  destruct (String.eqb_spec method "DELETE"); [exfalso; apply Hm; simpl; auto|].
  reflexivity.
Qed.

(** X4. A listing that the provider answers with another status than
    200 is reported on the output and read as an empty listing, without
    any request for a record; [delete_record] then reports that no
    record was found, although the zone was never read. *)
Theorem refused_listing_reads_as_empty
    domain subdomain record_type (w : W) r w1 l :
  ovh_call environ "GET" (list_path domain (Some record_type) (Some subdomain)) "" w
    = (Ret r, w1, l) ->
  status_code r <> 200 ->
  let error := Print ("Error listing records: " +:+ text r) in
  list_records environ domain (Some record_type) (Some subdomain) w
    = (Ret [], w1, l ++ [error])
  /\ delete_record environ domain subdomain record_type w
     = (Ret false, w1,
        l ++ [error; Print (not_found_message domain subdomain record_type)]).
Proof.
  intros Hc Hs error.
  assert (Hl : list_records environ domain (Some record_type) (Some subdomain) w
               = (Ret [], w1, l ++ [error])).
  { unfold list_records. erewrite bind_Ret by exact Hc.
    apply Z.eqb_neq in Hs. rewrite Hs. reflexivity. }
  split; [exact Hl|].
  unfold delete_record. erewrite bind_Ret by exact Hl.
  cbn. now rewrite <- app_assoc.
Qed.

(** X5. When the listing returns no record, the result of [add_record]
    is the outcome of the create alone.  A create answered with another
    status than 200 or 201 gives False, prints the error and sends no
    refresh.  A create answered 200 or 201 gives True whatever the
    refresh returns: a refresh that fails costs a warning, not the
    result. *)
Theorem add_record_follows_create
    domain subdomain target record_type ttl (w : W) w1 l1 r w2 l2 :
  list_records environ domain (Some record_type) (Some subdomain) w
    = (Ret [], w1, l1) ->
  ovh_call environ "POST" ("/domain/zone/" +:+ domain +:+ "/record")
    (Json.dumps_record record_type subdomain target ttl) w1 = (Ret r, w2, l2) ->
  (status_in [200; 201] r = false ->
   add_record environ domain subdomain target record_type ttl w
   = (Ret false, w2, l1 ++ l2 ++ [Print ("Error adding record: " +:+ text r)])
   /\ length (mutating_calls (l1 ++ l2)) = 1%nat)
  /\ (status_in [200; 201] r = true ->
      forall refreshed w3 l3,
        refresh_zone environ domain w2 = (Ret refreshed, w3, l3) ->
        add_record environ domain subdomain target record_type ttl w
        = (Ret true, w3,
           l1 ++ l2
              ++ [Print ("Added " +:+ record_type +:+ " record: " +:+ subdomain
                           +:+ "." +:+ domain +:+ " -> " +:+ target)]
              ++ l3)).
Proof.
  intros Hl Hc. split.
  - intros Hs. split.
    + unfold add_record. erewrite bind_Ret by exact Hl. cbn [add_loop].
      erewrite bind_Ret by reflexivity. cbn [app].
      erewrite bind_Ret by exact Hc. rewrite Hs. reflexivity.
    + apply list_records_reads in Hl as [Hm _].
      apply ovh_call_inv in Hc as (t & w' & rq & _ & _ & -> & Hmeth & _).
      rewrite mutating_calls_app, Hm. unfold mutating_calls. simpl.
      rewrite Hmeth. reflexivity.
  - intros Hs refreshed w3 l3 Hr.
    unfold add_record. erewrite bind_Ret by exact Hl. cbn [add_loop].
    erewrite bind_Ret by reflexivity. cbn [app].
    erewrite bind_Ret by exact Hc. rewrite Hs.
    erewrite bind_Ret by reflexivity.
    erewrite bind_Ret by exact Hr. cbn. now rewrite app_nil_r.
Qed.

End CallFacts.

(** ** What [delete_record] sends *)

Section DeletionFacts.

Context {W : Type} `{Outside W}.
Variable environ : gmap string string.

(** The loop sends nothing but DELETEs; it ends with the flag up when
    the flag was up already, or when it has sent a DELETE. *)
Lemma delete_loop_calls domain subdomain records : forall deleted (w : W) b w' l,
  delete_loop environ domain subdomain records deleted w = (Ret b, w', l) ->
  Forall (fun c => fst c = "DELETE") (mutating_calls l)
  /\ (b = true -> deleted = true \/ mutating_calls l <> []).
Proof.
  induction records as [|rec rest IH]; simpl; intros deleted w b w' l E;
    invert_run; [split; [constructor | auto]|].
  split_run; invert_run.
  - match goal with
    | Hc : ovh_call _ _ _ _ _ = _ |- _ =>
        apply ovh_call_inv in Hc as (t & w3 & rq & _ & _ & -> & Hm & _)
    end.
    assert (Hcall : forall t' r', mutating_calls [Http time_request t'; Http rq r']
                                  = [("DELETE", url rq)]).
    { intros t' r'. unfold mutating_calls. simpl. rewrite Hm. reflexivity. }
    split_run; invert_run;
      match goal with
      | Hd : delete_loop _ _ _ _ _ _ = _ |- _ => apply IH in Hd as (Hall & Hup)
      end;
      rewrite !mutating_calls_app, Hcall; simpl;
      (split; [constructor; [reflexivity | exact Hall] | right; discriminate]).
  - match goal with
    | Hd : delete_loop _ _ _ _ _ _ = _ |- _ => apply IH in Hd as (Hall & Hup)
    end. auto.
Qed.

(** X6. Whatever the provider answers, a [delete_record] that returns
    has sent DELETE requests and then, exactly when its result is True,
    one refresh of the zone as its last request; a result True means
    that a DELETE was sent.  It never creates a record. *)
Theorem delete_record_refreshes_after_deleting
    domain subdomain record_type (w : W) deleted w' log :
  delete_record environ domain subdomain record_type w = (Ret deleted, w', log) ->
  exists deletes,
    mutating_calls log
    = deletes ++ (if deleted then [("POST", refresh_url domain)] else [])
    /\ Forall (fun c => fst c = "DELETE") deletes
    /\ (deleted = true -> deletes <> []).
Proof.
  unfold delete_record. intros E. invert_run.
  match goal with
  | Hlist : list_records _ _ _ _ _ = _ |- _ =>
      apply list_records_reads in Hlist as [Hreads _]
  end.
  match goal with
  | Hd : delete_loop _ _ _ _ _ _ = _ |- _ =>
      apply delete_loop_calls in Hd as (Hall & Hup)
  end.
  match goal with
  | _ : Forall _ (mutating_calls ?l) |- _ => exists (mutating_calls l)
  end.
  rewrite !mutating_calls_app, Hreads. cbn [app].
  split; [|split; [exact Hall|]].
  - f_equal. change (mutating_calls []) with (@nil (string * string)).
    rewrite app_nil_r.
    match goal with
    | Hrun : (if ?b then _ else _) _ = _ |- _ => destruct b
    end; invert_run.
    + unfold refresh_zone in *. invert_run.
      match goal with
      | Hc : ovh_call _ _ _ _ _ = _ |- _ =>
          apply ovh_call_inv in Hc as (? & ? & rq & _ & _ & -> & Hm & Hu)
      end.
      split_run; invert_run; rewrite !mutating_calls_app;
        unfold mutating_calls; simpl; rewrite Hm, Hu; reflexivity.
    + match goal with
      | Hrun : match ?rs with [] => _ | _ => _ end _ = _ |- _ => destruct rs
      end; invert_run; reflexivity.
  - intros Hd. destruct (Hup Hd) as [|]; [discriminate | assumption].
Qed.

End DeletionFacts.

(** ** Deleting on the reference provider *)

Module ProviderDeletion.
Import Provider PyStrFacts ProviderFacts ProviderRuns ProviderView ProviderListing.
Import ProviderUpdates ProviderIdempotence ZoneView.

Arguments Sha1.hexdigest : simpl never.

Lemma listed_selected t s rs : listed t s rs = List.filter (selected t s) rs.
Proof. reflexivity. Qed.

Lemma with_records_same (st : state) : with_records st (records st) (next_id st) = st.
Proof. now destruct st. Qed.

Lemma filter_and {A} (f g : A -> bool) l :
  List.filter f (List.filter g l) = List.filter (fun x => g x && f x) l.
Proof.
  induction l as [|x l IH]; simpl; [reflexivity|].
  destruct (g x); simpl; [destruct (f x)|]; now rewrite IH.
Qed.

(** Is [r] one of [l], by its id? *)
Lemma without_all_records l : forall st,
  without_all st l
  = with_records st
      (List.filter (fun r => negb (existsb (fun x => Z.eqb (rid x) (rid r)) l))
         (records st))
      (next_id st).
Proof.
  unfold without_all.
  induction l as [|x l IH]; intros st; cbn [fold_left existsb].
  - cbn [negb]. rewrite filter_all. symmetry. apply with_records_same.
  - rewrite IH. unfold without, remove_record, with_records. cbn [records next_id zone
      clock app_key app_secret consumer_key echo_primary echo_secondary hosts].
    f_equal. rewrite filter_and. apply filter_ext_in. intros r _.
    rewrite negb_orb. f_equal. f_equal.
    destruct (Z.eqb_spec (rid x) (rid r)) as [->|Hne]; [now rewrite String.eqb_refl|].
    apply String.eqb_neq. intros E. apply of_Z_inj in E. congruence.
Qed.

Lemma in_filter_by_id (f : record -> bool) rs r :
  NoDup (map rid rs) -> In r rs ->
  existsb (fun x => Z.eqb (rid x) (rid r)) (List.filter f rs) = f r.
Proof.
  intros Hnd Hin. destruct (f r) eqn:Hf.
  - apply existsb_exists. exists r. split; [now apply List.filter_In | apply Z.eqb_refl].
  - destruct (existsb _ _) eqn:E; [|reflexivity].
    apply existsb_exists in E as (x & Hx & Hid). apply List.filter_In in Hx as [Hx Hfx].
    apply Z.eqb_eq in Hid.
    assert (x = r); [|congruence].
    clear - Hnd Hin Hx Hid. induction rs as [|y rs IH]; [destruct Hin|].
    simpl in Hnd. apply NoDup_cons in Hnd as [Hy Hnd].
    destruct Hx as [->|Hx], Hin as [->|Hin]; auto.
    + exfalso. apply Hy. rewrite Hid. apply list_elem_of_In, in_map, Hin.
    + exfalso. apply Hy. rewrite <- Hid. apply list_elem_of_In, in_map, Hx.
Qed.

Lemma without_all_listed st t s :
  NoDup (map rid (records st)) ->
  without_all st (listed t s (records st))
  = with_records st (remaining t s (records st)) (next_id st).
Proof.
  intros Hnd. rewrite without_all_records. f_equal. unfold remaining.
  apply filter_ext_in. intros r Hr. f_equal.
  rewrite listed_selected. now apply in_filter_by_id.
Qed.

Section Loop.

Variable subdomain : string.

(** The loop of [delete_record] over records of the subdomain that the
    zone holds: each one is deleted. *)
Lemma delete_loop_all l : forall (w : state) deleted,
  keys_set w -> NoDup (map rid (records w)) -> NoDup (map rid l) ->
  (forall r, In r l -> In r (records w)) ->
  Forall (fun r => rsub r = subdomain) l ->
  runs (delete_loop (environ_of w) (zone w) subdomain (map (to_json (zone w)) l) deleted)
       w (deleted || some l) (without_all w l)
       (map (delete_call w) l)
       (map (deleted_line w subdomain) l).
Proof.
  induction l as [|r l IH]; intros w deleted Hk Hnd Hl Hin Hsub;
    cbn [map delete_loop].
  - rewrite orb_false_r. apply runs_ret.
  - apply Forall_cons_iff in Hsub as [Hr Hsub].
    simpl in Hl. apply NoDup_cons in Hl as [Hfresh Hl].
    rewrite get_subDomain. cbn [some]. rewrite orb_true_r.
    eapply runs_eq; [|shelve..].
    { eapply runs_bind; [apply runs_lift|].
      cbn [Json.eq_str]. rewrite Hr, String.eqb_refl. rewrite get_id.
      eapply runs_bind; [apply runs_lift|].
      eapply runs_bind; [apply (runs_lift (PyStr.of_Z (rid r)))|].
      eapply runs_bind.
      + eapply (provider_call w "DELETE" ("/record/" +:+ PyStr.of_Z (rid r)) ""
                  Hk in_delete); [reflexivity|].
        apply route_delete; [assumption | apply Hin; now left | reflexivity].
      + change (status_in [200; 204] (ok JNull)) with true. cbv iota.
        eapply runs_bind; [apply runs_print|].
        apply (IH (without w r) true Hk).
        * cbn [without with_records records]. now apply NoDup_ids_filter.
        * exact Hl.
        * intros x Hx. cbn [without with_records records]. unfold remove_record.
          apply List.filter_In. split; [apply Hin; now right|].
          apply negb_true_iff, String.eqb_neq. intros E. apply of_Z_inj in E.
          apply Hfresh. rewrite <- E. apply list_elem_of_In, in_map, Hx.
        * exact Hsub. }
    Unshelve. all: reflexivity.
Qed.

End Loop.

(** X7. On the reference provider (keys set, distinct ids, proper
    record types), [delete_record] for a subdomain that is not empty
    deletes every record the listing for (type, subdomain) selects, in
    the order of the zone, each with one DELETE, and leaves the other
    records as they are.  It returns True and refreshes the zone once,
    after the last DELETE, when there was such a record; otherwise it
    returns False, sends nothing and reports that no record was found. *)
Theorem delete_record_removes_selected st subdomain record_type :
  keys_set st -> well_formed st ->
  PyStr.contains "&" record_type = false -> PyStr.truthy subdomain = true ->
  let gone := listed record_type subdomain (records st) in
  runs (delete_record (environ_of st) (zone st) subdomain record_type)
       st (some gone)
       (with_records st (remaining record_type subdomain (records st)) (next_id st))
       (map (delete_call st) gone
          ++ (if some gone then [("POST", refresh_url (zone st))] else []))
       (if some gone
        then map (deleted_line st subdomain) gone ++ [refreshed_line st]
        else [not_found_message (zone st) subdomain record_type]).
Proof.
  intros Hk [Hnd Hty] Hamp Hsub gone.
  assert (Hin : forall r, In r gone -> In r (records st)).
  { intros r Hr. apply List.filter_In in Hr. tauto. }
  assert (Hs : Forall (fun r => rsub r = subdomain) gone).
  { apply List.Forall_forall. intros r Hr. apply List.filter_In in Hr as [_ Hr].
    rewrite Hsub in Hr. cbn [negb orb] in Hr. apply andb_true_iff in Hr as [_ Hr].
    now apply String.eqb_eq. }
  assert (Hids : NoDup (map rid gone)) by now apply NoDup_ids_filter.
  pose proof (without_all_listed st record_type subdomain Hnd) as Hfinal.
  pose proof (list_records_provider st record_type subdomain Hk Hnd Hty Hamp) as Hlist.
  pose proof (delete_loop_all subdomain gone st false Hk Hnd Hids Hin Hs) as Hloop.
  cbn [orb] in Hloop. fold gone in Hlist, Hfinal |- *. rewrite Hfinal in Hloop.
  clearbody gone. unfold delete_record.
  destruct gone as [|r rest]; cbn [some] in *.
  - eapply runs_eq; [|shelve..].
    { eapply runs_bind; [exact Hlist|].
      eapply runs_bind; [exact Hloop|].
      eapply runs_bind; [|apply runs_ret]. apply runs_print. }
    Unshelve. all: reflexivity.
  - eapply runs_eq; [|shelve..].
    { eapply runs_bind; [exact Hlist|].
      eapply runs_bind; [exact Hloop|].
      eapply runs_bind; [|apply runs_ret].
      eapply runs_bind; [|apply runs_ret].
      apply (refresh_provider
               (with_records st (remaining record_type subdomain (records st))
                  (next_id st)) Hk). }
    Unshelve. all: cbn [app]; rewrite ?app_nil_r; reflexivity.
Qed.

End ProviderDeletion.

(** ** The [add] action on the reference provider *)

Module ProviderCommands.
Import Provider PyStrFacts ProviderFacts ProviderRuns ProviderView ProviderListing.
Import ProviderUpdates ProviderIdempotence.

Arguments Sha1.hexdigest : simpl never.

Lemma get_server_ip_provider st r :
  echo_primary st = Some r ->
  runs get_server_ip st (Some (PyStr.strip (text r))) st [] [].
Proof.
  intros Hr. exists [Http ipify (Some r)]. split; [|split; reflexivity].
  apply get_server_ip_answered. cbn. now rewrite Hr.
Qed.

(** X8. An [add] of type CNAME without [--ip], for a subdomain that
    has no CNAME record yet, creates the record with the domain followed
    by a dot as its target, and refreshes the zone; the echo services
    play no part, whatever they would answer. *)
Theorem add_cname_targets_domain st (a : args) s :
  keys_set st -> well_formed st -> PyStr.truthy (zone st) = true ->
  action a = "add" -> type a = "CNAME" -> is_set (ip a) = false ->
  domain a = Some (zone st) -> subdomain a = Some s -> PyStr.truthy s = true ->
  List.filter (matches s "CNAME") (records st) = [] ->
  runs (main (environ_of st) a) st tt
       (with_new st s "CNAME" (zone st +:+ ".") (ttl a))
       [("POST", create_url (zone st)); ("POST", refresh_url (zone st))]
       [added_line st s "CNAME" (zone st +:+ "."); refreshed_line st].
Proof.
  intros Hk Hwf Hz Ha Ht Hip Hd Hs Hsub Hnone.
  unfold main. rewrite Ha, Ht, Hip, Hd, Hs.
  cbn [String.eqb Ascii.eqb Bool.eqb negb is_set default from_option id].
  rewrite Hz, Hsub. cbn [negb].
  eapply runs_eq; [|shelve..].
  { eapply runs_bind; [apply runs_ret|].
    eapply runs_bind; [|apply runs_ret].
    apply (add_record_absent st s "CNAME" (zone st +:+ ".") (ttl a) Hk Hwf);
      [reflexivity | exact Hnone]. }
  Unshelve. all: reflexivity.
Qed.

(** X9. An [add] of another type without [--ip] takes the stripped
    text the first echo service answers, whatever the status of that
    answer, provided the text is not empty: for a subdomain that has no
    record of the type yet, the record is created with that text as its
    target and the zone is refreshed. *)
Theorem add_targets_echo_answer st (a : args) s r :
  keys_set st -> well_formed st -> PyStr.truthy (zone st) = true ->
  action a = "add" -> type a <> "CNAME" -> PyStr.contains "&" (type a) = false ->
  is_set (ip a) = false ->
  domain a = Some (zone st) -> subdomain a = Some s -> PyStr.truthy s = true ->
  echo_primary st = Some r -> PyStr.truthy (PyStr.strip (text r)) = true ->
  List.filter (matches s (type a)) (records st) = [] ->
  runs (main (environ_of st) a) st tt
       (with_new st s (type a) (PyStr.strip (text r)) (ttl a))
       [("POST", create_url (zone st)); ("POST", refresh_url (zone st))]
       [added_line st s (type a) (PyStr.strip (text r)); refreshed_line st].
Proof.
  intros Hk Hwf Hz Ha Ht Hamp Hip Hd Hs Hsub Hr Htext Hnone.
  unfold main. rewrite Ha, Hip, Hd, Hs.
  apply String.eqb_neq in Ht. rewrite Ht.
  cbn [String.eqb Ascii.eqb Bool.eqb negb is_set default from_option id].
  rewrite Hz, Hsub. cbn [negb].
  eapply runs_eq; [|shelve..].
  { eapply runs_bind.
    - eapply runs_bind; [apply (get_server_ip_provider st r Hr)|].
      cbn [is_set]. rewrite Htext. cbn [negb]. apply runs_ret.
    - eapply runs_bind; [|apply runs_ret].
      cbn [default from_option id].
      apply (add_record_absent st s (type a) (PyStr.strip (text r)) (ttl a) Hk Hwf Hamp
               Hnone). }
  Unshelve. all: reflexivity.
Qed.

End ProviderCommands.

(** ** The command line *)

Section ActionFacts.

Context {W : Type} `{Outside W}.
Variable environ : gmap string string.

(** X10. The arguments are validated before anything is done: for
    every action but [ip] a domain that is missing or empty ends the run
    with exit status 2, and so does a missing or empty subdomain for
    every action but [ip] and [list]; in both cases nothing was sent,
    looked up or printed on the output. *)
Theorem main_validates_first (a : args) (w : W) :
  action a <> "ip" ->
  (is_set (domain a) = false -> main environ a w = (Exit 2, w, []))
  /\ (action a <> "list" -> is_set (subdomain a) = false ->
      main environ a w = (Exit 2, w, [])).
Proof.
  intros Hip. apply String.eqb_neq in Hip. unfold main. rewrite Hip. split.
  - intros ->. reflexivity.
  - intros Hl ->. apply String.eqb_neq in Hl. rewrite Hl.
    destruct (is_set (domain a)); reflexivity.
Qed.




(** The requests of the loop of [list_records]: two for each id. *)
Lemma fetch_records_requests domain ids : forall records (w : W) rs w' log,
  fetch_records environ domain ids records w = (Ret rs, w', log) ->
  length (calls log) = (2 * length ids)%nat.
Proof.
  induction ids as [|record_id rest IH]; simpl; intros records w rs w' log E;
    invert_run; [reflexivity|].
  match goal with
  | Hc : ovh_call _ _ _ _ _ = _ |- _ =>
      apply ovh_call_inv in Hc as (? & ? & rq & _ & _ & -> & _)
  end.
  split_run; invert_run;
    match goal with
    | Hf : fetch_records _ _ _ _ _ = _ |- _ => apply IH in Hf
    end; rewrite ?calls_app, ?length_app; simpl in *; lia.
Qed.

(** X13. A listing of [n] ids costs 2 (n + 1) requests: every call to
    the API is preceded by a request for the server time, for the
    listing and for each of the records, whether its detail is kept or
    not. *)
Theorem list_records_requests
    domain record_type subdomain (w : W) r w1 l1 ids records w' log :
  ovh_call environ "GET" (list_path domain record_type subdomain) "" w
    = (Ret r, w1, l1) ->
  status_code r = 200 -> json_body r = Some (JList ids) ->
  list_records environ domain record_type subdomain w = (Ret records, w', log) ->
  length (calls log) = (2 * (length ids + 1))%nat
  /\ count_method "GET" log = (2 * (length ids + 1))%nat.
Proof.
  intros Hc Hs Hj E.
  assert (Hn : length (calls log) = (2 * (length ids + 1))%nat).
  { unfold list_records in E. rewrite (bind_Ret _ _ _ _ _ _ Hc) in E.
    rewrite Hs in E. cbn [Z.eqb Pos.eqb negb] in E.
    unfold json_of in E. rewrite Hj in E.
    destruct (bind _ _ w1) as [[x w2] l2] eqn:E2. injection E as -> -> <-.
    invert_run.
    match goal with
    | Hv : Ret (JList ids) = Ret ?j |- _ => injection Hv as Hv; subst j
    end.
    match goal with
    | Hv : Json.iter _ = _ |- _ => cbn in Hv; injection Hv as Hv; subst
    end.
    match goal with
    | Hf : fetch_records _ _ _ _ _ = _ |- _ => apply fetch_records_requests in Hf
    end.
    apply ovh_call_inv in Hc as (? & ? & rq & _ & _ & -> & _).
    rewrite !calls_app, !length_app. simpl. lia. }
  split; [exact Hn|].
  apply list_records_reads in E as [Hm _].
  rewrite <- Hn. unfold count_method. f_equal.
  unfold mutating_calls in Hm. clear - Hm.
  induction (calls log) as [|c cs IH]; [reflexivity|].
  simpl in *. destruct (String.eqb c.1 "GET"); simpl in *; [|discriminate].
  f_equal. auto.
Qed.

End ActionFacts.

(** ** The configuration file, again *)

Module EnvMore.
Import PyStr PyStrFacts Env EnvFacts.

Lemma setdefault_sets key value (env env' : gmap string string) :
  setdefault key value env = Ret env' -> is_Some (env' !! key).
Proof.
  unfold setdefault. destruct (env !! key) eqn:Hk.
  - intros [= <-]. rewrite Hk. eauto.
  - destruct (_ || _); [discriminate|]. destruct (truthy key); [|discriminate].
    intros [= <-]. rewrite lookup_insert_eq. eauto.
Qed.

(** Once loaded, every key the file assigns is set. *)
Lemma load_env_assigned lines : forall (env env' : gmap string string),
  load_env lines env = Ret env' ->
  forall raw key value,
    In raw lines -> parse_line raw = Some (key, value) -> is_Some (env' !! key).
Proof.
  induction lines as [|x rest IH]; simpl; intros env env' E raw key value Hin Hp;
    [destruct Hin|].
  destruct Hin as [->|Hin].
  - rewrite Hp in E.
    destruct (setdefault key value env) as [env1| | |] eqn:S; try discriminate.
    destruct (setdefault_sets _ _ _ _ S) as [v Hv].
    exists v. eapply load_env_keeps; eassumption.
  - destruct (parse_line x) as [[k v]|]; [|eauto].
    destruct (setdefault k v env) as [env1| | |] eqn:S; try discriminate. eauto.
Qed.

Lemma load_env_nothing_new lines : forall (env : gmap string string),
  (forall raw key value,
      In raw lines -> parse_line raw = Some (key, value) -> is_Some (env !! key)) ->
  load_env lines env = Ret env.
Proof.
  induction lines as [|x rest IH]; simpl; intros env Hset; [reflexivity|].
  destruct (parse_line x) as [[k v]|] eqn:Hp.
  - destruct (Hset x k v (or_introl eq_refl) Hp) as [old Hold].
    unfold setdefault. rewrite Hold. apply IH. intros raw key value Hin.
    apply Hset. now right.
  - apply IH. intros raw key value Hin. apply Hset. now right.
Qed.

(** X14. Loading the configuration file is idempotent: once the file
    has been loaded, loading it again changes nothing, and raises
    nothing. *)
Theorem load_env_twice (lines : list string) (env env' : gmap string string) :
  load_env lines env = Ret env' -> load_env lines env' = Ret env'.
Proof.
  intros E. apply load_env_nothing_new. intros raw key value.
  apply (load_env_assigned lines env env' E).
Qed.

Lemma load_env_app pre : forall post (env env1 : gmap string string),
  load_env pre env = Ret env1 -> load_env (pre ++ post) env = load_env post env1.
Proof.
  induction pre as [|x pre IH]; simpl; intros post env env1 E.
  - now injection E as ->.
  - destruct (parse_line x) as [[k v]|]; [|eauto].
    destruct (setdefault k v env) as [env2| | |]; try discriminate. eauto.
Qed.

(** X15. The first line that gives a value to an empty name, when the
    lines before it load, stops the loading with [OSError], and a line
    that brings a NUL character into a new variable stops it with
    [ValueError]: the lines after it are not read. *)
Theorem load_env_stops_at_bad_line
    pre raw post (env env1 : gmap string string) key value :
  load_env pre env = Ret env1 ->
  parse_line raw = Some (key, value) -> env1 !! key = None ->
  (contains NUL key || contains NUL value = true ->
   load_env (pre ++ raw :: post) env = Raise "ValueError")
  /\ (contains NUL value = false -> key = "" ->
      load_env (pre ++ raw :: post) env = Raise "OSError").
Proof.
  intros Hpre Hp Hnew.
  rewrite (load_env_app pre (raw :: post) env env1 Hpre).
  cbn [load_env]. rewrite Hp. unfold setdefault. rewrite Hnew. split.
  - intros ->. reflexivity.
  - intros Hv ->. cbn [contains orb]. rewrite Hv. reflexivity.
Qed.

(** X23. Where the domain comes from: the [--domain] of the command
    line when there is one; otherwise the variable DOMAIN that was set
    before the script started; otherwise the first line of the
    configuration file that assigns DOMAIN. *)
Theorem domain_precedence (lines : list string) (env env' : gmap string string)
    (c : command_line) :
  load_env lines env = Ret env' ->
  domain (parse_args env' c)
  = match cl_domain c, env !! "DOMAIN" with
    | Some d, _ => Some d
    | None, Some d => Some d
    | None, None => first_assignment "DOMAIN" lines
    end.
Proof.
  intros E. unfold parse_args, DEFAULT_DOMAIN, getenv. cbn [domain].
  destruct (cl_domain c) as [d|]; [reflexivity|].
  destruct (env !! "DOMAIN") as [d|] eqn:Hd.
  - apply (load_env_keeps lines env env' _ _ E Hd).
  - apply (load_env_first lines env env' _ E Hd).
Qed.

End EnvMore.

(** ** What is sent: the query, the body and the signature *)

Module RequestFacts.
Import PyStr PyStrFacts ProviderFacts.

(** X16. The filters of a listing are put into the query as they are,
    without escaping: a record type that carries [&subDomain=] gives the
    very query of a type and a subdomain, and an empty filter is no
    filter. *)
Theorem list_path_is_not_escaped domain record_type subdomain :
  truthy record_type = true -> truthy subdomain = true ->
  list_path domain (Some (record_type +:+ "&subDomain=" +:+ subdomain)) None
  = list_path domain (Some record_type) (Some subdomain)
  /\ list_path domain (Some "") (Some subdomain) = list_path domain None (Some subdomain)
  /\ list_path domain (Some record_type) (Some "")
     = list_path domain (Some record_type) None.
Proof.
  intros Ht Hs. unfold list_path. cbn [is_set default from_option id].
  rewrite Ht, Hs. cbn [truthy app].
  assert (Hts : truthy (record_type +:+ "&subDomain=" +:+ subdomain) = true)
    by (destruct record_type; [discriminate | reflexivity]).
  rewrite Hts. cbn [app join]. repeat split.
Qed.

(** X17. The body of a create request determines the record: two
    requests with the same body carry the same type, subdomain, target
    and ttl, whatever characters these hold. *)
Theorem dumps_record_inj t s g n t' s' g' n' :
  Json.dumps_record t s g n = Json.dumps_record t' s' g' n' ->
  t = t' /\ s = s' /\ g = g' /\ n = n'.
Proof.
  intros E. apply (f_equal Provider.read_record) in E.
  rewrite !read_record_dumps in E. now injection E as -> -> -> ->.
Qed.

Lemma hexdigit_hex n :
  0 <= n < 16 ->
  In (Json.hexdigit n) (list_ascii_of_string "0123456789abcdef").
Proof.
  intros Hn.
  assert (Hcases : In n [0; 1; 2; 3; 4; 5; 6; 7; 8; 9; 10; 11; 12; 13; 14; 15]).
  { simpl. lia. }
  simpl in Hcases.
  repeat (destruct Hcases as [<-|Hcases]; [simpl; tauto|]). destruct Hcases.
Qed.

Lemma hex32_shape x :
  String.length (Sha1.hex32 x) = 8%nat
  /\ Forall (fun c => In c (list_ascii_of_string "0123456789abcdef"))
       (list_ascii_of_string (Sha1.hex32 x)).
Proof.
  unfold Sha1.hex32. split.
  - reflexivity.
  - rewrite list_ascii_of_string_of_list_ascii.
    apply List.Forall_forall. intros c Hc. apply in_map_iff in Hc as (i & <- & _).
    apply hexdigit_hex. apply Z.mod_pos_bound. lia.
Qed.

Lemma list_ascii_app a b :
  list_ascii_of_string (a +:+ b) = list_ascii_of_string a ++ list_ascii_of_string b.
Proof. induction a as [|c a IH]; simpl; congruence. Qed.

(** X18. Whatever is signed, the signature is a string of 43
    characters: [$1$] followed by 40 digits out of [0123456789abcdef]. *)
Theorem signature_shape secret consumer method path body server_time :
  exists digits,
    signature secret consumer method path body server_time = "$1$" +:+ digits
    /\ String.length digits = 40%nat
    /\ Forall (fun c => In c (list_ascii_of_string "0123456789abcdef"))
         (list_ascii_of_string digits).
Proof.
  unfold signature. eexists. split; [reflexivity|].
  unfold Sha1.hexdigest, Sha1.hex.
  destruct (Sha1.digest _) as [[[[h0 h1] h2] h3] h4].
  split.
  - rewrite !append_length.
    now rewrite !(proj1 (hex32_shape _)).
  - rewrite !list_ascii_app. repeat (apply Forall_app; split); apply hex32_shape.
Qed.

End RequestFacts.

(** ** The order of the listing *)

Module SortFacts.

Lemma ltb_irrefl a : PyStr.ltb a a = false.
Proof.
  induction a as [|x a IH]; [reflexivity|]. simpl.
  rewrite IH, Z.ltb_irrefl, andb_false_r. reflexivity.
Qed.

Lemma ltb_trans a : forall b c,
  PyStr.ltb a b = true -> PyStr.ltb b c = true -> PyStr.ltb a c = true.
Proof.
  induction a as [|x a IH]; intros [|y b] [|z c]; simpl; try discriminate; auto.
  intros Hab Hbc.
  apply orb_true_iff in Hab as [Hab|Hab], Hbc as [Hbc|Hbc];
    rewrite ?andb_true_iff, ?Z.ltb_lt, ?Z.eqb_eq in *;
    apply orb_true_iff; rewrite ?andb_true_iff, ?Z.ltb_lt, ?Z.eqb_eq.
  - left. lia.
  - left. lia.
  - left. lia.
  - right. split; [lia|]. apply (IH b c); tauto.
Qed.

Lemma key_ltb_irrefl k : key_ltb k k = false.
Proof. unfold key_ltb. now rewrite !ltb_irrefl, andb_false_r. Qed.

Lemma key_ltb_trans a b c :
  key_ltb a b = true -> key_ltb b c = true -> key_ltb a c = true.
Proof.
  unfold key_ltb. intros Hab Hbc.
  apply orb_true_iff in Hab as [Hab|Hab], Hbc as [Hbc|Hbc];
    rewrite ?andb_true_iff, ?String.eqb_eq in *; apply orb_true_iff;
    rewrite ?andb_true_iff, ?String.eqb_eq.
  - left. eapply ltb_trans; eassumption.
  - left. destruct Hbc as [<- _]. assumption.
  - left. destruct Hab as [-> _]. assumption.
  - right. destruct Hab as [-> Hab], Hbc as [-> Hbc]. split; [reflexivity|].
    eapply ltb_trans; eassumption.
Qed.

Lemma key_ltb_asym a b : key_ltb a b = true -> key_ltb b a = false.
Proof.
  intros Hab. destruct (key_ltb b a) eqn:Hba; [|reflexivity].
  rewrite <- (key_ltb_irrefl a). symmetry. eapply key_ltb_trans; eassumption.
Qed.

Lemma insert_sorted_In x l y :
  In y (insert_sorted x l) -> y = x \/ In y l.
Proof.
  induction l as [|z l IH]; simpl.
  - intros [<-|[]]. now left.
  - destruct (key_ltb _ _); simpl.
    + intros [<-|[<-|Hy]]; auto.
    + intros [<-|Hy]; [auto|]. apply IH in Hy as [->|Hy]; auto.
Qed.

Lemma insert_sorted_sorted x l :
  StronglySorted key_le l -> StronglySorted key_le (insert_sorted x l).
Proof.
  induction 1 as [|y l Hs IH Hall]; simpl; [repeat constructor|].
  destruct (key_ltb (fst x) (fst y)) eqn:Hxy.
  - constructor; [constructor; assumption|].
    constructor; [now apply key_ltb_asym|].
    rewrite List.Forall_forall in *. intros z Hz. specialize (Hall z Hz).
    unfold key_le in *. destruct (key_ltb (fst z) (fst x)) eqn:Hzx; [|reflexivity].
    rewrite <- Hall. symmetry. eapply key_ltb_trans; eassumption.
  - constructor; [exact IH|].
    apply List.Forall_forall. intros z Hz. apply insert_sorted_In in Hz as [->|Hz].
    + exact Hxy.
    + rewrite List.Forall_forall in Hall. auto.
Qed.

Lemma insert_sorted_perm x l : Permutation (x :: l) (insert_sorted x l).
Proof.
  induction l as [|y l IH]; simpl; [reflexivity|].
  destruct (key_ltb _ _); [reflexivity|].
  rewrite perm_swap. now constructor.
Qed.

Lemma fold_insert l : forall acc,
  StronglySorted key_le acc ->
  StronglySorted key_le (fold_left (fun acc x => insert_sorted x acc) l acc)
  /\ Permutation (l ++ acc) (fold_left (fun acc x => insert_sorted x acc) l acc).
Proof.
  induction l as [|x l IH]; simpl; intros acc Hacc; [split; [assumption | reflexivity]|].
  destruct (IH (insert_sorted x acc) (insert_sorted_sorted x acc Hacc)) as [Hs Hp].
  split; [exact Hs|]. rewrite <- Hp, <- insert_sorted_perm.
  apply Permutation_middle.
Qed.

Lemma sort_keys_keys records : forall keys,
  sort_keys records = Ret keys -> Forall2 (fun rec k => sort_key rec = Ret k) records keys.
Proof.
  induction records as [|rec rest IH]; simpl; intros keys E.
  - injection E as <-. constructor.
  - destruct (sort_key rec) as [k| | |] eqn:Hk; try discriminate;
      destruct (sort_keys rest) as [ks| | |]; try discriminate.
    injection E as <-. constructor; auto.
Qed.

Lemma collect_keys keys : forall ks,
  collect string_key keys = Some ks ->
  Forall2 (fun k sk => k = (JStr (fst sk), JStr (snd sk))) keys ks.
Proof.
  induction keys as [|k rest IH]; simpl; intros ks E.
  - injection E as <-. constructor.
  - destruct (string_key k) as [sk|] eqn:Hk; [|discriminate].
    destruct (collect string_key rest) as [sks|]; [|discriminate].
    injection E as <-. constructor; [|auto].
    destruct k as [[] []]; try discriminate. now injection Hk as <-.
Qed.

Lemma combine_keys records : forall keys ks,
  Forall2 (fun rec k => sort_key rec = Ret k) records keys ->
  Forall2 (fun k sk => k = (JStr (fst sk), JStr (snd sk))) keys ks ->
  map snd (combine ks records) = records
  /\ Forall (fun p => sort_key (snd p) = Ret (JStr (fst (fst p)), JStr (snd (fst p))))
       (combine ks records).
Proof.
  induction records as [|rec rest IH]; intros keys ks H1 H2.
  - inversion H1; subst. inversion H2; subst. split; [reflexivity | constructor].
  - inversion H1 as [|? k ? keys' Hk H1']; subst.
    inversion H2 as [|? sk ? ks' Hsk H2']; subst.
    destruct (IH keys' ks' H1' H2') as [Hm Hall]. simpl. split.
    + now rewrite Hm.
    + constructor; [exact Hk | exact Hall].
Qed.

Lemma sorted_map (l : list ((string * string) * json)) :
  Forall (fun p => sort_key (snd p) = Ret (JStr (fst (fst p)), JStr (snd (fst p)))) l ->
  StronglySorted key_le l -> StronglySorted in_order (map snd l).
Proof.
  intros Hkeys. induction 1 as [|p l Hs IH Hall]; simpl; [constructor|].
  apply Forall_cons_iff in Hkeys as [Hp Hkeys].
  constructor; [auto|].
  rewrite List.Forall_forall in *. intros b Hb. apply in_map_iff in Hb as (q & <- & Hq).
  intros ka kb Ha Hkb. specialize (Hall q Hq). specialize (Hkeys q Hq). unfold key_le in Hall.
  rewrite Hp in Ha. rewrite Hkeys in Hkb.
  injection Ha as Ha1 Ha2. injection Hkb as Hb1 Hb2.
  destruct ka, kb, p as [[] ?], q as [[] ?]. simpl in *. now subst.
Qed.

(** X19. The rows of the listing are the records that were fetched,
    each one once, put in the order of their keys (subDomain,
    fieldType): no record is printed before a record of a smaller
    key. *)
Theorem sorted_records_sorted (records ordered : list json) :
  sorted_records records = Ret ordered ->
  Permutation records ordered /\ StronglySorted in_order ordered.
Proof.
  unfold sorted_records.
  destruct (sort_keys records) as [keys| | |] eqn:Hkeys; try discriminate.
  apply sort_keys_keys in Hkeys.
  destruct records as [|a [|b rest]].
  - intros [= <-]. split; constructor.
  - intros [= <-]. split; [reflexivity|]. repeat constructor.
  - destruct (collect string_key keys) as [ks|] eqn:Hks; [|discriminate].
    apply collect_keys in Hks. intros [= <-].
    destruct (combine_keys _ _ _ Hkeys Hks) as [Hm Hall].
    destruct (fold_insert (combine ks (a :: b :: rest)) [])
      as [Hs Hp]; [constructor|].
    rewrite app_nil_r in Hp. split.
    + rewrite <- Hm at 1. now apply Permutation_map.
    + apply sorted_map; [|exact Hs].
      rewrite List.Forall_forall in *. intros p Hin. apply Hall.
      eapply Permutation_in; [symmetry; exact Hp | exact Hin].
Qed.

End SortFacts.

(** ** When a deletion counts as done *)

Section PartialFacts.

Context {W : Type} `{Outside W}.
Variable environ : gmap string string.

Lemma accepted_delete_mutates l :
  mutating_calls l = [] -> existsb accepted_delete l = false.
Proof.
  induction l as [|e l IH]; [reflexivity|].
  change (e :: l) with ([e] ++ l). rewrite mutating_calls_app, existsb_app.
  intros Hm. apply app_eq_nil in Hm as [He Hl]. rewrite (IH Hl), orb_false_r.
  destruct e as [rq [r|]| |]; try reflexivity.
  cbn [existsb accepted_delete]. rewrite orb_false_r.
  unfold mutating_calls in He. cbn in He.
  destruct (String.eqb_spec (meth rq) "GET") as [E|E]; [|discriminate].
  rewrite E. reflexivity.
Qed.

(** The flag of the loop is up at the end when it was up at the start
    or one of the DELETEs was accepted. *)
Lemma delete_loop_flag domain subdomain records : forall deleted (w : W) b w' l,
  delete_loop environ domain subdomain records deleted w = (Ret b, w', l) ->
  b = deleted || existsb accepted_delete l.
Proof.
  induction records as [|rec rest IH]; cbn [delete_loop]; intros deleted w b w' l E;
    invert_run; [now rewrite orb_false_r|].
  split_run; invert_run.
  - match goal with
    | Hc : ovh_call _ _ _ _ _ = _ |- _ =>
        apply ovh_call_inv in Hc as (? & ? & rq & _ & _ & -> & Hm & _)
    end.
    split_run; invert_run;
      match goal with
      | Hd : delete_loop _ _ _ _ _ _ = _ |- _ => apply IH in Hd as ->
      end;
      rewrite !existsb_app; cbn [existsb accepted_delete app];
      rewrite Hm, String.eqb_refl;
      match goal with
      | Hs : status_in _ _ = _ |- _ => rewrite Hs
      end; simpl; rewrite ?orb_true_r, ?orb_false_r; reflexivity.
  - match goal with
    | Hd : delete_loop _ _ _ _ _ _ = _ |- _ => apply IH in Hd as ->
    end. reflexivity.
Qed.

(** X22. A [delete_record] that returns gives True exactly when one of
    its DELETE requests was answered with status 200 or 204: one record
    deleted is enough, whatever happened to the others. *)
Theorem delete_record_true_iff_one_deleted
    domain subdomain record_type (w : W) deleted w' log :
  delete_record environ domain subdomain record_type w = (Ret deleted, w', log) ->
  deleted = existsb accepted_delete log.
Proof.
  unfold delete_record. intros E. invert_run.
  match goal with
  | Hlist : list_records _ _ _ _ _ = _ |- _ =>
      apply list_records_reads in Hlist as [Hreads _]
  end.
  apply accepted_delete_mutates in Hreads.
  match goal with
  | Hd : delete_loop _ _ _ _ _ _ = _ |- _ => apply delete_loop_flag in Hd as Hflag
  end.
  cbn [orb] in Hflag.
  rewrite !existsb_app, Hreads, <- Hflag. cbn [existsb orb].
  rewrite orb_false_r.
  match goal with
  | Hrun : (if ?b then _ else _) _ = _ |- _ => destruct b
  end; [reflexivity|].
  match goal with
  | Hrun : match ?rs with [] => _ | _ => _ end _ = _ |- _ => destruct rs
  end; invert_run; reflexivity.
Qed.

End PartialFacts.

(** ** A record that is there, and an API that is not *)

Section AddFacts.

Context {W : Type} `{Outside W}.
Variable environ : gmap string string.

Lemma get_field rec key : is_dict rec -> Json.get rec key = Ret (field rec key).
Proof. intros [kvs ->]. reflexivity. Qed.

(** The loop of [add_record] passes the records of another (subdomain,
    type) and stops at the first record of the pair that has the
    wanted target. *)
Lemma add_loop_stops domain subdomain target record_type pre rec post (w : W) :
  Forall is_dict pre -> is_dict rec ->
  Forall (fun x => belongs subdomain record_type x = false) pre ->
  belongs subdomain record_type rec = true ->
  Json.eq_str (field rec "target") target = true ->
  add_loop environ domain subdomain target record_type (pre ++ rec :: post) w
  = (Ret (Some true), w, [Print (already_exists_message domain subdomain target)]).
Proof.
  intros Hpre Hrec Hother Hb Ht.
  induction pre as [|x pre IH]; cbn [app add_loop].
  - rewrite !(get_field rec) by assumption.
    unfold belongs in Hb. unfold bind, lift. rewrite Hb, Ht. reflexivity.
  - apply Forall_cons_iff in Hpre as [Hx Hpre].
    apply Forall_cons_iff in Hother as [Hbx Hother].
    rewrite !(get_field x) by assumption.
    unfold belongs in Hbx. unfold bind at 1 2. unfold lift at 1 2. rewrite Hbx.
    rewrite (IH Hpre Hother). reflexivity.
Qed.

(** X24. When the first listed record of (subdomain, type) already has
    the wanted target, [add_record] reports that the record exists and
    returns True without sending anything after the listing: no
    DELETE, no create, no refresh. *)
Theorem add_record_keeps_existing
    domain subdomain target record_type ttl (w : W) pre rec post w1 l1 :
  list_records environ domain (Some record_type) (Some subdomain) w
    = (Ret (pre ++ rec :: post), w1, l1) ->
  Forall is_dict pre -> is_dict rec ->
  Forall (fun x => belongs subdomain record_type x = false) pre ->
  belongs subdomain record_type rec = true ->
  Json.eq_str (field rec "target") target = true ->
  add_record environ domain subdomain target record_type ttl w
  = (Ret true, w1, l1 ++ [Print (already_exists_message domain subdomain target)])
  /\ mutating_calls (l1 ++ [Print (already_exists_message domain subdomain target)])
     = [].
Proof.
  intros Hl Hpre Hrec Hother Hb Ht. split.
  - unfold add_record. rewrite (bind_Ret _ _ _ _ _ _ Hl).
    rewrite (bind_Ret _ _ _ _ _ _
               (add_loop_stops domain subdomain target record_type pre rec post w1
                  Hpre Hrec Hother Hb Ht)).
    cbn. rewrite ?app_nil_r. reflexivity.
  - apply list_records_reads in Hl as [Hm _]. now rewrite mutating_calls_app, Hm.
Qed.

Lemma ovh_call_unreachable method path body (w : W) w1 :
  has_keys environ = true -> net w time_request = (None, w1) ->
  ovh_call environ method path body w
  = (Raise "RequestException", w1, [Http time_request None]).
Proof.
  intros Hk Ht. unfold ovh_call.
  change (forallb is_set _) with (has_keys environ). rewrite Hk. cbn [negb].
  unfold bind, send. rewrite Ht. reflexivity.
Qed.

(** X25. Nothing is tried twice: when the request for the server time
    raises, the call raises, and every operation on the zone ends with
    that exception after this one request, having printed nothing; the
    process then ends with exit status 1. *)
Theorem unreachable_api_raises
    domain subdomain target record_type ttl filter_type filter_sub (w : W) w1 :
  has_keys environ = true -> net w time_request = (None, w1) ->
  let raised {A} (m : M W A) :=
    m w = (Raise "RequestException", w1, [Http time_request None]) in
  raised (list_records environ domain filter_type filter_sub)
  /\ raised (add_record environ domain subdomain target record_type ttl)
  /\ raised (delete_record environ domain subdomain record_type)
  /\ raised (refresh_zone environ domain)
  /\ exit_status (A := unit) (Raise "RequestException") = Some 1.
Proof.
  intros Hk Ht raised. unfold raised.
  assert (Hl : forall t s, list_records environ domain t s w
                           = (Raise "RequestException", w1, [Http time_request None])).
  { intros t s. unfold list_records. apply bind_Raise.
    now apply ovh_call_unreachable. }
  repeat split.
  - apply Hl.
  - unfold add_record. apply bind_Raise, Hl.
  - unfold delete_record. apply bind_Raise, Hl.
  - unfold refresh_zone. apply bind_Raise. now apply ovh_call_unreachable.
Qed.

End AddFacts.

(** * The further properties at concrete inputs *)

Module MoreExamples.
Import Provider ProviderView ZoneView Demo.

(** ** Requests that are never sent *)

Lemma reading_actions_send_only_gets_example :
  mutating_calls
    (snd (main environ (parse_args environ list_www) (provider [www1; mail]))) = [].
Proof.
  apply reading_actions_send_only_gets. vm_compute. auto.
Defined.

(** The consumer key is set, but empty. *)
Lemma no_request_without_keys_example :
  add_record (<["OVH_CONSUMER_KEY" := ""]> environ)
    "example.com" "www" "192.0.2.1" "A" 3600 (provider [mail])
  = (Exit 1, provider [mail], credentials_error)
  /\ delete_record (<["OVH_CONSUMER_KEY" := ""]> environ)
       "example.com" "mail" "CNAME" (provider [mail])
     = (Exit 1, provider [mail], credentials_error).
Proof.
  destruct (no_request_without_keys (<["OVH_CONSUMER_KEY" := ""]> environ)
              "example.com" "www" "192.0.2.1" "A" 3600 None None (provider [mail]))
    as (_ & Hadd & _); [vm_compute; reflexivity|].
  destruct (no_request_without_keys (<["OVH_CONSUMER_KEY" := ""]> environ)
              "example.com" "mail" "" "CNAME" 3600 None None (provider [mail]))
    as (_ & _ & Hdel & _); [vm_compute; reflexivity|].
  split; [exact Hadd | exact Hdel].
Defined.

(** The method in lower case is not a method the client knows. *)
Lemma ovh_call_unknown_method_example :
  ovh_call environ "get" "/domain/zone/example.com/record" "" (provider [mail])
  = (Raise "ValueError", provider [mail],
     [Http time_request (Some (Response 200 "1700000000" (Some (JInt 1700000000))))]).
Proof.
  apply ovh_call_unknown_method.
  - vm_compute. reflexivity.
  - intros [E|[E|[E|[E|[]]]]]; discriminate.
  - vm_compute. reflexivity.
Defined.

(** ** Listings and creates that are refused *)

Lemma refused_listing_reads_as_empty_example :
  let run :=
    delete_record environ "example.com" "www" "A"
      [time_answer; Some (Response 500 "Internal Server Error" None)] in
  fst (fst run) = Ret false
  /\ printed (snd run)
     = ["Error listing records: Internal Server Error";
        "No A record found for www.example.com"].
Proof.
  edestruct (refused_listing_reads_as_empty environ "example.com" "www" "A"
               [time_answer; Some (Response 500 "Internal Server Error" None)])
    as [_ Hdel].
  - vm_compute. reflexivity.
  - vm_compute. discriminate.
  - cbv zeta. rewrite Hdel. vm_compute. split; reflexivity.
Defined.

(** A create that is refused, and a create that is accepted before the
    refresh fails. *)
Lemma add_record_follows_create_example :
  (let run :=
     add_record environ "example.com" "www" "192.0.2.1" "A" 3600
       [time_answer; Some (Response 200 "" (Some (JList [])));
        time_answer; Some (Response 400 "Bad Request" None)] in
   fst (fst run) = Ret false
   /\ printed (snd run) = ["Error adding record: Bad Request"]
   /\ mutating_calls (snd run) = [("POST", create_url "example.com")])
  /\ (let run :=
        add_record environ "example.com" "www" "192.0.2.1" "A" 3600
          [time_answer; Some (Response 200 "" (Some (JList [])));
           time_answer; Some (Response 201 "" None);
           time_answer; Some (Response 500 "Zone locked" None)] in
      fst (fst run) = Ret true
      /\ printed (snd run)
         = ["Added A record: www.example.com -> 192.0.2.1";
            "Warning: Could not refresh zone: Zone locked"]).
Proof.
  split.
  - edestruct (add_record_follows_create environ "example.com" "www" "192.0.2.1" "A" 3600
                 [time_answer; Some (Response 200 "" (Some (JList [])));
                  time_answer; Some (Response 400 "Bad Request" None)])
      as [Hrefused _].
    + vm_compute. reflexivity.
    + vm_compute. reflexivity.
    + destruct Hrefused as [Hrun _]; [vm_compute; reflexivity|].
      cbv zeta. rewrite Hrun. vm_compute. repeat split.
  - edestruct (add_record_follows_create environ "example.com" "www" "192.0.2.1" "A" 3600
                 [time_answer; Some (Response 200 "" (Some (JList [])));
                  time_answer; Some (Response 201 "" None);
                  time_answer; Some (Response 500 "Zone locked" None)])
      as [_ Haccepted].
    + vm_compute. reflexivity.
    + vm_compute. reflexivity.
    + cbv zeta. erewrite Haccepted; [| vm_compute; reflexivity | vm_compute; reflexivity].
      vm_compute. split; reflexivity.
Defined.

(** ** Deleting *)

Lemma delete_record_refreshes_after_deleting_example :
  exists deletes,
    mutating_calls (snd (delete_record environ "example.com" "www" "A"
                           (provider [www1; mail])))
    = deletes ++ [("POST", refresh_url "example.com")]
    /\ deletes <> [].
Proof.
  edestruct (delete_record_refreshes_after_deleting environ "example.com" "www" "A"
               (provider [www1; mail]) true) as (deletes & Hcalls & _ & Hsome).
  - vm_compute. reflexivity.
  - exists deletes. split; [exact Hcalls | apply Hsome; reflexivity].
Defined.

(** Two www records and one mail record: both www records go. *)
Lemma delete_record_removes_selected_example :
  runs (delete_record environ "example.com" "www" "A")
       (provider [www1; mail; www2]) true (provider [mail])
       [("DELETE", record_url "example.com" "1");
        ("DELETE", record_url "example.com" "2");
        ("POST", refresh_url "example.com")]
       ["Deleted record: www.example.com (ID: 1)";
        "Deleted record: www.example.com (ID: 2)";
        "Zone example.com refreshed"].
Proof.
  apply (ProviderDeletion.delete_record_removes_selected
           (provider [www1; mail; www2]) "www" "A").
  - repeat split; reflexivity.
  - split.
    + apply (bool_decide_unpack (NoDup (map rid (records (provider [www1; mail; www2]))))).
      vm_compute. exact I.
    + repeat constructor; discriminate.
  - reflexivity.
  - reflexivity.
Defined.

(** ** Adding *)

Lemma add_cname_targets_domain_example :
  runs (main environ (Args "add" (Some "www") (Some "example.com") None "CNAME" 3600))
       (offline [www1]) tt
       (with_new (offline [www1]) "www" "CNAME" "example.com." 3600)
       [("POST", create_url "example.com"); ("POST", refresh_url "example.com")]
       ["Added CNAME record: www.example.com -> example.com.";
        "Zone example.com refreshed"].
Proof.
  apply (ProviderCommands.add_cname_targets_domain (offline [www1])
           (Args "add" (Some "www") (Some "example.com") None "CNAME" 3600) "www");
    try reflexivity.
  - repeat split; reflexivity.
  - split.
    + apply (bool_decide_unpack (NoDup (map rid (records (offline [www1]))))).
      vm_compute. exact I.
    + repeat constructor; discriminate.
Defined.

Lemma add_targets_echo_answer_example :
  runs (main environ add_www) (provider [mail]) tt
       (with_new (provider [mail]) "www" "A" "203.0.113.5" 3600)
       [("POST", create_url "example.com"); ("POST", refresh_url "example.com")]
       ["Added A record: www.example.com -> 203.0.113.5";
        "Zone example.com refreshed"].
Proof.
  apply (ProviderCommands.add_targets_echo_answer (provider [mail]) add_www "www"
           (Response 200 "203.0.113.5" None));
    try reflexivity.
  - repeat split; reflexivity.
  - split.
    + apply (bool_decide_unpack (NoDup (map rid (records (provider [mail]))))).
      vm_compute. exact I.
    + repeat constructor; discriminate.
  - discriminate.
Defined.

Lemma add_record_twice_on_unique_example :
  exists st1 calls1 out1,
    runs (add_record environ "example.com" "www" "192.0.2.9" "A" 3600)
         (provider [www1; mail]) true st1 calls1 out1
    /\ runs (add_record environ "example.com" "www" "192.0.2.9" "A" 3600)
            st1 true st1 [] ["Record already exists: www.example.com -> 192.0.2.9"].
Proof.
  apply (ProviderIdempotence.add_record_twice_on_unique (provider [www1; mail])
           "www" "A" "192.0.2.9" 3600).
  - repeat split; reflexivity.
  - split.
    + apply (bool_decide_unpack (NoDup (map rid (records (provider [www1; mail]))))).
      vm_compute. exact I.
    + repeat constructor; discriminate.
  - repeat constructor.
  - discriminate.
  - reflexivity.
  - vm_compute. lia.
Defined.

(** ** Command line *)

Lemma main_validates_first_example :
  main environ (Args "list" None (Some "") None "CNAME" 3600) (provider [mail])
  = (Exit 2, provider [mail], [])
  /\ main environ (Args "delete" None (Some "example.com") None "CNAME" 3600)
       (provider [mail])
     = (Exit 2, provider [mail], []).
Proof.
  split.
  - destruct (main_validates_first environ
                (Args "list" None (Some "") None "CNAME" 3600) (provider [mail]))
      as [Hdomain _]; [discriminate|].
    apply Hdomain. reflexivity.
  - destruct (main_validates_first environ
                (Args "delete" None (Some "example.com") None "CNAME" 3600)
                (provider [mail]))
      as [_ Hsubdomain]; [discriminate|].
    apply Hsubdomain; [discriminate | reflexivity].
Defined.



(** ** Listing *)

Lemma list_records_requests_example :
  length (calls (snd (list_records environ "example.com" (Some "A") (Some "www") flaky)))
  = 8%nat.
Proof.
  refine (proj1 (list_records_requests environ "example.com" (Some "A") (Some "www")
                   flaky _ _ _ [JInt 1; JInt 2; JInt 3] _ _
                   (snd (list_records environ "example.com" (Some "A") (Some "www")
                           flaky)) _ _ _ _)).
  - vm_compute. reflexivity.
  - reflexivity.
  - reflexivity.
  - vm_compute. reflexivity.
Defined.

(** ** Deleting, again *)

(** The one DELETE of the run is refused. *)
Lemma delete_record_true_iff_one_deleted_example :
  fst (fst refused_deletion) = Ret false
  /\ existsb accepted_delete (snd refused_deletion) = false.
Proof.
  split; [reflexivity|]. symmetry.
  apply (delete_record_true_iff_one_deleted environ "example.com" "www" "A" refused
           false (snd (fst refused_deletion)) (snd refused_deletion)).
  vm_compute. reflexivity.
Defined.

(** ** Configuration file, again *)

Lemma load_env_twice_example : Env.load_env env_lines env_after = Ret env_after.
Proof.
  apply (EnvMore.load_env_twice env_lines env_before env_after).
  vm_compute. reflexivity.
Defined.

(** A line without a name, and a line with a NUL in its value. *)
Lemma load_env_stops_at_bad_line_example :
  Env.load_env ["DOMAIN=example.com"; "=oops"; "OVH_CONSUMER_KEY=ck"] ∅
  = Raise "OSError"
  /\ Env.load_env ["DOMAIN=example.com"; "KEY=a" +:+ String Env.NUL "b"] ∅
     = Raise "ValueError".
Proof.
  split.
  - destruct (EnvMore.load_env_stops_at_bad_line ["DOMAIN=example.com"] "=oops"
                ["OVH_CONSUMER_KEY=ck"] ∅ {["DOMAIN" := "example.com"]} "" "oops")
      as [_ Hname]; [vm_compute; reflexivity | reflexivity | reflexivity|].
    apply Hname; reflexivity.
  - destruct (EnvMore.load_env_stops_at_bad_line ["DOMAIN=example.com"]
                ("KEY=a" +:+ String Env.NUL "b") [] ∅ {["DOMAIN" := "example.com"]}
                "KEY" ("a" +:+ String Env.NUL "b"))
      as [Hnul _]; [vm_compute; reflexivity | vm_compute; reflexivity | reflexivity|].
    apply Hnul. reflexivity.
Defined.

(** DOMAIN is not set before the script starts: the file decides. *)
Lemma domain_precedence_example :
  domain (parse_args env_after
            (CommandLine "list" None None None None None)) = Some "example.com".
Proof.
  rewrite (EnvMore.domain_precedence env_lines env_before env_after);
    [reflexivity | vm_compute; reflexivity].
Defined.

(** ** Requests *)

Lemma list_path_is_not_escaped_example :
  list_path "example.com" (Some "A&subDomain=www") None
  = list_path "example.com" (Some "A") (Some "www").
Proof.
  destruct (RequestFacts.list_path_is_not_escaped "example.com" "A" "www")
    as [Hsame _]; [reflexivity | reflexivity | exact Hsame].
Defined.

Lemma dumps_record_inj_example :
  "TXT" = "T" +:+ "XT" /\ "www" = "www" /\ String Json.dquote ", " = String Json.dquote ", "
  /\ 60 = 30 + 30.
Proof.
  apply (RequestFacts.dumps_record_inj
           "TXT" "www" (String Json.dquote ", ") 60
           ("T" +:+ "XT") "www" (String Json.dquote ", ") (30 + 30)).
  reflexivity.
Defined.

(** ** The order of the listing *)

Lemma sorted_records_sorted_example :
  let rows := map (to_json "example.com") [mail; www1; www2] in
  sorted_records (map (to_json "example.com") [www1; mail; www2]) = Ret rows
  /\ StronglySorted in_order rows.
Proof.
  assert (E : sorted_records (map (to_json "example.com") [www1; mail; www2])
              = Ret (map (to_json "example.com") [mail; www1; www2]))
    by (vm_compute; reflexivity).
  split; [exact E|].
  apply (SortFacts.sorted_records_sorted _ _ E).
Defined.

(** ** A record that is there, and an API that is not *)

Lemma add_record_keeps_existing_example :
  let run :=
    add_record environ "example.com" "www" "192.0.2.1" "A" 3600
      [time_answer; Some (Response 200 "" (Some (JList [JInt 1])));
       time_answer; Some (Response 200 "" (Some (detail 1 "192.0.2.1")))] in
  fst (fst run) = Ret true
  /\ printed (snd run) = ["Record already exists: www.example.com -> 192.0.2.1"]
  /\ mutating_calls (snd run) = [].
Proof.
  edestruct (add_record_keeps_existing environ "example.com" "www" "192.0.2.1" "A" 3600
               [time_answer; Some (Response 200 "" (Some (JList [JInt 1])));
                time_answer; Some (Response 200 "" (Some (detail 1 "192.0.2.1")))]
               [] (detail 1 "192.0.2.1") []) as [Hrun Hcalls].
  - vm_compute. reflexivity.
  - constructor.
  - eexists. reflexivity.
  - constructor.
  - reflexivity.
  - reflexivity.
  - cbv zeta. rewrite Hrun. cbn [fst snd]. rewrite Hcalls.
    split; [reflexivity|]. split; [vm_compute; reflexivity | reflexivity].
Defined.

(** No answer at all. *)
Lemma unreachable_api_raises_example :
  add_record environ "example.com" "www" "192.0.2.1" "A" 3600 ([] : Scripted.world)
  = (Raise "RequestException", [], [Http time_request None]).
Proof.
  destruct (unreachable_api_raises environ "example.com" "www" "192.0.2.1" "A" 3600
              None None ([] : Scripted.world) [])
    as (_ & Hadd & _); [vm_compute; reflexivity | reflexivity | exact Hadd].
Defined.

End MoreExamples.
